(** * DataViz: the profiling engine of [src/utils/dataProcessing.ts], the
      local analytics of [computeLocalAnalytics] and the filtered rows of
      the dashboard

    A shallow embedding of the TypeScript sources, function by function and
    under the names of the sources, followed by the properties proved of it.

    How the JavaScript run time is modelled:
    - a value is one of the primitives [undefined], [null], a boolean, a
      number or a string ([JsVal]); what [JSON.parse] returns is a tree
      ([Json]);
    - a number is an IEEE-754 binary64, the kernel's primitive [float];
      [Number], [parseFloat] and [String] on numbers follow ECMAScript
      ([StringToNumber], [StrDecimalLiteral], [Number::toString]), decimal
      literals being rounded to the nearest double; [Math.sqrt] is the
      IEEE square root and [Math.pow(x, 2)] the rounded square;
    - a string is a sequence of 8-bit code units, the part of UTF-16 below
      U+0100;
    - an object used as a record, and a [Map], is the list of its bindings
      in insertion order; a record has [Object.prototype] as prototype, so
      an assignment to [__proto__] adds no property; a read gives the own
      property, and [undefined] without one (what the code reads under a
      name of [Object.prototype] the record does not own, an object or a
      function, is outside the values modelled);
    - an exception is a [Throw] or [ThrowRangeError] result;
    - what ECMAScript leaves to the engine is an interface the functions
      take as a parameter: [Date], whose parser is the engine's outside one
      format ([DateImpl]), and the number of arguments a call can take
      ([Engine]); [IsoDate.impl] is an instance for the examples. *)

From Stdlib Require Import ZArith List String Ascii Bool Lia Floats.
From Stdlib Require Import Permutation Sorted.
Import ListNotations.
Local Open Scope string_scope.
#[local] Set Warnings "-inexact-float".

(** ** Strings *)

Module Str.

Definition code (c : ascii) : nat := nat_of_ascii c.

(** [WhiteSpace] and [LineTerminator] of ECMAScript below U+0100: TAB, LF,
    VT, FF, CR, SP and NBSP.  This is the set stripped by [trim] and matched
    by [\s]. *)
Definition isWhiteSpace (c : ascii) : bool :=
  let n := code c in
  (((9 <=? n) && (n <=? 13)) || (n =? 32) || (n =? 160))%nat.

Definition isDigit (c : ascii) : bool :=
  let n := code c in ((48 <=? n) && (n <=? 57))%nat.

(** [.] of a regular expression without the [s] flag: anything but LF, CR. *)
Definition isLineTerminator (c : ascii) : bool :=
  let n := code c in ((n =? 10) || (n =? 13))%nat.

Definition lowerChar (c : ascii) : ascii :=
  let n := code c in
  if (((65 <=? n) && (n <=? 90))
      || ((192 <=? n) && (n <=? 222) && negb (n =? 215)))%nat
  then ascii_of_nat (n + 32) else c.

Fixpoint toLowerCase (s : string) : string :=
  match s with
  | EmptyString => EmptyString
  | String c r => String (lowerChar c) (toLowerCase r)
  end.

Definition isEmpty (s : string) : bool :=
  match s with EmptyString => true | _ => false end.

Fixpoint trimStart (s : string) : string :=
  match s with
  | EmptyString => EmptyString
  | String c r => if isWhiteSpace c then trimStart r else s
  end.

Fixpoint trimEnd (s : string) : string :=
  match s with
  | EmptyString => EmptyString
  | String c r =>
      let r' := trimEnd r in
      if isWhiteSpace c && isEmpty r' then EmptyString else String c r'
  end.

Definition trim (s : string) : string := trimEnd (trimStart s).

(** Longest prefix whose characters satisfy [p], and the rest. *)
Fixpoint span (p : ascii -> bool) (s : string) : string * string :=
  match s with
  | EmptyString => (EmptyString, EmptyString)
  | String c r =>
      if p c then let '(a, b) := span p r in (String c a, b)
      else (EmptyString, s)
  end.

Fixpoint forallb (p : ascii -> bool) (s : string) : bool :=
  match s with
  | EmptyString => true
  | String c r => p c && forallb p r
  end.

Fixpoint removeAll (p : ascii -> bool) (s : string) : string :=
  match s with
  | EmptyString => EmptyString
  | String c r => if p c then removeAll p r else String c (removeAll p r)
  end.

(** [pre] is a prefix of [s], comparing letters without case; on success
    the remainder of [s] is returned. *)
Fixpoint stripPrefixCI (pre s : string) : option string :=
  match pre, s with
  | EmptyString, _ => Some s
  | String a p', String b s' =>
      if Ascii.eqb (lowerChar a) (lowerChar b) then stripPrefixCI p' s'
      else None
  | String _ _, EmptyString => None
  end.

Fixpoint containsCI (needle s : string) : bool :=
  match stripPrefixCI needle s with
  | Some _ => true
  | None => match s with
            | EmptyString => false
            | String _ r => containsCI needle r
            end
  end.

Fixpoint stripPrefix (pre s : string) : option string :=
  match pre, s with
  | EmptyString, _ => Some s
  | String a p', String b s' => if Ascii.eqb a b then stripPrefix p' s' else None
  | String _ _, EmptyString => None
  end.

(** [s.includes(needle)] *)
Fixpoint contains (needle s : string) : bool :=
  match stripPrefix needle s with
  | Some _ => true
  | None => match s with
            | EmptyString => false
            | String _ r => contains needle r
            end
  end.

Definition isSign (c : ascii) : bool :=
  Ascii.eqb c "+"%char || Ascii.eqb c "-"%char.

Definition dropSign (s : string) : string :=
  match s with
  | String c r => if isSign c then r else s
  | EmptyString => s
  end.

End Str.

(** ** The regular expressions of the sources, as recognisers *)

Module Re.
Import Str.

(** [/^_+\d+$/] *)
Definition autoNumbered (s : string) : bool :=
  let '(us, r) := span (Ascii.eqb "_"%char) s in
  let '(ds, r') := span isDigit r in
  negb (isEmpty us) && negb (isEmpty ds) && isEmpty r'.

(** [/^__?EMPTY.*$/i]: one underscore or two, the word, then no line
    terminator up to the end of the input. *)
Definition emptyMarker (s : string) : bool :=
  match s with
  | String "_"%char r =>
      let r1 := match r with String "_"%char r2 => r2 | _ => r end in
      match stripPrefixCI "EMPTY" r1 with
      | Some rest => forallb (fun c => negb (isLineTerminator c)) rest
      | None => false
      end
  | _ => false
  end.

(** [(?:\.\d+)?$] *)
Definition optFractionEnd (s : string) : bool :=
  match s with
  | EmptyString => true
  | String "."%char r =>
      let '(ds, r') := span isDigit r in negb (isEmpty ds) && isEmpty r'
  | _ => false
  end.

(** [(?:[ ,]\d{3})*(?:\.\d+)?$]; [thousands] asks for one group at least. *)
Fixpoint thousandsGroups (s : string) : bool :=
  match s with
  | String sep (String a (String b (String c r))) =>
      if (Ascii.eqb sep " "%char || Ascii.eqb sep ","%char)
         && isDigit a && isDigit b && isDigit c
      then thousandsGroups r
      else optFractionEnd s
  | _ => optFractionEnd s
  end.

(** [/^[+-]?\d{1,3}(?:[ ,]\d{3})+(?:\.\d+)?$/] *)
Definition thousands (s : string) : bool :=
  let '(ds, r) := span isDigit (dropSign s) in
  let n := String.length ds in
  ((1 <=? n) && (n <=? 3))%nat &&
  match r with
  | String sep (String a (String b (String c r'))) =>
      (Ascii.eqb sep " "%char || Ascii.eqb sep ","%char)
      && isDigit a && isDigit b && isDigit c && thousandsGroups r'
  | _ => false
  end.

(** [/^[+-]?\d+(?:\.\d+)?$/] *)
Definition simpleNumeric (s : string) : bool :=
  let '(ds, r) := span isDigit (dropSign s) in
  negb (isEmpty ds) && optFractionEnd r.

(** [s.match(/(19|20)\d{2}/)]: the leftmost match, if any. *)
Fixpoint yearMatch (s : string) : option string :=
  match s with
  | EmptyString => None
  | String a t =>
      match t with
      | String b (String c (String d _)) =>
          if ((Ascii.eqb a "1"%char && Ascii.eqb b "9"%char)
              || (Ascii.eqb a "2"%char && Ascii.eqb b "0"%char))
             && isDigit c && isDigit d
          then Some (String a (String b (String c (String d EmptyString))))
          else yearMatch t
      | _ => None
      end
  end.

(** [/year|date|time|occurrence/i.test(name)] *)
Definition dateLikeName (name : string) : bool :=
  containsCI "year" name || containsCI "date" name
  || containsCI "time" name || containsCI "occurrence" name.

(** [name.replace(/\.[^/.]+$/, '')]: the match, when there is one, starts
    at the last dot, which must be followed by one character at least and
    by no slash. *)
Fixpoint stripExtension (s : string) : string :=
  match s with
  | EmptyString => EmptyString
  | String c r =>
      if Ascii.eqb c "."%char && negb (isEmpty r)
         && forallb (fun x => negb (Ascii.eqb x "/"%char || Ascii.eqb x "."%char)) r
      then EmptyString
      else String c (stripExtension r)
  end.

End Re.


(** ** Numbers: IEEE-754 binary64 and the conversions of ECMAScript *)

Module Num.
Import Str.
Local Open Scope Z_scope.

(** The double nearest to an integer (ties to even). *)
Definition ofZ (z : Z) : float :=
  SF2Prim (binary_normalize prec emax z 0 false).

Definition ofNat (n : nat) : float := ofZ (Z.of_nat n).

(** The double nearest to [m * 10^e], for [0 <= m].  Beyond ten to the
    400 the result is an infinity, below ten to the -400 a zero; in between
    the quotient is rounded once, by [SFdiv]. *)
Definition ofDecimal (neg : bool) (m e : Z) : float :=
  let signed (x : float) := if neg then (- x)%float else x in
  if m <=? 0 then signed zero
  else if 0 <=? e then
    if 400 <? e then signed infinity else signed (ofZ (m * 10 ^ e))
  else if (Z.log2 m + 1) / 3 + 1 + e <? -400 then signed zero
  else signed (SF2Prim (SFdiv prec emax
                          (S754_finite false (Z.to_pos m) 0)
                          (S754_finite false (Z.to_pos (10 ^ (- e))) 0))).

Definition digitVal (c : ascii) : Z := Z.of_nat (code c) - 48.

Fixpoint digitsToZ (acc : Z) (s : string) : Z :=
  match s with
  | EmptyString => acc
  | String c r => digitsToZ (10 * acc + digitVal c) r
  end.

Definition hexVal (c : ascii) : option Z :=
  let n := Z.of_nat (code c) in
  if (48 <=? n) && (n <=? 57) then Some (n - 48)
  else if (65 <=? n) && (n <=? 70) then Some (n - 55)
  else if (97 <=? n) && (n <=? 102) then Some (n - 87)
  else None.

(** Digits of a literal in base [b], all of the string; [None] on an empty
    string or on a character that is no digit of the base. *)
Fixpoint radixToZ (b : Z) (acc : option Z) (s : string) : option Z :=
  match s with
  | EmptyString => acc
  | String c r =>
      match hexVal c with
      | Some d => if d <? b
                  then radixToZ b (Some (b * match acc with Some a => a | None => 0 end + d)) r
                  else None
      | None => None
      end
  end.

Variant DecLit := LitInfinity (neg : bool) | LitNumber (neg : bool) (m e : Z).

Definition litValue (l : DecLit) : float :=
  match l with
  | LitInfinity neg => if neg then neg_infinity else infinity
  | LitNumber neg m e => ofDecimal neg m e
  end.

(** [ExponentPart] when one is there: the exponent and what follows it. *)
Definition scanExponent (s : string) : Z * string :=
  match s with
  | String c r =>
      if Ascii.eqb c "e"%char || Ascii.eqb c "E"%char then
        let neg := match r with String "-"%char _ => true | _ => false end in
        let '(ds, rest) := span isDigit (dropSign r) in
        if isEmpty ds then (0, s)
        else (if neg then - digitsToZ 0 ds else digitsToZ 0 ds, rest)
      else (0, s)
  | EmptyString => (0, s)
  end.

(** The longest prefix of [s] that is a [StrDecimalLiteral], with the rest
    of [s]. *)
Definition scanDecimal (s : string) : option (DecLit * string) :=
  let neg := match s with String "-"%char _ => true | _ => false end in
  let s1 := dropSign s in
  match stripPrefix "Infinity" s1 with
  | Some rest => Some (LitInfinity neg, rest)
  | None =>
      let '(ip, s2) := span isDigit s1 in
      let '(fp, s3) :=
        match s2 with
        | String "."%char r =>
            let '(fp, s3) := span isDigit r in
            if isEmpty ip && isEmpty fp then (EmptyString, s2) else (fp, s3)
        | _ => (EmptyString, s2)
        end in
      if isEmpty ip && isEmpty fp then None
      else
        let '(ex, rest) := scanExponent s3 in
        Some (LitNumber neg (digitsToZ (digitsToZ 0 ip) fp)
                        (ex - Z.of_nat (String.length fp)), rest)
  end.

(** [parseFloat] on a string. *)
Definition parseFloatString (s : string) : float :=
  match scanDecimal (trimStart s) with
  | Some (l, _) => litValue l
  | None => nan
  end.

(** [StringToNumber]: the whole trimmed string is a numeric literal (the
    empty string is zero); decimal literals are rounded correctly whatever
    their length. *)
Definition stringToNumber (s : string) : float :=
  let t := trim s in
  if isEmpty t then zero
  else
    match t with
    | String "0"%char (String p r) =>
        let base := if Ascii.eqb (lowerChar p) "x"%char then Some 16
                    else if Ascii.eqb (lowerChar p) "o"%char then Some 8
                    else if Ascii.eqb (lowerChar p) "b"%char then Some 2
                    else None in
        match base with
        | Some b => match radixToZ b None r with
                    | Some v => ofZ v
                    | None => nan
                    end
        | None => match scanDecimal t with
                  | Some (l, EmptyString) => litValue l
                  | _ => nan
                  end
        end
    | _ => match scanDecimal t with
           | Some (l, EmptyString) => litValue l
           | _ => nan
           end
    end.

(** A finite double as sign, numerator and denominator. *)
Definition toRatio (x : float) : option (bool * Z * Z) :=
  match Prim2SF x with
  | S754_zero s => Some (s, 0, 1)
  | S754_finite s m e =>
      Some (s, if 0 <=? e then Zpos m * 2 ^ e else Zpos m,
               if 0 <=? e then 1 else 2 ^ (- e))
  | _ => None
  end.

(** [Number.isInteger] *)
Definition isInteger (x : float) : bool :=
  match toRatio x with
  | Some (_, n, d) => n mod d =? 0
  | None => false
  end.

Definition isNaN (x : float) : bool := is_nan x.
Definition isFinite (x : float) : bool := is_finite x.

(** [Math.round]: the integer nearest to [x], a tie going up; the sign of a
    zero result is the sign of [x]. *)
Definition round (x : float) : float :=
  match Prim2SF x with
  | S754_finite s m e =>
      if 0 <=? e then x
      else
        let den := 2 ^ (- e) in
        let num := if s then Zneg m else Zpos m in
        let r := (2 * num + den) / (2 * den) in
        if r =? 0 then (if s then neg_zero else zero) else ofZ r
  | _ => x
  end.

(** [ToIntegerOrInfinity] on a finite double: truncation toward zero. *)
Definition trunc (x : float) : float :=
  match Prim2SF x with
  | S754_finite s m e =>
      if 0 <=? e then x
      else let q := Zpos m / 2 ^ (- e) in
           if q =? 0 then zero else ofZ (if s then - q else q)
  | S754_zero _ => zero
  | _ => x
  end.

(** [Math.min] and [Math.max] of the arguments [l]: a NaN wins, and the
    negative zero is below the positive one.  (Whether a call can pass [l]
    as arguments is the matter of [spread] below.) *)
Definition min2 (a b : float) : float :=
  if is_nan a then a else if is_nan b then b
  else if (a <? b)%float then a else if (b <? a)%float then b
  else if get_sign a then a else b.

Definition max2 (a b : float) : float :=
  if is_nan a then a else if is_nan b then b
  else if (a <? b)%float then b else if (b <? a)%float then a
  else if get_sign a then b else a.

Definition min (l : list float) : float := fold_left min2 l infinity.
Definition max (l : list float) : float := fold_left max2 l neg_infinity.

(** *** [Number::toString] in base ten *)

Definition digitChar (d : Z) : ascii := ascii_of_nat (Z.to_nat (48 + d)).

Fixpoint digitsOf (fuel : nat) (z : Z) (acc : string) : string :=
  match fuel with
  | O => acc
  | S f =>
      let acc' := String (digitChar (z mod 10)) acc in
      if z <? 10 then acc' else digitsOf f (z / 10) acc'
  end.

(** The decimal digits of a natural number. *)
Definition natString (z : Z) : string :=
  digitsOf (S (Z.to_nat (Z.log2 z))) z EmptyString.

(** [num/den * 10^p] as a fraction. *)
Definition scale10 (num den p : Z) : Z * Z :=
  if 0 <=? p then (num * 10 ^ p, den) else (num, den * 10 ^ (- p)).

(** [10^n <= num/den] *)
Definition geqPow10 (num den n : Z) : bool :=
  let '(a, b) := scale10 num den (- n) in b <=? a.

Fixpoint adjustUp (fuel : nat) (num den n : Z) : Z :=
  match fuel with
  | O => n
  | S f => if geqPow10 num den n then adjustUp f num den (n + 1) else n
  end.

Fixpoint adjustDown (fuel : nat) (num den n : Z) : Z :=
  match fuel with
  | O => n
  | S f => if geqPow10 num den (n - 1) then n else adjustDown f num den (n - 1)
  end.

(** The [n] with [10^(n-1) <= num/den < 10^n], from the binary logarithms
    (which place it within one of the estimate). *)
Definition decimalExponent (num den : Z) : Z :=
  let est := ((Z.log2 num - Z.log2 den) * 30103) / 100000 in
  adjustDown 4 num den (adjustUp 4 num den est).

(** The shortest digit string [s] of at most [k + fuel - 1] digits, and the
    exponent [n], with [s * 10^(n-k)] rounding to [x]; the nearest to [x]
    among the strings of that length, the even one at a tie. *)
Fixpoint shortest (fuel : nat) (x : float) (num den n k : Z) : Z * Z * Z :=
  let '(a, b) := scale10 num den (k - n) in
  let lo := a / b in
  let hi := lo + 1 in
  let okLo := (ofDecimal false lo (n - k) =? x)%float in
  let okHi := (ofDecimal false hi (n - k) =? x)%float in
  let twice := 2 * (a - lo * b) in
  let pickLo := if okLo && okHi
                then (twice <? b) || ((twice =? b) && Z.even lo)
                else okLo in
  let result := if pickLo then (lo, k, n)
                else if hi =? 10 ^ k then (10 ^ (k - 1), k, n + 1)
                else (hi, k, n) in
  match fuel with
  | O => result
  | S f => if okLo || okHi then result else shortest f x num den n (k + 1)
  end.

Fixpoint zeros (n : nat) : string :=
  match n with O => EmptyString | S m => String "0"%char (zeros m) end.

Fixpoint stripTrailingZeros (fuel : nat) (s k : Z) : Z * Z :=
  match fuel with
  | O => (s, k)
  | S f => if (1 <? k) && (s mod 10 =? 0) then stripTrailingZeros f (s / 10) (k - 1)
           else (s, k)
  end.

Definition positiveToString (x : float) (num den : Z) : string :=
  let n0 := decimalExponent num den in
  let '(s0, k0, n) := shortest 16 x num den n0 1 in
  let '(s, k) := stripTrailingZeros 17 s0 k0 in
  let ds := natString s in
  if (k <=? n) && (n <=? 21) then ds ++ zeros (Z.to_nat (n - k))
  else if (0 <? n) && (n <=? 21) then
    substring 0 (Z.to_nat n) ds ++ "." ++ substring (Z.to_nat n) (Z.to_nat (k - n)) ds
  else if (-6 <? n) && (n <=? 0) then
    "0." ++ zeros (Z.to_nat (- n)) ++ ds
  else
    let e := n - 1 in
    let es := (if e <? 0 then "-" else "+") ++ natString (Z.abs e) in
    if k =? 1 then ds ++ "e" ++ es
    else substring 0 1 ds ++ "." ++ substring 1 (Z.to_nat (k - 1)) ds ++ "e" ++ es.

Definition toString (x : float) : string :=
  if is_nan x then "NaN"
  else match toRatio x with
       | None => if get_sign x then "-Infinity" else "Infinity"
       | Some (s, num, den) =>
           if num =? 0 then "0"
           else (if s then "-" else "") ++ positiveToString (abs x) num den
       end.

(** [l.sort(cmp)]: a stable sort; an element goes before the first one
    it compares below ([cmp x y < 0]).  With a consistent comparator, as
    [(a, b) => a - b] is on numbers without NaN, every sort ECMAScript
    allows returns this list. *)
Fixpoint insertSorted {A : Type} (cmp : A -> A -> float) (x : A) (l : list A)
    : list A :=
  match l with
  | [] => [x]
  | y :: l' => if (cmp x y <? 0)%float then x :: l
               else y :: insertSorted cmp x l'
  end.

Definition sortBy {A : Type} (cmp : A -> A -> float) (l : list A) : list A :=
  fold_left (fun acc x => insertSorted cmp x acc) l [].

(** [Math.pow(x, 2)]: the square, rounded once. *)
Definition square (x : float) : float := (x * x)%float.

(** [x || 0] on a number: NaN and the zeros are falsy. *)
Definition orZero (x : float) : float :=
  if is_nan x || is_zero x then zero else x.

End Num.

(** ** Values and objects *)

(** The primitive values a cell can hold (arrays, which the JSON import can
    leave in a cell, are outside this model). *)
Inductive JsVal :=
| VUndefined
| VNull
| VBool (b : bool)
| VNum (x : float)
| VStr (s : string).

(** [Record<string, any>]: the own properties of an object whose prototype
    is [Object.prototype], in enumeration order, each key bound once
    ([row[k]] reads the first binding of [k]). *)
Definition Row := list (string * JsVal).

(** Objects and [Map]s with string keys: the bindings in insertion order,
    each key once. *)
Module Assoc.
Section WithValues.
Context {V : Type}.

Fixpoint get (m : list (string * V)) (k : string) : option V :=
  match m with
  | [] => None
  | (k', v) :: m' => if String.eqb k' k then Some v else get m' k
  end.

(** An existing binding keeps its place, a new one goes last. *)
Fixpoint set (m : list (string * V)) (k : string) (v : V) : list (string * V) :=
  match m with
  | [] => [(k, v)]
  | (k', v') :: m' =>
      if String.eqb k' k then (k', v) :: m' else (k', v') :: set m' k v
  end.

Definition keys (m : list (string * V)) : list string := map fst m.
Definition values (m : list (string * V)) : list V := map snd m.

End WithValues.
End Assoc.

Module Js.

Definition natToString (n : nat) : string := Num.natString (Z.of_nat n).

(** [String(v)] *)
Definition toString (v : JsVal) : string :=
  match v with
  | VUndefined => "undefined"
  | VNull => "null"
  | VBool true => "true"
  | VBool false => "false"
  | VNum x => Num.toString x
  | VStr s => s
  end.

(** [Number(v)] *)
Definition toNumber (v : JsVal) : float :=
  match v with
  | VUndefined => nan
  | VNull => zero
  | VBool true => one
  | VBool false => zero
  | VNum x => x
  | VStr s => Num.stringToNumber s
  end.

(** [parseFloat(v)]: the argument is converted to a string first. *)
Definition parseFloat (v : JsVal) : float := Num.parseFloatString (toString v).

(** [a === b] *)
Definition strictEquals (a b : JsVal) : bool :=
  match a, b with
  | VUndefined, VUndefined => true
  | VNull, VNull => true
  | VBool x, VBool y => Bool.eqb x y
  | VNum x, VNum y => (x =? y)%float
  | VStr x, VStr y => String.eqb x y
  | _, _ => false
  end.

(** [SameValueZero], the comparison of [Array.prototype.includes] and of
    [Set]: strict equality, except that NaN is the same value as NaN. *)
Definition sameValueZero (a b : JsVal) : bool :=
  match a, b with
  | VNum x, VNum y => (is_nan x && is_nan y) || (x =? y)%float
  | _, _ => strictEquals a b
  end.

(** [l.includes(v)] *)
Definition includes (l : list JsVal) (v : JsVal) : bool :=
  existsb (fun x => sameValueZero x v) l.

(** [l.includes(s)] on an array of strings *)
Definition includesString (l : list string) (s : string) : bool :=
  existsb (fun x => String.eqb x s) l.

(** The names of the properties of [Object.prototype]. *)
Definition inherited : list string :=
  ["__proto__"; "constructor"; "hasOwnProperty"; "isPrototypeOf";
   "propertyIsEnumerable"; "toLocaleString"; "toString"; "valueOf";
   "__defineGetter__"; "__defineSetter__"; "__lookupGetter__";
   "__lookupSetter__"].

(** [row[k]]: the own property, and [undefined] without one.  (For a name
    of [Object.prototype] that the row does not own, the code reads the
    inherited object or function, which is no value of this model.) *)
Definition get (r : Row) (k : string) : JsVal :=
  match Assoc.get r k with
  | Some v => v
  | None => VUndefined
  end.

(** [row[k] = v]: the assignment makes or updates an own property, except
    under the name [__proto__], where it runs the setter inherited from
    [Object.prototype], which adds no property (and, [v] being a primitive
    other than [null], does nothing at all). *)
Definition set (r : Row) (k : string) (v : JsVal) : Row :=
  if String.eqb k "__proto__" then r else Assoc.set r k v.

(** [Object.keys(row)] *)
Definition keys (r : Row) : list string := Assoc.keys r.

(** A value as a [Set] stores it: the negative zero becomes the positive. *)
Definition setElement (v : JsVal) : JsVal :=
  match v with
  | VNum x => if is_zero x then VNum zero else v
  | _ => v
  end.

(** [Array.from(new Set(values))]: the distinct values in order of first
    occurrence. *)
Definition distinct (values : list JsVal) : list JsVal :=
  fold_left (fun acc v => if includes acc v then acc else (acc ++ [setElement v])%list)
            values [].

(** [v !== null && v !== undefined && v !== ''] *)
Definition nonEmpty (v : JsVal) : bool :=
  match v with
  | VNull | VUndefined => false
  | VStr s => negb (Str.isEmpty s)
  | _ => true
  end.

End Js.

(** ** The [Date] built-in

    [parse] is [Date.parse] on a string (a time value in milliseconds, or
    NaN); [fullYear] is [getFullYear] of a time value, in the local time
    zone; [isoString] is [toISOString] of a valid time value. *)
Record DateImpl := {
  parse : string -> float;
  fullYear : float -> float;
  isoString : float -> string
}.

(** ** The engine

    What ECMAScript leaves to the engine and the program depends on: the
    [Date] built-in, and how many arguments a call can take.  A call
    [f(...args)] with more than [maxArguments] arguments throws a
    [RangeError]; every engine is taken to accept 255 arguments (the limits
    of the engines in use are 65535 and more). *)
Record Engine := {
  dates :> DateImpl;
  maxArguments : nat;
  maxArguments_min : (255 <=? maxArguments)%nat = true
}.

Module JsDate.

(** [TimeClip] *)
Definition timeClip (t : float) : float :=
  if negb (is_finite t) then nan
  else if (8.64e15 <? abs t)%float then nan
  else Num.trunc t.

(** [new Date(v).getTime()] *)
Definition time (D : DateImpl) (v : JsVal) : float :=
  timeClip match v with
           | VStr s => parse D s
           | _ => Js.toNumber v
           end.

(** [Date.parse(v)] *)
Definition parseVal (D : DateImpl) (v : JsVal) : float :=
  parse D (Js.toString v).

End JsDate.

(** ** [src/utils/dataProcessing.ts] *)

Inductive ColumnType := TString | TInteger | TFloat | TDate | TBoolean.

Record DatasetColumn := {
  name : string;
  type : ColumnType;
  unique_values : nat;
  min : option JsVal;
  max : option JsVal;
  sample_values : option (list JsVal)
}.

Record DatasetProfile := {
  dataset_name : string;
  columns : list DatasetColumn;
  sample_rows : list Row;
  rows : list Row;
  total_rows : nat
}.

(** What a call returns: a value, or what it throws: an [Error], given by
    its message, or the [RangeError] of a call with too many arguments. *)
Inductive Result (A : Type) :=
| Ok (a : A)
| Throw (message : string)
| ThrowRangeError.
Arguments Ok {A} a.
Arguments Throw {A} message.
Arguments ThrowRangeError {A}.

Module Res.

(** The rest of a computation after a call that can throw. *)
Definition bind {A B : Type} (r : Result A) (f : A -> Result B) : Result B :=
  match r with
  | Ok a => f a
  | Throw message => Throw message
  | ThrowRangeError => ThrowRangeError
  end.

(** [l.map(f)] with a callback that can throw: the first exception ends
    the loop. *)
Fixpoint mapM {A B : Type} (f : A -> Result B) (l : list A) : Result (list B) :=
  match l with
  | [] => Ok []
  | a :: l' => bind (f a) (fun b => bind (mapM f l') (fun bs => Ok (b :: bs)))
  end.

End Res.

(** [f(...args)] on an array of numbers *)
Definition spread {A : Type} (E : Engine) (f : list float -> A) (args : list float)
    : Result A :=
  if (List.length args <=? maxArguments E)%nat then Ok (f args)
  else ThrowRangeError.

(** [Map<string, string>] in insertion order. *)
Definition NameMap := list (string * string).

Module NameMapOps.
Definition set (m : NameMap) (k v : string) : NameMap := Assoc.set m k v.
Definition get (m : NameMap) (k : string) : option string := Assoc.get m k.
Definition values (m : NameMap) : list string := Assoc.values m.
End NameMapOps.

Section DataProcessing.

Variable D : DateImpl.

(** The loop [while (existing.includes(candidate)) candidate =
    `${candidate}_${suffix++}`].  Every turn makes the candidate longer, so
    it leaves the loop within [length existing] turns
    ([uniquify_leaves_loop] below); [fuel] bounds the turns. *)
Fixpoint uniquify (fuel : nat) (existing : list string) (candidate : string)
    (suffix : nat) : string :=
  match fuel with
  | O => candidate
  | S f =>
      if Js.includesString existing candidate
      then uniquify f existing (candidate ++ "_" ++ Js.natToString suffix) (S suffix)
      else candidate
  end.

(** [sanitize(name)], on the state it closes over: the name map and
    [colCounter].  It returns the name and the new counter. *)
Definition sanitize (nameMap : NameMap) (colCounter : nat) (raw : string)
    : string * nat :=
  let trimmed := Str.trim raw in
  let invalid := Str.isEmpty trimmed || Re.autoNumbered trimmed
                 || Re.emptyMarker trimmed in
  let candidate := if invalid then "Column_" ++ Js.natToString colCounter
                   else trimmed in
  let colCounter' := if invalid then S colCounter else colCounter in
  let existing := NameMapOps.values nameMap in
  (uniquify (S (List.length existing)) existing candidate 1, colCounter').

(** [rawColumnNames.forEach((n) => nameMap.set(n, sanitize(n)))] *)
Definition sanitizeStep (st : NameMap * nat) (n : string) : NameMap * nat :=
  let '(nameMap, colCounter) := st in
  let '(c, colCounter') := sanitize nameMap colCounter n in
  (NameMapOps.set nameMap n c, colCounter').

Definition buildNameMap (rawColumnNames : list string) : NameMap :=
  fst (fold_left sanitizeStep rawColumnNames ([], 1%nat)).

Definition isSeparator (c : ascii) : bool :=
  Ascii.eqb c ","%char || Str.isWhiteSpace c.

(** The body of the loop over [rawColumnNames] on one cell. *)
Definition cleanValue (val : JsVal) : JsVal :=
  match val with
  | VNull | VUndefined => VStr ""
  | VStr s =>
      let trimmed := Str.trim s in
      if Re.thousands trimmed then
        let parsed := Num.stringToNumber (Str.removeAll isSeparator trimmed) in
        if negb (Num.isNaN parsed) then VNum parsed else VStr trimmed
      else if Re.simpleNumeric trimmed then
        let parsed := Num.stringToNumber trimmed in
        if negb (Num.isNaN parsed) then VNum parsed else VStr trimmed
      else VStr trimmed
  | _ => val
  end.

(** [nameMap.get(orig)!] used as a property key. *)
Definition newKey (nameMap : NameMap) (orig : string) : string :=
  match NameMapOps.get nameMap orig with
  | Some k => k
  | None => "undefined"
  end.

Definition cleanRow (nameMap : NameMap) (rawColumnNames : list string)
    (row : Row) : Row :=
  fold_left (fun newRow orig =>
               Js.set newRow (newKey nameMap orig) (cleanValue (Js.get row orig)))
            rawColumnNames [].

Record Counts := {
  numericCount : nat;
  integerCount : nat;
  dateCount : nat;
  booleanCount : nat
}.

Definition booleanWords : list string :=
  ["true"; "false"; "1"; "0"; "yes"; "no"].

(** The body of [for (const value of values)] in [detectColumnType]. *)
Definition detectStep (c : Counts) (value : JsVal) : Counts :=
  let stringValue := Str.trim (Str.toLowerCase (Js.toString value)) in
  if Js.includesString booleanWords stringValue then
    {| numericCount := numericCount c; integerCount := integerCount c;
       dateCount := dateCount c; booleanCount := S (booleanCount c) |}
  else
    let numericValue := Num.stringToNumber (Str.removeAll isSeparator stringValue) in
    if (Re.thousands stringValue || Re.simpleNumeric stringValue)
       && (negb (Num.isNaN numericValue) && Num.isFinite numericValue)
    then
      {| numericCount := S (numericCount c);
         integerCount := if Num.isInteger numericValue
                         then S (integerCount c) else integerCount c;
         dateCount := dateCount c; booleanCount := booleanCount c |}
    else
      let dateValue := JsDate.time D (VStr stringValue) in
      if negb (Num.isNaN dateValue) && (4 <? String.length stringValue)%nat
      then
        {| numericCount := numericCount c; integerCount := integerCount c;
           dateCount := S (dateCount c); booleanCount := booleanCount c |}
      else c.

Definition threshold : float := 0.8.

(** The tests after the loop, on the counters and [values.length]. *)
Definition decideType (c : Counts) (total : nat) : ColumnType :=
  if (threshold <=? Num.ofNat (booleanCount c) / Num.ofNat total)%float
  then TBoolean
  else if (threshold <=? Num.ofNat (dateCount c) / Num.ofNat total)%float
  then TDate
  else if (threshold <=? Num.ofNat (numericCount c) / Num.ofNat total)%float
  then if (0.9 <=? Num.ofNat (integerCount c) / Num.ofNat (numericCount c))%float
       then TInteger else TFloat
  else TString.

Definition noCounts : Counts :=
  {| numericCount := 0; integerCount := 0; dateCount := 0; booleanCount := 0 |}.

Definition detectColumnType (values : list JsVal) : ColumnType :=
  match values with
  | [] => TString
  | _ => decideType (fold_left detectStep values noCounts) (List.length values)
  end.

End DataProcessing.

Section Profiler.

Variable E : Engine.

(** [analyzeColumn]; [Math.min(...numericValues)] and its like are spread
    calls. *)
Definition analyzeColumn (name : string) (values : list JsVal) : Result DatasetColumn :=
  match values with
  | [] => Ok {| name := name; type := TString; unique_values := 0;
                min := None; max := None; sample_values := None |}
  | _ =>
      let uniqueValues := Js.distinct values in
      let nonEmptyValues := filter Js.nonEmpty values in
      let type := detectColumnType E nonEmptyValues in
      let column := fun mn mx =>
        {| name := name; type := type;
           unique_values := List.length uniqueValues;
           min := mn; max := mx;
           sample_values := Some (firstn 5 uniqueValues) |} in
      match type with
      | TInteger | TFloat =>
          let numericValues :=
            filter (fun x => negb (Num.isNaN x)) (map Js.parseFloat nonEmptyValues) in
          match numericValues with
          | [] => Ok (column None None)
          | _ =>
              Res.bind (spread E Num.min numericValues) (fun mn =>
              Res.bind (spread E Num.max numericValues) (fun mx =>
              Ok (column (Some (VNum mn)) (Some (VNum mx)))))
          end
      | TDate =>
          let dateValues :=
            filter (fun t => negb (Num.isNaN t)) (map (JsDate.time E) nonEmptyValues) in
          match dateValues with
          | [] => Ok (column None None)
          | _ =>
              Res.bind (spread E Num.min dateValues) (fun mn =>
              let isoMin := isoString E (JsDate.timeClip mn) in
              Res.bind (spread E Num.max dateValues) (fun mx =>
              let isoMax := isoString E (JsDate.timeClip mx) in
              Ok (column (Some (VStr isoMin)) (Some (VStr isoMax)))))
          end
      | _ => Ok (column None None)
      end
  end.

Definition columnData (cleanedData : list Row) (columnName : string) : list JsVal :=
  filter Js.nonEmpty (map (fun row => Js.get row columnName) cleanedData).

Definition nonEmptyColumns (nameMap : NameMap) (cleanedData : list Row) : list string :=
  filter (fun col => existsb (fun r => Js.nonEmpty (Js.get r col)) cleanedData)
         (NameMapOps.values nameMap).

(** [data] is [None] for an absent ([null], [undefined]) argument. *)
Definition generateDatasetProfile (data : option (list Row)) (datasetName : string)
    : Result DatasetProfile :=
  match data with
  | None | Some [] => Throw "Dataset is empty or invalid"
  | Some ((firstRow :: _) as data) =>
      let rawColumnNames := Js.keys firstRow in
      let nameMap := buildNameMap rawColumnNames in
      let cleanedData := map (cleanRow nameMap rawColumnNames) data in
      Res.bind
        (Res.mapM (fun columnName =>
                     analyzeColumn columnName (columnData cleanedData columnName))
                  (nonEmptyColumns nameMap cleanedData))
        (fun columns =>
           Ok {| dataset_name := Re.stripExtension datasetName;
                 columns := columns;
                 sample_rows := firstn 10 cleanedData;
                 rows := cleanedData;
                 total_rows := List.length cleanedData |})
  end.

End Profiler.


(** *** [applyFilters] *)

Module Filter.
(** [{ column; values?; min?; max? }]: an absent [values] is [None], an
    absent bound is [VUndefined]. *)
Record Spec := {
  column : string;
  values : option (list JsVal);
  min : JsVal;
  max : JsVal
}.
End Filter.

Definition isUndefined (v : JsVal) : bool :=
  match v with VUndefined => true | _ => false end.

Section Filters.

Variable D : DateImpl.

(** [typeof b === 'number' ? b : parseFloat(b)] *)
Definition boundNumber (b : JsVal) : float :=
  match b with VNum x => x | _ => Js.parseFloat b end.

(** [typeof b === 'string' ? Date.parse(b) : Number(b)] *)
Definition boundTime (b : JsVal) : float :=
  match b with VStr s => parse D s | _ => Js.toNumber b end.

(** The callback of [filters.every] for one row. *)
Definition matchesFilter (row : Row) (filter : Filter.Spec) : bool :=
  let rawValue := Js.get row (Filter.column filter) in
  match Filter.values filter with
  | Some ((_ :: _) as vs) => Js.includes vs rawValue
  | _ =>
      if negb (isUndefined (Filter.min filter))
         && negb (isUndefined (Filter.max filter))
      then
        let minVal := Filter.min filter in
        let maxVal := Filter.max filter in
        let num := Js.parseFloat rawValue in
        let minNum := boundNumber minVal in
        let maxNum := boundNumber maxVal in
        let bothNumeric := negb (Num.isNaN num) && negb (Num.isNaN minNum)
                           && negb (Num.isNaN maxNum) in
        if bothNumeric then (minNum <=? num)%float && (num <=? maxNum)%float
        else
          let valTime := JsDate.parseVal D rawValue in
          let minTime := boundTime minVal in
          let maxTime := boundTime maxVal in
          if negb (Num.isNaN valTime) && negb (Num.isNaN minTime)
             && negb (Num.isNaN maxTime)
          then (minTime <=? valTime)%float && (valTime <=? maxTime)%float
          else true
      else true
  end.

Definition applyFilters (data : list Row) (filters : list Filter.Spec) : list Row :=
  filter (fun row => forallb (matchesFilter row) filters) data.

End Filters.

(** *** [generateColumnStats] *)

Module Stats.
Record t := {
  count : nat;
  mean : float;
  median : float;
  std : float;
  min : float;
  max : float
}.
End Stats.

Definition sum (l : list float) : float :=
  fold_left (fun a b => (a + b)%float) l zero.

(** [Math.round(x * 100) / 100] *)
Definition round2 (x : float) : float := (Num.round (x * 100) / 100)%float.

Definition generateColumnStats (E : Engine) (data : list Row) (column : string)
    : Result Stats.t :=
  let values :=
    filter (fun x => negb (Num.isNaN x))
           (map (fun row => Js.parseFloat (Js.get row column)) data) in
  match values with
  | [] => Ok {| Stats.count := 0; Stats.mean := 0; Stats.median := 0;
                Stats.std := 0; Stats.min := 0; Stats.max := 0 |}
  | _ =>
      (* [values.sort] sorts in place and returns the same array: from here
         on [values] is the sorted list too *)
      let sorted := Num.sortBy sub values in
      let values := sorted in
      let n := Num.ofNat (List.length values) in
      let mean := (sum values / n)%float in
      let median := nth (List.length sorted / 2) sorted nan in
      let variance :=
        (fold_left (fun acc val => acc + Num.square (val - mean)) values zero / n)%float in
      let std := sqrt variance in
      Res.bind (spread E Num.min values) (fun mn =>
      Res.bind (spread E Num.max values) (fun mx =>
      Ok {| Stats.count := List.length values;
            Stats.mean := round2 mean;
            Stats.median := round2 median;
            Stats.std := round2 std;
            Stats.min := mn;
            Stats.max := mx |}))
  end.

(** ** [computeLocalAnalytics] and its helpers *)

Section LocalAnalytics.

Variable D : DateImpl.

(** [parseYear]: [None] is the [null] result. *)
Definition parseYear (val : JsVal) : option float :=
  match val with
  | VNull | VUndefined => None
  | _ =>
      let s := Js.toString val in
      match Re.yearMatch s with
      | Some m => Some (Num.ofZ (Num.digitsToZ 0 m))
      | None =>
          let t := JsDate.time D (VStr s) in
          if negb (Num.isNaN t) then Some (fullYear D t) else None
      end
  end.

(** A [Map] keyed by numbers, in insertion order; keys are compared by
    [SameValueZero], and a negative zero is stored as the positive one. *)
Definition sameNumber (x y : float) : bool :=
  (is_nan x && is_nan y) || (x =? y)%float.

Fixpoint numMapGet (m : list (float * float)) (k : float) : option float :=
  match m with
  | [] => None
  | (k', v) :: m' => if sameNumber k' k then Some v else numMapGet m' k
  end.

Fixpoint numMapSet (m : list (float * float)) (k v : float) : list (float * float) :=
  match m with
  | [] => [(if is_zero k then zero else k, v)]
  | (k', v') :: m' =>
      if sameNumber k' k then (k', v) :: m' else (k', v') :: numMapSet m' k v
  end.

Fixpoint strMapGet (m : list (string * float)) (k : string) : option float :=
  match m with
  | [] => None
  | (k', v) :: m' => if String.eqb k' k then Some v else strMapGet m' k
  end.

Fixpoint strMapSet (m : list (string * float)) (k : string) (v : float)
    : list (string * float) :=
  match m with
  | [] => [(k, v)]
  | (k', v') :: m' =>
      if String.eqb k' k then (k', v) :: m' else (k', v') :: strMapSet m' k v
  end.

(** [(m.get(k) || 0)] *)
Definition getOrZero (o : option float) : float :=
  match o with Some x => Num.orZero x | None => zero end.

Fixpoint join (sep : string) (l : list string) : string :=
  match l with
  | [] => ""
  | [x] => x
  | x :: r => x ++ sep ++ join sep r
  end.

Definition isNumericColumn (c : DatasetColumn) : bool :=
  match type c with TInteger | TFloat => true | _ => false end.

Definition isStringColumn (c : DatasetColumn) : bool :=
  match type c with TString => true | _ => false end.

Definition isDateColumn (c : DatasetColumn) : bool :=
  match type c with TDate => true | _ => Re.dateLikeName (name c) end.

(** 1) the year-over-year line *)
Definition yoyLines (dKey nKey : string) (rows : list Row) : list string :=
  let perYear :=
    fold_left (fun perYear r =>
                 let v := Js.toNumber (Js.get r nKey) in
                 match parseYear (Js.get r dKey) with
                 | Some y =>
                     if negb (Num.isNaN v)
                     then numMapSet perYear y (getOrZero (numMapGet perYear y) + v)%float
                     else perYear
                 | None => perYear
                 end) rows [] in
  let years := Num.sortBy sub (map fst perYear) in
  match rev years with
  | latest :: prev :: _ =>
      let latestVal := match numMapGet perYear latest with Some x => x | None => nan end in
      let prevVal := match numMapGet perYear prev with Some x => x | None => nan end in
      if negb (prevVal =? 0)%float then
        let yoy := ((latestVal - prevVal) / abs prevVal * 100)%float in
        ["YoY change of " ++ nKey ++ " from " ++ Num.toString prev ++ " to "
           ++ Num.toString latest ++ ": " ++ (if (0 <=? yoy)%float then "+" else "")
           ++ Num.toString (Num.round (yoy * 10) / 10)%float ++ "%"]
      else []
  | _ => []
  end.

(** 2) the top categories *)
Definition topLines (cKey nKey : string) (rows : list Row) : list string :=
  let '(totals, grand) :=
    fold_left (fun '(totals, grand) r =>
                 let k := Str.trim (match Js.get r cKey with
                                    | VNull | VUndefined => ""
                                    | x => Js.toString x
                                    end) in
                 let v := Js.toNumber (Js.get r nKey) in
                 if negb (Str.isEmpty k) && negb (Num.isNaN v)
                 then (strMapSet totals k (getOrZero (strMapGet totals k) + v)%float,
                       (grand + v)%float)
                 else (totals, grand)) rows ([], zero) in
  let top := firstn 3 (Num.sortBy (fun a b => (snd b - snd a)%float) totals) in
  match top with
  | [] => []
  | _ =>
      if (0 <? grand)%float then
        let parts :=
          map (fun '(k, v) =>
                 k ++ " (" ++ Num.toString (Num.round (v / grand * 100)%float) ++ "%)")
              top in
        ["Top " ++ cKey ++ " by " ++ nKey ++ ": " ++ join ", " parts]
      else []
  end.

(** 3) the outliers *)
Definition outlierLines (nKey : string) (rows : list Row) : list string :=
  let vals := filter (fun v => negb (Num.isNaN v))
                     (map (fun r => Js.toNumber (Js.get r nKey)) rows) in
  if (5 <? List.length vals)%nat then
    let n := Num.ofNat (List.length vals) in
    let mean := (sum vals / n)%float in
    let sd := sqrt (fold_left (fun s v => s + Num.square (v - mean)) vals zero / n)%float in
    if (0 <? sd)%float then
      let outliers :=
        List.length (filter (fun v => (2.5 <? abs ((v - mean) / sd))%float) vals) in
      if (0 <? outliers)%nat
      then ["Detected " ++ Js.natToString outliers ++ " potential outliers in "
              ++ nKey ++ " (|z| > 2.5)."]
      else ["No strong outliers in " ++ nKey ++ " (stable distribution)."]
    else []
  else [].

(** [pearson]; the loop runs over the first [n] elements of both arrays. *)
Definition pearson (x y : list float) : float :=
  let n := Nat.min (List.length x) (List.length y) in
  match n with
  | O => zero
  | _ =>
      let mx := (sum x / Num.ofNat n)%float in
      let my := (sum y / Num.ofNat n)%float in
      let '(num, denx, deny) :=
        fold_left (fun '(num, denx, deny) '(xi, yi) =>
                     let dx := (xi - mx)%float in
                     let dy := (yi - my)%float in
                     ((num + dx * dy)%float, (denx + dx * dx)%float,
                      (deny + dy * dy)%float))
                  (combine x y) (zero, zero, zero) in
      let den := (sqrt denx * sqrt deny)%float in
      if (den =? 0)%float then zero else (num / den)%float
  end.

(** The body of the two nested loops for one pair of columns. *)
Definition pairLine (rows : list Row) (aKey bKey : string) : list string :=
  let both :=
    filter (fun '(a, b) => negb (Num.isNaN a) && negb (Num.isNaN b))
           (map (fun r => (Js.toNumber (Js.get r aKey), Js.toNumber (Js.get r bKey)))
                rows) in
  let aVals := map fst both in
  let bVals := map snd both in
  if (5 <=? List.length aVals)%nat then
    let r := pearson aVals bVals in
    if (0.6 <=? abs r)%float
    then [aKey ++ " vs " ++ bKey ++ " (r=" ++ Num.toString (round2 r) ++ ")"]
    else []
  else [].

(** [for i ... for j = i + 1 ...] *)
Fixpoint pairLines (rows : list Row) (cols : list string) : list string :=
  match cols with
  | [] => []
  | aKey :: rest =>
      (flat_map (pairLine rows aKey) rest ++ pairLines rows rest)%list
  end.

(** 4) the correlations *)
Definition correlationLines (numericCols : list string) (rows : list Row)
    : list string :=
  if (2 <=? List.length numericCols)%nat then
    match pairLines rows numericCols with
    | [] => []
    | pairs => ["Strong correlations: " ++ join "; " (firstn 3 pairs)]
    end
  else [].

(** The [lines] of the summary returned. *)
Definition computeLocalAnalytics (profile : DatasetProfile) (rows : list Row)
    : list string :=
  match rows with
  | [] => []
  | _ =>
      let numericCols := map name (filter isNumericColumn (columns profile)) in
      let catCols := map name (filter isStringColumn (columns profile)) in
      let dateCols := map name (filter isDateColumn (columns profile)) in
      (match dateCols, numericCols with
       | dKey :: _, nKey :: _ => yoyLines dKey nKey rows
       | _, _ => []
       end
       ++ match catCols, numericCols with
          | cKey :: _, nKey :: _ => topLines cKey nKey rows
          | _, _ => []
          end
       ++ match numericCols with
          | nKey :: _ => outlierLines nKey rows
          | [] => []
          end
       ++ correlationLines numericCols rows)%list
  end.

End LocalAnalytics.

(** ** An instance of the [Date] interface

    The date-only forms of the ECMAScript date-time string format
    ([YYYY], [YYYY-MM], [YYYY-MM-DD]), read as UTC, with UTC as the local
    time zone.  An engine accepts more strings; the theorems below hold for
    every [DateImpl], and the examples that need one use this one. *)

Module IsoDate.
Import Str.
Local Open Scope Z_scope.

Definition daysFromCivil (y m d : Z) : Z :=
  let y' := if m <=? 2 then y - 1 else y in
  let era := y' / 400 in
  let yoe := y' - era * 400 in
  let doy := (153 * (if 2 <? m then m - 3 else m + 9) + 2) / 5 + d - 1 in
  let doe := yoe * 365 + yoe / 4 - yoe / 100 + doy in
  era * 146097 + doe - 719468.

Definition civilFromDays (z : Z) : Z * Z * Z :=
  let z := z + 719468 in
  let era := z / 146097 in
  let doe := z - era * 146097 in
  let yoe := (doe - doe / 1460 + doe / 36524 - doe / 146096) / 365 in
  let doy := doe - (365 * yoe + yoe / 4 - yoe / 100) in
  let mp := (5 * doy + 2) / 153 in
  let d := doy - (153 * mp + 2) / 5 + 1 in
  let m := if mp <? 10 then mp + 3 else mp - 9 in
  (yoe + era * 400 + (if m <=? 2 then 1 else 0), m, d).

Definition msPerDay : Z := 86400000.

Definition validDate (y m d : Z) : bool :=
  (1 <=? m) && (m <=? 12) && (1 <=? d) && (d <=? 31)
  && match civilFromDays (daysFromCivil y m d) with
     | (y', m', d') => (y' =? y) && (m' =? m) && (d' =? d)
     end.

Definition twoDigits (s : string) : option (Z * string) :=
  match s with
  | String a (String b r) =>
      if isDigit a && isDigit b
      then Some (Num.digitsToZ 0 (String a (String b EmptyString)), r)
      else None
  | _ => None
  end.

Definition dashTwoDigits (s : string) : option (Z * string) :=
  match s with
  | String "-"%char r => twoDigits r
  | _ => None
  end.

Definition parse (s : string) : float :=
  match s with
  | String a (String b (String c (String d r))) =>
      if isDigit a && isDigit b && isDigit c && isDigit d then
        let y := Num.digitsToZ 0 (String a (String b (String c (String d EmptyString)))) in
        match r with
        | EmptyString => Num.ofZ (daysFromCivil y 1 1 * msPerDay)
        | _ =>
            match dashTwoDigits r with
            | Some (m, EmptyString) =>
                if validDate y m 1 then Num.ofZ (daysFromCivil y m 1 * msPerDay)
                else nan
            | Some (m, r') =>
                match dashTwoDigits r' with
                | Some (dd, EmptyString) =>
                    if validDate y m dd
                    then Num.ofZ (daysFromCivil y m dd * msPerDay) else nan
                | _ => nan
                end
            | None => nan
            end
        end
      else nan
  | _ => nan
  end.

(** The integer below a finite double. *)
Definition floorZ (t : float) : Z :=
  match Num.toRatio t with
  | Some (s, n, d) => (if s then - n else n) / d
  | None => 0
  end.

Definition fullYear (t : float) : float :=
  let '(y, _, _) := civilFromDays (floorZ t / msPerDay) in Num.ofZ y.

Definition pad (width : nat) (z : Z) : string :=
  let s := Num.natString z in
  Num.zeros (width - String.length s) ++ s.

Definition isoString (t : float) : string :=
  let ms := floorZ t in
  let '(y, m, d) := civilFromDays (ms / msPerDay) in
  let r := ms mod msPerDay in
  let year := if (0 <=? y) && (y <=? 9999) then pad 4 y
              else (if y <? 0 then "-" else "+") ++ pad 6 (Z.abs y) in
  year ++ "-" ++ pad 2 m ++ "-" ++ pad 2 d ++ "T" ++ pad 2 (r / 3600000)
    ++ ":" ++ pad 2 (r / 60000 mod 60) ++ ":" ++ pad 2 (r / 1000 mod 60)
    ++ "." ++ pad 3 (r mod 1000) ++ "Z".

Definition date : DateImpl :=
  Build_DateImpl parse fullYear isoString.

(** The engine of the examples: these dates, and calls of 125000 arguments
    at most. *)
Definition impl : Engine :=
  {| dates := date; maxArguments := Z.to_nat 125000;
     maxArguments_min := eq_refl |}.

End IsoDate.

(** ** Definitions that follow the specification's words

    They are compared below with the functions taken from the sources. *)

Module SpecWords.

(** Membership of a value in the inclusion set under strict equality. *)
Definition strictMember (set : list JsVal) (v : JsVal) : bool :=
  existsb (fun x => Js.strictEquals x v) set.

(** A filter without an inclusion set: the list is absent or empty. *)
Definition noValues (f : Filter.Spec) : Prop :=
  Filter.values f = None \/ Filter.values f = Some [].

(** Exactly one of the two bounds is defined. *)
Definition singleBound (f : Filter.Spec) : Prop :=
  (Filter.min f <> VUndefined /\ Filter.max f = VUndefined)
  \/ (Filter.min f = VUndefined /\ Filter.max f <> VUndefined).

End SpecWords.

(** The parsed cells of a column that are numbers: the [values] of
    [generateColumnStats] before they are sorted. *)
Definition parsedColumn (data : list Row) (column : string) : list float :=
  filter (fun x => negb (Num.isNaN x))
         (map (fun row => Js.parseFloat (Js.get row column)) data).

(** The record [generateColumnStats] returns for the sorted array [values],
    when there is a value and the spread calls go through. *)
Definition summary (values : list float) : Stats.t :=
  let n := Num.ofNat (List.length values) in
  let mean := (sum values / n)%float in
  {| Stats.count := List.length values;
     Stats.mean := round2 mean;
     Stats.median := round2 (nth (List.length values / 2) values nan);
     Stats.std :=
       round2 (sqrt (fold_left (fun acc val => acc + Num.square (val - mean))
                               values zero / n))%float;
     Stats.min := Num.min values;
     Stats.max := Num.max values |}.

(** A weight that tells 1, 2, 3 and 4 apart. *)
Definition weight (x : float) : nat :=
  if (x =? 1)%float then 1 else if (x =? 2)%float then 10
  else if (x =? 3)%float then 100 else 1000.

Module SpecRows.

(** A raw cell without a value: absent, [null], or a string of white space
    alone. *)
Definition blank (v : JsVal) : bool :=
  match v with
  | VUndefined | VNull => true
  | VStr s => Str.isEmpty (Str.trim s)
  | _ => false
  end.

(** The column under a raw key has a value in some row. *)
Definition hasValue (data : list Row) (key : string) : bool :=
  existsb (fun row => negb (blank (Js.get row key))) data.

End SpecRows.

Module SpecNames.

(** A raw key that is replaced by a generated name: its trimmed form is
    empty, underscores followed by digits, or a spreadsheet's marker of an
    empty header cell. *)
Definition invalidKey (raw : string) : bool :=
  let trimmed := Str.trim raw in
  Str.isEmpty trimmed || Re.autoNumbered trimmed || Re.emptyMarker trimmed.

(** The name a key has before duplicates are resolved. *)
Definition baseName (colCounter : nat) (raw : string) : string :=
  if invalidKey raw then "Column_" ++ Js.natToString colCounter else Str.trim raw.

(** [base] with the suffixes [_1], ..., [_k] appended one after the other. *)
Fixpoint suffixed (base : string) (k : nat) : string :=
  match k with
  | O => base
  | S j => suffixed base j ++ "_" ++ Js.natToString (S j)
  end.

Definition countInvalid (raw : list string) : nat :=
  List.length (filter invalidKey raw).

End SpecNames.

(** [Array.from(nameMap.values())] for a data set whose first row is
    [firstRow]: the sanitized column names, in the order of the raw keys. *)
Definition sanitizedColumns (firstRow : Row) : list string :=
  NameMapOps.values (buildNameMap (Js.keys firstRow)).

(** A first row whose keys the model of records covers in full: they are
    pairwise distinct (as [Object.keys] gives them), none is the name of a
    property of [Object.prototype] (under which a row without the key reads
    an inherited object or function), and none is sanitized to [__proto__]
    (under which a cleaned row gets no property). *)
Definition ordinaryHeader (firstRow : Row) : Prop :=
  NoDup (Js.keys firstRow)
  /\ (forall k, In k (Js.keys firstRow) -> ~ In k Js.inherited)
  /\ ~ In "__proto__" (sanitizedColumns firstRow).

(** Some row has a non-empty value under [col]. *)
Definition hasValue (data : list Row) (col : string) : bool :=
  existsb (fun r => Js.nonEmpty (Js.get r col)) data.

(** Type inference as the specification words it: every value goes to one
    bucket at most, the first that matches, and the type is decided from
    the share of each bucket. *)
Module SpecTypes.

Inductive Bucket :=
| Boolean
| Numeric (integer : bool)
| DateLike
| Unclassified.

Section WithDate.

Variable D : DateImpl.

(** A member of true, false, 1, 0, yes, no. *)
Definition isBooleanWord (s : string) : bool :=
  Js.includesString ["true"; "false"; "1"; "0"; "yes"; "no"] s.

(** The string matches one of the two numeric patterns and, separators
    removed, parses to a finite number. *)
Definition finiteNumber (s : string) : option float :=
  if Re.thousands s || Re.simpleNumeric s then
    let x := Num.stringToNumber (Str.removeAll isSeparator s) in
    if Num.isFinite x then Some x else None
  else None.

(** The string makes a valid date and has more than 4 characters. *)
Definition isDate (s : string) : bool :=
  negb (Num.isNaN (JsDate.time D (VStr s))) && (4 <? String.length s)%nat.

Definition bucket (value : JsVal) : Bucket :=
  let s := Str.trim (Str.toLowerCase (Js.toString value)) in
  if isBooleanWord s then Boolean
  else match finiteNumber s with
       | Some x => Numeric (Num.isInteger x)
       | None => if isDate s then DateLike else Unclassified
       end.

Definition isBoolean (b : Bucket) : bool :=
  match b with Boolean => true | _ => false end.
Definition isNumeric (b : Bucket) : bool :=
  match b with Numeric _ => true | _ => false end.
Definition isIntegerNumeric (b : Bucket) : bool :=
  match b with Numeric true => true | _ => false end.
Definition isDateLike (b : Bucket) : bool :=
  match b with DateLike => true | _ => false end.

Definition count (p : Bucket -> bool) (values : list JsVal) : nat :=
  List.length (filter (fun v => p (bucket v)) values).

(** A count divided by another, as the doubles they are. *)
Definition fraction (k total : nat) : float :=
  (Num.ofNat k / Num.ofNat total)%float.

Definition inferType (values : list JsVal) : ColumnType :=
  let total := List.length values in
  if (0.8 <=? fraction (count isBoolean values) total)%float then TBoolean
  else if (0.8 <=? fraction (count isDateLike values) total)%float then TDate
  else if (0.8 <=? fraction (count isNumeric values) total)%float then
    if (0.9 <=? fraction (count isIntegerNumeric values) (count isNumeric values))%float
    then TInteger else TFloat
  else TString.

End WithDate.
End SpecTypes.

(** The counters of [detectColumnType] with one more value in bucket [b]. *)
Definition bump (c : Counts) (b : SpecTypes.Bucket) : Counts :=
  match b with
  | SpecTypes.Boolean =>
      {| numericCount := numericCount c; integerCount := integerCount c;
         dateCount := dateCount c; booleanCount := S (booleanCount c) |}
  | SpecTypes.Numeric i =>
      {| numericCount := S (numericCount c);
         integerCount := if i then S (integerCount c) else integerCount c;
         dateCount := dateCount c; booleanCount := booleanCount c |}
  | SpecTypes.DateLike =>
      {| numericCount := numericCount c; integerCount := integerCount c;
         dateCount := S (dateCount c); booleanCount := booleanCount c |}
  | SpecTypes.Unclassified => c
  end.

(** ** More of [src/utils/dataProcessing.ts] *)

(** The order of [Array.prototype.sort] without a comparator: [undefined]
    goes last, the other values are ordered by their string forms, compared
    code unit by code unit. *)
Definition defaultCompare (x y : JsVal) : float :=
  match x, y with
  | VUndefined, VUndefined => 0
  | VUndefined, _ => 1
  | _, VUndefined => -1
  | _, _ =>
      if String.ltb (Js.toString x) (Js.toString y) then -1
      else if String.ltb (Js.toString y) (Js.toString x) then 1
      else 0
  end.

(** [getUniqueValues] *)
Definition getUniqueValues (data : list Row) (column : string) : list JsVal :=
  let values := filter Js.nonEmpty (map (fun row => Js.get row column) data) in
  Num.sortBy defaultCompare (Js.distinct values).

(** *** [flattenObject] and the rows of [parseJSONText] *)

(** A value of [JSON.parse]; an object is the list of its entries, as
    [Object.entries] gives them. *)
#[local] Set Warnings "-register-all".
Inductive Json :=
| JNull
| JBool (b : bool)
| JNum (x : float)
| JStr (s : string)
| JArr (items : list Json)
| JObj (fields : list (string * Json)).

(** The own properties of a [Record<string, any>], in insertion order. *)
Definition JsonRecord := list (string * Json).

(** [typeof v === 'object'] *)
Definition isObjectType (v : Json) : bool :=
  match v with JNull | JArr _ | JObj _ => true | _ => false end.

(** [v !== null && typeof v === 'object' && !Array.isArray(v)] *)
Definition isPlainObject (v : Json) : bool :=
  match v with JObj _ => true | _ => false end.

(** The prototype of a record: [Object.prototype], until an assignment to
    [__proto__] makes [null], an array or an object of the document the
    prototype. *)
Inductive Proto :=
| ObjectPrototype
| ProtoValue (v : Json).

(** A record: its own properties and its prototype. *)
Record JsonObject := {
  own :> list (string * Json);
  prototype : Proto
}.

(** [{}] *)
Definition emptyObject : JsonObject := {| own := []; prototype := ObjectPrototype |}.

(** Whether an assignment to [__proto__] runs the setter of
    [Object.prototype]: the record has no own property of that name, and
    going up from its prototype the setter is met first.  (Of the values
    of a document, only an object with a key [__proto__] holds a property
    of that name; below [null] there is nothing.) *)
Definition reachesSetter (out : JsonObject) : bool :=
  match Assoc.get (own out) "__proto__" with
  | Some _ => false
  | None =>
      match prototype out with
      | ObjectPrototype => true
      | ProtoValue JNull => false
      | ProtoValue (JObj fields) =>
          match Assoc.get fields "__proto__" with Some _ => false | None => true end
      | ProtoValue _ => true
      end
  end.

(** [out[key] = v]: an own property is made or updated, except that under
    the name [__proto__], when the setter of [Object.prototype] is reached,
    an object or [null] becomes the prototype and a primitive is
    dropped. *)
Definition assign (out : JsonObject) (key : string) (v : Json) : JsonObject :=
  if String.eqb key "__proto__" && reachesSetter out then
    if isObjectType v then {| own := own out; prototype := ProtoValue v |} else out
  else {| own := Assoc.set (own out) key v; prototype := prototype out |}.

(** [prefix || 'value'] *)
Definition orValue (prefix : string) : string :=
  if Str.isEmpty prefix then "value" else prefix.

(** [prefix ? `${prefix}.${k}` : k] *)
Definition childKey (prefix k : string) : string :=
  if Str.isEmpty prefix then k else (prefix ++ "." ++ k)%string.

(** [flattenObject]; the loop runs over the entries of an object, and over
    the indices and elements of an array. *)
Fixpoint flattenObject (obj : Json) (prefix : string) (out : JsonObject)
    (depth : nat) {struct obj} : JsonObject :=
  match obj with
  | JObj fields =>
      if (3 <? depth)%nat then assign out (orValue prefix) obj
      else
        (fix entries (fs : list (string * Json)) (out : JsonObject) : JsonObject :=
           match fs with
           | [] => out
           | (k, v) :: fs' =>
               let key := childKey prefix k in
               entries fs'
                 match v with
                 | JObj _ => flattenObject v key out (S depth)
                 | _ => assign out key v
                 end
           end) fields out
  | JArr items =>
      if (3 <? depth)%nat then assign out (orValue prefix) obj
      else
        (fix elements (i : nat) (vs : list Json) (out : JsonObject) : JsonObject :=
           match vs with
           | [] => out
           | v :: vs' =>
               let key := childKey prefix (Js.natToString i) in
               elements (S i) vs'
                 match v with
                 | JObj _ => flattenObject v key out (S depth)
                 | _ => assign out key v
                 end
           end) 0%nat items out
  | _ => assign out (orValue prefix) obj
  end.

(** [Array.isArray(v) && v.length && typeof v[0] === 'object'] *)
Definition isTable (v : Json) : bool :=
  match v with
  | JArr (first :: _) => isObjectType first
  | _ => false
  end.

(** [scan] of [parseJSONText]: the first array of objects in the tree. *)
Fixpoint scan (obj : Json) : option (list Json) :=
  match obj with
  | JObj fields =>
      (fix values (fs : list (string * Json)) : option (list Json) :=
         match fs with
         | [] => None
         | (_, v) :: fs' =>
             let deeper :=
               if isObjectType v then
                 match scan v with Some r => Some r | None => values fs' end
               else values fs' in
             match v with
             | JArr ((first :: _) as items) =>
                 if isObjectType first then Some items else deeper
             | _ => deeper
             end
         end) fields
  | JArr items =>
      (fix values (vs : list Json) : option (list Json) :=
         match vs with
         | [] => None
         | v :: vs' =>
             let deeper :=
               if isObjectType v then
                 match scan v with Some r => Some r | None => values vs' end
               else values vs' in
             match v with
             | JArr ((first :: _) as items) =>
                 if isObjectType first then Some items else deeper
             | _ => deeper
             end
         end) items
  | _ => None
  end.

(** [typeof r === 'object' ? flattenObject(r) : { value: r }] *)
Definition flatRow (r : Json) : JsonObject :=
  if isObjectType r then flattenObject r "" emptyObject 0
  else {| own := [("value", r)]; prototype := ObjectPrototype |}.

(** The rows [parseJSONText] hands to [generateDatasetProfile], from the
    value [JSON.parse] returned. *)
Definition jsonRows (json : Json) : Result (list JsonObject) :=
  let rows :=
    match json with
    | JArr items => Some items
    | _ => scan json
    end in
  match rows with
  | None => Throw "No tabular array found in JSON"
  | Some rows => Ok (map flatRow rows)
  end.

(** *** The filtered rows of the dashboard *)

Module Config.

Inductive Kind := Range | Select | Multiselect | DateRange.

(** [selected?: any]: an array, an object read through its [min] and [max]
    (an absent one is [VUndefined]), or any other value. *)
Inductive Selected :=
| Items (items : list JsVal)
| Bounds (min max : JsVal)
| Other.

(** [FilterConfig] *)
Record t := {
  column : string;
  type : Kind;
  values : option (list JsVal);
  min : JsVal;
  max : JsVal;
  selected : Selected
}.

End Config.

(** [!!v] *)
Definition truthy (v : JsVal) : bool :=
  match v with
  | VUndefined | VNull => false
  | VBool b => b
  | VNum x => negb ((x =? 0)%float || Num.isNaN x)
  | VStr s => negb (Str.isEmpty s)
  end.

(** [a ?? b] *)
Definition nullish (a b : JsVal) : JsVal :=
  match a with VUndefined | VNull => b | _ => a end.

(** [(f.selected || {}).min] and [.max] *)
Definition selectedMin (f : Config.t) : JsVal :=
  match Config.selected f with Config.Bounds a _ => a | _ => VUndefined end.

Definition selectedMax (f : Config.t) : JsVal :=
  match Config.selected f with Config.Bounds _ b => b | _ => VUndefined end.

(** The callback of [filters.some]: whether a filter is in use. *)
Definition isActive (f : Config.t) : bool :=
  match Config.type f with
  | Config.Multiselect =>
      match Config.selected f with Config.Items (_ :: _) => true | _ => false end
  | Config.Range =>
      negb (isUndefined (selectedMin f)) || negb (isUndefined (selectedMax f))
  | Config.DateRange => truthy (selectedMin f) || truthy (selectedMax f)
  | Config.Select => false
  end.

(** The callback of [filters.map]: the filter handed to [applyFilters]. *)
Definition simpleFilter (f : Config.t) : Filter.Spec :=
  match Config.type f with
  | Config.Multiselect =>
      {| Filter.column := Config.column f;
         Filter.values :=
           Some match Config.selected f with Config.Items l => l | _ => [] end;
         Filter.min := VUndefined; Filter.max := VUndefined |}
  | Config.Range =>
      {| Filter.column := Config.column f; Filter.values := None;
         Filter.min := nullish (selectedMin f) (Config.min f);
         Filter.max := nullish (selectedMax f) (Config.max f) |}
  | Config.DateRange =>
      {| Filter.column := Config.column f; Filter.values := None;
         Filter.min := selectedMin f; Filter.max := selectedMax f |}
  | Config.Select =>
      {| Filter.column := Config.column f; Filter.values := None;
         Filter.min := VUndefined; Filter.max := VUndefined |}
  end.

(** [filteredData] *)
Definition filteredData (D : DateImpl) (rawData : list Row)
    (filters : list Config.t) : list Row :=
  if negb (existsb isActive filters) then rawData
  else applyFilters D rawData (map simpleFilter filters).

(** ** Notions used by the further properties *)

(** The string is empty or starts with a character that is no white space. *)
Definition startsClean (s : string) : Prop :=
  match s with
  | EmptyString => True
  | String c _ => Str.isWhiteSpace c = false
  end.


(** Under the comparator [cmp], [b] does not compare below [a]: the order
    two neighbours of a sorted array are in. *)
Definition notBelow {A : Type} (cmp : A -> A -> float) (a b : A) : Prop :=
  (cmp b a <? 0)%float = false.

(** Four digits, the year of an ISO date. *)
Definition isYear (s : string) : Prop :=
  String.length s = 4 /\ Str.forallb Str.isDigit s = true.

(** The text of an ISO date: the year, a dash, and the rest. *)
Definition isoText (year rest : string) : string :=
  (year ++ String "-"%char rest)%string.

(** A year as the double it is read as. *)
Definition yearNumber (year : string) : float := Num.ofZ (Num.digitsToZ 0 year).

(** A filter of the dashboard in which nothing is chosen: no item of a
    multiselect, or not both ends of a range. *)
Definition idle (f : Config.t) : Prop :=
  match Config.type f with
  | Config.Select => True
  | Config.Multiselect =>
      match Config.selected f with Config.Items (_ :: _) => False | _ => True end
  | Config.Range =>
      nullish (selectedMin f) (Config.min f) = VUndefined
      \/ nullish (selectedMax f) (Config.max f) = VUndefined
  | Config.DateRange => selectedMin f = VUndefined \/ selectedMax f = VUndefined
  end.

(** How many objects lie one inside the other; an array is not looked
    into. *)
Fixpoint nesting (v : Json) : nat :=
  match v with
  | JObj fields =>
      S ((fix deepest (fs : list (string * Json)) : nat :=
            match fs with
            | [] => 0
            | (_, v) :: fs' => Nat.max (nesting v) (deepest fs')
            end) fields)
  | _ => 0
  end.

(** The values of an object and the elements of an array. *)
Inductive Child : Json -> Json -> Prop :=
| child_field k v fields : In (k, v) fields -> Child v (JObj fields)
| child_item v items : In v items -> Child v (JArr items).

(** [Inside v w]: [v] occurs in [w], at any depth. *)
Inductive Inside (v : Json) : Json -> Prop :=
| inside_child w : Child v w -> Inside v w
| inside_deeper u w : Inside v u -> Child u w -> Inside v w.

(** One turn of the loop of [flattenObject]. *)
Definition flattenValue (prefix : string) (depth : nat) (out : JsonObject)
    (k : string) (v : Json) : JsonObject :=
  match v with
  | JObj _ => flattenObject v (childKey prefix k) out (S depth)
  | _ => assign out (childKey prefix k) v
  end.

(** The fields of a record other than [__proto__]. *)
Definition withoutProto (fields : JsonRecord) : JsonRecord :=
  filter (fun kv => negb (String.eqb (fst kv) "__proto__")) fields.

(** One turn of the loop of [scan], [rest] being what the later turns
    give. *)
Definition scanValue (v : Json) (rest : option (list Json)) : option (list Json) :=
  let deeper :=
    if isObjectType v then
      match scan v with Some r => Some r | None => rest end
    else rest in
  match v with
  | JArr ((first :: _) as items) =>
      if isObjectType first then Some items else deeper
  | _ => deeper
  end.

Definition isArray (v : Json) : bool :=
  match v with JArr _ => true | _ => false end.

(** ** Sample inputs used by the examples *)

Definition c1_rows : list Row := [ [("a", VStr "5"); ("b", VStr "")] ].

Definition c2_values : list JsVal :=
  [VStr "2020-01-01"; VStr "2020-01-02"; VStr "2021-03-04"; VStr "2022-12-31";
   VStr "pending"].

Definition c3_rows : list Row :=
  [ [("y", VStr "2020"); ("amount", VStr "100")];
    [("y", VStr "2021"); ("amount", VStr "150")] ].

Definition c3_rows_amount_year : list Row :=
  [ [("amount", VStr "100"); ("year", VStr "2020")];
    [("amount", VStr "150"); ("year", VStr "2021")] ].

Definition c3_rows_year_amount : list Row :=
  [ [("year", VStr "2020"); ("amount", VStr "100")];
    [("year", VStr "2021"); ("amount", VStr "150")] ].

Definition c5_rows : list Row :=
  [ [("id", VStr "a"); ("v", VNum 1)]; [("id", VStr "b"); ("v", VNum 2)];
    [("id", VStr "c"); ("v", VNum 3)]; [("id", VStr "d"); ("v", VNum 4)] ].

Definition c5_rows_unsorted : list Row :=
  [ [("v", VStr "3")]; [("v", VNum 1)]; [("v", VStr "n/a")]; [("v", VNum 4)];
    [("v", VStr "2.0")] ].

Definition c6_rows : list Row :=
  [ [("name", VStr "Ann"); (" ", VNull); ("qty", VStr "1,200")];
    [("name", VStr "Bob"); (" ", VStr ""); ("qty", VStr "30")] ].

(** 130000 rows with the number 5 under [a]. *)
Definition c6_many_rows : list Row := repeat [("a", VNum 5)] (Z.to_nat 130000).

Definition c7_filter : Filter.Spec :=
  {| Filter.column := "price"; Filter.values := Some [];
     Filter.min := VNum 10; Filter.max := VStr "20" |}.

Definition c8_row : Row := [("score", VNum nan)].

Definition c8_filter : Filter.Spec :=
  {| Filter.column := "score"; Filter.values := Some [VNum nan];
     Filter.min := VUndefined; Filter.max := VUndefined |}.

Definition c8_rows : list Row :=
  [ [("cat", VStr "A")]; [("cat", VStr "B")]; [("cat", VNum 1)]; [("cat", VStr "A")] ].

Definition c8_discrete : Filter.Spec :=
  {| Filter.column := "cat"; Filter.values := Some [VStr "A"; VStr "1"];
     Filter.min := VUndefined; Filter.max := VUndefined |}.

Definition c9_first : Row := [("id", VStr "7"); ("city", VStr "Oslo")].

Definition c9_rest : list Row :=
  [ [("id", VStr "8"); ("city", VStr "Rome"); ("zip", VStr "00100")] ].

Definition c9_rest' : list Row :=
  [ [("id", VStr "8"); ("city", VStr "Rome")] ].

Definition c10_filters : list Filter.Spec :=
  [ {| Filter.column := "price"; Filter.values := None;
       Filter.min := VNum 100; Filter.max := VUndefined |};
    {| Filter.column := "price"; Filter.values := Some [];
       Filter.min := VUndefined; Filter.max := VNum 2 |} ].

Definition c10_rows : list Row :=
  [ [("price", VNum 1)]; [("price", VNum 50)]; [("price", VStr "abc")] ].

Definition x2_rows : list Row :=
  [ [("cat", VStr "A"); ("price", VNum 5)]; [("cat", VStr "B"); ("price", VNum 15)];
    [("cat", VStr "A"); ("price", VNum 25)] ].

Definition x2_range : Filter.Spec :=
  {| Filter.column := "price"; Filter.values := None;
     Filter.min := VNum 10; Filter.max := VNum 30 |}.

Definition x2_discrete : Filter.Spec :=
  {| Filter.column := "cat"; Filter.values := Some [VStr "A"];
     Filter.min := VUndefined; Filter.max := VUndefined |}.

Definition x3_rows : list Row :=
  [ [("name", VStr " Ann "); ("name ", VStr "x"); ("", VNull); ("n", VStr "1,200")];
    [("name", VStr "Bob"); ("name ", VStr ""); ("", VStr " "); ("n", VStr "7")] ].

Definition x7_headers : list string := ["id"; "City"; "unit price"].

Definition x9_values : list JsVal := [VStr "12"; VStr "n/a"; VNum 3.5; VStr "7"; VStr "1,000"].
Definition x9_values' : list JsVal := [VStr "1,000"; VStr "7"; VNum 3.5; VStr "n/a"; VStr "12"].

Definition x10_values : list JsVal := [VStr "north"; VStr "south"; VStr "12 km"; VStr "n/a"].

Definition x11_rows : list Row :=
  [ [("city", VStr "Rome")]; [("city", VStr "")]; [("city", VStr "Oslo")];
    [("city", VNum 10)]; [("city", VStr "Rome")]; [("city", VNum 9)]; [("zip", VStr "x")] ].



Definition x18_row : Row := [("day", VStr "2020-01-15")].

Definition x18_filter : Filter.Spec :=
  {| Filter.column := "day"; Filter.values := None;
     Filter.min := VStr "2020-06-01"; Filter.max := VStr "2020-12-31" |}.

Definition x19_rows : list Row :=
  [ [("day", VStr "2019-03-02"); ("city", VStr "Oslo")];
    [("day", VStr "2021-11-30"); ("city", VStr "Rome")] ].

Definition x19_filters : list Config.t :=
  [ {| Config.column := "day"; Config.type := Config.DateRange;
       Config.values := None;
       Config.min := VStr "2019-03-02"; Config.max := VStr "2021-11-30";
       Config.selected := Config.Bounds (VStr "2020-06-01") VUndefined |};
    {| Config.column := "city"; Config.type := Config.Multiselect;
       Config.values := Some [VStr "Oslo"; VStr "Rome"];
       Config.min := VUndefined; Config.max := VUndefined;
       Config.selected := Config.Items [] |} ].

Definition x20_record : JsonRecord :=
  [("id", JNum 7); ("tags", JArr [JStr "a"; JStr "b"]); ("note", JNull)].

Definition x20_record_proto : JsonRecord :=
  [("id", JNum 7); ("__proto__", JStr "x"); ("note", JNull)].

Definition x21_record : JsonRecord :=
  [("id", JNum 7);
   ("owner", JObj [("name", JStr "Ada");
                   ("address", JObj [("city", JStr "Oslo")])])].

Definition x23_document : Json :=
  JObj [("meta", JObj [("page", JNum 1)]);
        ("result", JObj [("items", JArr [JObj [("x", JNum 1)]; JObj [("x", JNum 2)]])])].

(** * Properties *)

Local Open Scope list_scope.

(** ** The conversions of the run-time model, on examples *)

Example re_thousands_1 : Re.thousands "1,234,567.89" = true.
Proof. reflexivity. Qed.
Example re_thousands_2 : Re.thousands "1234,567" = false.
Proof. reflexivity. Qed.
Example re_thousands_3 : Re.thousands "12 345" = true.
Proof. reflexivity. Qed.
Example re_thousands_4 : Re.thousands "1,2345" = false.
Proof. reflexivity. Qed.
Example re_simple_1 : Re.simpleNumeric "-12.50" = true.
Proof. reflexivity. Qed.
Example re_simple_2 : Re.simpleNumeric "12." = false.
Proof. reflexivity. Qed.
Example re_empty_1 : Re.emptyMarker "__EMPTY_3" = true.
Proof. reflexivity. Qed.
Example re_empty_2 : Re.emptyMarker "_empty" = true.
Proof. reflexivity. Qed.
Example re_auto_1 : Re.autoNumbered "__12" = true.
Proof. reflexivity. Qed.
Example re_year_1 : Re.yearMatch "Q3-2021x" = Some "2021".
Proof. reflexivity. Qed.
Example re_ext_1 : Re.stripExtension "a.b/sales.2020.csv" = "a.b/sales.2020".
Proof. reflexivity. Qed.
Example re_ext_2 : Re.stripExtension "x.d/file" = "x.d/file".
Proof. reflexivity. Qed.
Example str_trim_1 : Str.trim "  a b  " = "a b".
Proof. reflexivity. Qed.
Example num_parse_1 : Num.stringToNumber "0.1" = 0.1%float.
Proof. vm_compute. reflexivity. Qed.
Example num_parse_2 : Num.stringToNumber " 1234.5e-2 " = 12.345%float.
Proof. vm_compute. reflexivity. Qed.
Example num_parse_3 : Num.stringToNumber "0x1F" = 31%float.
Proof. vm_compute. reflexivity. Qed.
Example num_parse_4 : Num.isNaN (Num.stringToNumber "12abc") = true.
Proof. vm_compute. reflexivity. Qed.
Example num_parse_5 : Num.parseFloatString "  12abc" = 12%float.
Proof. vm_compute. reflexivity. Qed.
Example num_parse_6 : Num.parseFloatString "1e999" = infinity.
Proof. vm_compute. reflexivity. Qed.
Example num_parse_8 : Num.stringToNumber "5e-324" = 0x1p-1074%float.
Proof. vm_compute. reflexivity. Qed.
Example num_parse_9 : Num.stringToNumber "2e-324" = 0%float.
Proof. vm_compute. reflexivity. Qed.
Example num_string_1 : Num.toString 50%float = "50".
Proof. vm_compute. reflexivity. Qed.
Example num_string_2 : Num.toString 0.1%float = "0.1".
Proof. vm_compute. reflexivity. Qed.
Example num_string_3 : Num.toString (0.1 + 0.2)%float = "0.30000000000000004".
Proof. vm_compute. reflexivity. Qed.
Example num_string_4 : Num.toString 1e21%float = "1e+21".
Proof. vm_compute. reflexivity. Qed.
Example num_string_5 : Num.toString 123456789012345680000%float = "123456789012345680000".
Proof. vm_compute. reflexivity. Qed.
Example num_string_6 : Num.toString 0.000001%float = "0.000001".
Proof. vm_compute. reflexivity. Qed.
Example num_string_7 : Num.toString 1.5e-7%float = "1.5e-7".
Proof. vm_compute. reflexivity. Qed.
Example num_string_8 : Num.toString (-12.375)%float = "-12.375".
Proof. vm_compute. reflexivity. Qed.
Example num_string_9 : Num.toString 0x1p-1074%float = "5e-324".
Proof. vm_compute. reflexivity. Qed.
Example num_string_10 : Num.toString 0x1.fffffffffffffp+1023%float = "1.7976931348623157e+308".
Proof. vm_compute. reflexivity. Qed.
Example num_string_11 : Num.toString 1e23%float = "1e+23".
Proof. vm_compute. reflexivity. Qed.
Example num_string_12 : Num.toString 2020%float = "2020".
Proof. vm_compute. reflexivity. Qed.
Example num_round_1 : Num.round 2.5%float = 3%float.
Proof. vm_compute. reflexivity. Qed.
Example num_round_2 : Num.round (-2.5)%float = (-2)%float.
Proof. vm_compute. reflexivity. Qed.
Example num_round_3 : Num.round 0.49999999999999994%float = 0%float.
Proof. vm_compute. reflexivity. Qed.
Example num_round_4 : Num.round (-0.2)%float = neg_zero.
Proof. vm_compute. reflexivity. Qed.
Example num_sort_1 : Num.sortBy sub [3; 1; 2; 1]%float = [1; 1; 2; 3]%float.
Proof. vm_compute. reflexivity. Qed.
Example iso_parse_1 : IsoDate.parse "2020-01-15" = 1579046400000%float.
Proof. vm_compute. reflexivity. Qed.
Example iso_parse_2 : IsoDate.parse "1970" = 0%float.
Proof. vm_compute. reflexivity. Qed.
Example iso_parse_3 : Num.isNaN (IsoDate.parse "2021-02-29") = true.
Proof. vm_compute. reflexivity. Qed.
Example iso_parse_4 : IsoDate.parse "2020-02-29" = 1582934400000%float.
Proof. vm_compute. reflexivity. Qed.
Example iso_string_1 : IsoDate.isoString 1579046400000%float = "2020-01-15T00:00:00.000Z".
Proof. vm_compute. reflexivity. Qed.
Example iso_string_2 : IsoDate.isoString (-1)%float = "1969-12-31T23:59:59.999Z".
Proof. vm_compute. reflexivity. Qed.
Example iso_year_1 : IsoDate.fullYear 1582934400000%float = 2020%float.
Proof. vm_compute. reflexivity. Qed.
Example toString_shortest_0 : Num.toString (-0x1.74de452e6b438p+811)%float = "-1.989032661366619e+244".
Proof. vm_compute. reflexivity. Qed.
Example stringToNumber_nearest_0 : Num.stringToNumber "-1.989032661366619e+244" = (-0x1.74de452e6b438p+811)%float.
Proof. vm_compute. reflexivity. Qed.
Example toString_shortest_3 : Num.toString (-0x1.f0824128b2f33p+292)%float = "-1.5432835417340557e+88".
Proof. vm_compute. reflexivity. Qed.
Example stringToNumber_nearest_3 : Num.stringToNumber "-1.5432835417340557e+88" = (-0x1.f0824128b2f33p+292)%float.
Proof. vm_compute. reflexivity. Qed.
Example toString_shortest_5 : Num.toString (-0x1.1985d5d9dc9f8p-684)%float = "-1.3701135617873088e-206".
Proof. vm_compute. reflexivity. Qed.
Example stringToNumber_nearest_5 : Num.stringToNumber "-1.3701135617873088e-206" = (-0x1.1985d5d9dc9f8p-684)%float.
Proof. vm_compute. reflexivity. Qed.
Example toString_shortest_41 : Num.toString (0x1.0f0cf064dd592p+73)%float = "1e+22".
Proof. vm_compute. reflexivity. Qed.
Example stringToNumber_nearest_41 : Num.stringToNumber "1e+22" = (0x1.0f0cf064dd592p+73)%float.
Proof. vm_compute. reflexivity. Qed.
Example toString_shortest_44 : Num.toString (0x1.0000000000000p-1)%float = "0.5".
Proof. vm_compute. reflexivity. Qed.
Example stringToNumber_nearest_44 : Num.stringToNumber "0.5" = (0x1.0000000000000p-1)%float.
Proof. vm_compute. reflexivity. Qed.
Example toString_shortest_47 : Num.toString (0x1.fffffffffffffp+1023)%float = "1.7976931348623157e+308".
Proof. vm_compute. reflexivity. Qed.
Example stringToNumber_nearest_47 : Num.stringToNumber "1.7976931348623157e+308" = (0x1.fffffffffffffp+1023)%float.
Proof. vm_compute. reflexivity. Qed.
Example stringToNumber_long_1 : Num.stringToNumber "70342366.71276842684656321223307924402e89" = (0x1.a587a43897459p+321)%float.
Proof. vm_compute. reflexivity. Qed.
Example stringToNumber_long_2 : Num.stringToNumber "59952890786666176031372159010928159e-268" = (0x1.30ff710d8c087p-775)%float.
Proof. vm_compute. reflexivity. Qed.
Example stringToNumber_long_7 : Num.stringToNumber "205798682828807290222791805.888718033401878017598e280" = (0x1.77203632a0797p+1017)%float.
Proof. vm_compute. reflexivity. Qed.



(** ** The filter engine *)

Section FilterFacts.

Variable D : DateImpl.

Lemma isUndefined_true v : isUndefined v = true <-> v = VUndefined.
Proof. destruct v; simpl; split; congruence. Qed.

Lemma isUndefined_false v : isUndefined v = false <-> v <> VUndefined.
Proof. destruct v; simpl; split; congruence. Qed.

(** Without an inclusion set, only the range part of the callback runs. *)
Lemma matchesFilter_noValues row f :
  SpecWords.noValues f ->
  matchesFilter D row f =
  if negb (isUndefined (Filter.min f)) && negb (isUndefined (Filter.max f))
  then
    let num := Js.parseFloat (Js.get row (Filter.column f)) in
    let minNum := boundNumber (Filter.min f) in
    let maxNum := boundNumber (Filter.max f) in
    if negb (Num.isNaN num) && negb (Num.isNaN minNum) && negb (Num.isNaN maxNum)
    then (minNum <=? num)%float && (num <=? maxNum)%float
    else
      let valTime := JsDate.parseVal D (Js.get row (Filter.column f)) in
      let minTime := boundTime D (Filter.min f) in
      let maxTime := boundTime D (Filter.max f) in
      if negb (Num.isNaN valTime) && negb (Num.isNaN minTime)
         && negb (Num.isNaN maxTime)
      then (minTime <=? valTime)%float && (valTime <=? maxTime)%float
      else true
  else true.
Proof.
  intros [H | H]; unfold matchesFilter; rewrite H; reflexivity.
Qed.

Lemma matchesFilter_missing_bound row f :
  SpecWords.noValues f ->
  Filter.min f = VUndefined \/ Filter.max f = VUndefined ->
  matchesFilter D row f = true.
Proof.
  intros Hv Hb. rewrite (matchesFilter_noValues row f Hv).
  destruct Hb as [Hb | Hb]; rewrite Hb; simpl.
  - reflexivity.
  - rewrite andb_false_r. reflexivity.
Qed.

Lemma applyFilters_all_match data filters :
  (forall row f, In row data -> In f filters -> matchesFilter D row f = true) ->
  applyFilters D data filters = data.
Proof.
  intros H. unfold applyFilters.
  induction data as [| row data IH]; simpl; [reflexivity |].
  assert (Hrow : forallb (matchesFilter D row) filters = true).
  { apply forallb_forall. intros f Hf. apply H; [left; reflexivity | exact Hf]. }
  rewrite Hrow. f_equal. apply IH. intros r f Hr Hf. apply H; [right |]; assumption.
Qed.

Lemma includes_spec vs v :
  Js.includes vs v = true <-> exists x, In x vs /\ Js.sameValueZero x v = true.
Proof. unfold Js.includes. apply existsb_exists. Qed.

Lemma matchesFilter_discrete row f vs :
  Filter.values f = Some vs -> vs <> [] ->
  matchesFilter D row f = Js.includes vs (Js.get row (Filter.column f)).
Proof.
  intros Hv Hne. unfold matchesFilter. rewrite Hv.
  destruct vs; [contradiction | reflexivity].
Qed.

End FilterFacts.

(** C7: without an inclusion set, a filter with both bounds undefined
    matches every row; with both bounds defined the numeric comparison is
    tried first (kept iff [minNum <= num <= maxNum]), then the comparison of
    time values, and a row for which neither is viable passes. *)
Theorem range_filter_is_permissive :
  forall (D : DateImpl) (row : Row) (f : Filter.Spec),
    SpecWords.noValues f ->
    let rawValue := Js.get row (Filter.column f) in
    let num := Js.parseFloat rawValue in
    let minNum := boundNumber (Filter.min f) in
    let maxNum := boundNumber (Filter.max f) in
    let numeric := negb (Num.isNaN num) && negb (Num.isNaN minNum)
                   && negb (Num.isNaN maxNum) in
    let valTime := JsDate.parseVal D rawValue in
    let minTime := boundTime D (Filter.min f) in
    let maxTime := boundTime D (Filter.max f) in
    let dated := negb (Num.isNaN valTime) && negb (Num.isNaN minTime)
                 && negb (Num.isNaN maxTime) in
    (Filter.min f = VUndefined -> Filter.max f = VUndefined ->
     matchesFilter D row f = true)
    /\ (Filter.min f <> VUndefined -> Filter.max f <> VUndefined ->
        (numeric = true ->
         matchesFilter D row f = (minNum <=? num)%float && (num <=? maxNum)%float)
        /\ (numeric = false -> dated = true ->
            matchesFilter D row f
            = (minTime <=? valTime)%float && (valTime <=? maxTime)%float)
        /\ (numeric = false -> dated = false -> matchesFilter D row f = true)).
Proof.
  intros D row f Hv. cbv zeta. split.
  - intros Hmin _. apply matchesFilter_missing_bound; [exact Hv | left; exact Hmin].
  - intros Hmin Hmax. rewrite (matchesFilter_noValues D row f Hv).
    apply isUndefined_false in Hmin, Hmax. rewrite Hmin, Hmax. cbv zeta. simpl negb at 1 2.
    simpl andb at 1.
    split; [| split].
    + intros Hn. rewrite Hn. reflexivity.
    + intros Hn Hd. rewrite Hn, Hd. reflexivity.
    + intros Hn Hd. rewrite Hn, Hd. reflexivity.
Qed.

Lemma range_filter_is_permissive_witness :
  matchesFilter IsoDate.impl [("price", VStr "15.5")] c7_filter = true
  /\ matchesFilter IsoDate.impl [("price", VNum 25)] c7_filter = false
  /\ matchesFilter IsoDate.impl [("price", VStr "n/a")] c7_filter = true.
Proof.
  assert (Hv : SpecWords.noValues c7_filter) by (right; reflexivity).
  assert (Hmin : Filter.min c7_filter <> VUndefined) by discriminate.
  assert (Hmax : Filter.max c7_filter <> VUndefined) by discriminate.
  split; [| split].
  - rewrite (proj1 (proj2 (range_filter_is_permissive IsoDate.impl
                             [("price", VStr "15.5")] c7_filter Hv) Hmin Hmax));
      vm_compute; reflexivity.
  - rewrite (proj1 (proj2 (range_filter_is_permissive IsoDate.impl
                             [("price", VNum 25)] c7_filter Hv) Hmin Hmax));
      vm_compute; reflexivity.
  - apply (proj2 (proj2 (proj2 (range_filter_is_permissive IsoDate.impl
                             [("price", VStr "n/a")] c7_filter Hv) Hmin Hmax)));
      vm_compute; reflexivity.
Defined.

(** C10: a filter without an inclusion set and with exactly one bound
    defined matches every row, so filters of that kind alone leave the rows
    unchanged. *)
Theorem single_bound_filter_is_noop :
  forall (D : DateImpl) (data : list Row) (filters : list Filter.Spec),
    (forall f, In f filters -> SpecWords.noValues f /\ SpecWords.singleBound f) ->
    (forall row f, In f filters -> matchesFilter D row f = true)
    /\ applyFilters D data filters = data.
Proof.
  intros D data filters H.
  assert (Hall : forall row f, In f filters -> matchesFilter D row f = true).
  { intros row f Hf. destruct (H f Hf) as [Hv [[_ Hb] | [Hb _]]];
      apply matchesFilter_missing_bound; auto. }
  split; [exact Hall |].
  apply applyFilters_all_match. intros row f _ Hf. apply Hall, Hf.
Qed.

Lemma single_bound_filter_is_noop_witness :
  applyFilters IsoDate.impl c10_rows c10_filters = c10_rows.
Proof.
  apply (single_bound_filter_is_noop IsoDate.impl c10_rows c10_filters).
  intros f [<- | [<- | []]]; split.
  - left; reflexivity.
  - left; split; [discriminate | reflexivity].
  - right; reflexivity.
  - right; split; [reflexivity | discriminate].
Defined.

Section ApplyFiltersFacts.

Variable D : DateImpl.

Lemma applyFilters_app d1 d2 filters :
  applyFilters D (d1 ++ d2) filters
  = applyFilters D d1 filters ++ applyFilters D d2 filters.
Proof. unfold applyFilters. apply filter_app. Qed.

Lemma applyFilters_In data filters row :
  In row (applyFilters D data filters)
  <-> In row data /\ forall f, In f filters -> matchesFilter D row f = true.
Proof.
  unfold applyFilters. rewrite filter_In, forallb_forall. reflexivity.
Qed.

(** Away from NaN, [SameValueZero] is strict equality. *)
Lemma sameValueZero_strict x v :
  (forall y, v = VNum y -> is_nan y = false) ->
  Js.sameValueZero x v = Js.strictEquals x v.
Proof.
  intros H. destruct x, v; try reflexivity. simpl.
  rewrite (H x0 eq_refl), andb_false_r. reflexivity.
Qed.

Lemma includes_strictMember vs v :
  (forall y, v = VNum y -> is_nan y = false) ->
  Js.includes vs v = SpecWords.strictMember vs v.
Proof.
  intros H. unfold Js.includes, SpecWords.strictMember.
  induction vs as [| x vs IH]; simpl; [reflexivity |].
  rewrite IH, (sameValueZero_strict x v H). reflexivity.
Qed.

End ApplyFiltersFacts.

(** C8, as stated, fails: a row whose value is NaN is kept by the
    inclusion set [NaN], of which it is no member under strict equality. *)
Lemma strict_membership_fails_on_nan :
  applyFilters IsoDate.impl [c8_row] [c8_filter] = [c8_row]
  /\ SpecWords.strictMember [VNum nan] (Js.get c8_row "score") = false.
Proof. split; vm_compute; reflexivity. Qed.

(** C8, amended: [applyFilters] keeps exactly the rows that match every
    filter, in input order; a filter with a non-empty inclusion set keeps a
    row iff the raw value is in the set under [SameValueZero], which is
    strict equality whenever the raw value is not NaN; no filter keeps all
    rows and no row gives none. *)
Theorem applyFilters_keeps_matching_rows :
  forall (D : DateImpl) (data : list Row) (filters : list Filter.Spec),
    (forall row, In row (applyFilters D data filters)
                 <-> In row data /\ forall f, In f filters -> matchesFilter D row f = true)
    /\ (forall d1 d2, data = d1 ++ d2 ->
          applyFilters D data filters
          = applyFilters D d1 filters ++ applyFilters D d2 filters)
    /\ (forall row, applyFilters D [row] filters
                    = if forallb (matchesFilter D row) filters then [row] else [])
    /\ (forall row f vs, Filter.values f = Some vs -> vs <> [] ->
          let rawValue := Js.get row (Filter.column f) in
          (matchesFilter D row f = true
           <-> exists x, In x vs /\ Js.sameValueZero x rawValue = true)
          /\ ((forall y, rawValue = VNum y -> is_nan y = false) ->
              matchesFilter D row f = SpecWords.strictMember vs rawValue))
    /\ applyFilters D data [] = data
    /\ applyFilters D [] filters = [].
Proof.
  intros D data filters.
  split; [| split; [| split; [| split; [| split]]]].
  - intros row. apply applyFilters_In.
  - intros d1 d2 ->. apply applyFilters_app.
  - intros row. reflexivity.
  - intros row f vs Hv Hne. cbv zeta.
    rewrite (matchesFilter_discrete D row f vs Hv Hne). split.
    + apply includes_spec.
    + apply includes_strictMember.
  - apply applyFilters_all_match. intros row f _ [].
  - reflexivity.
Qed.

Lemma applyFilters_keeps_matching_rows_witness :
  matchesFilter IsoDate.impl [("cat", VNum 1)] c8_discrete = false
  /\ applyFilters IsoDate.impl c8_rows [c8_discrete]
     = [ [("cat", VStr "A")]; [("cat", VStr "A")] ].
Proof.
  pose proof (applyFilters_keeps_matching_rows IsoDate.impl c8_rows [c8_discrete])
    as (_ & _ & _ & Hd & _).
  split.
  - destruct (Hd [("cat", VNum 1)] c8_discrete [VStr "A"; VStr "1"] eq_refl
                 ltac:(discriminate)) as [_ Hs].
    rewrite Hs; [reflexivity |]. intros y Hy. injection Hy as <-. reflexivity.
  - reflexivity.
Defined.

(** ** Sorting *)

Section SortFacts.

Context {A : Type}.
Variable cmp : A -> A -> float.

Lemma insertSorted_permutation x l :
  Permutation (Num.insertSorted cmp x l) (x :: l).
Proof.
  induction l as [| y l IH]; simpl; [apply Permutation_refl |].
  destruct (cmp x y <? 0)%float; [apply Permutation_refl |].
  apply Permutation_trans with (y :: x :: l); [apply perm_skip, IH | apply perm_swap].
Qed.

Lemma sortBy_fold_permutation l acc :
  Permutation (fold_left (fun acc x => Num.insertSorted cmp x acc) l acc) (acc ++ l).
Proof.
  revert acc. induction l as [| x l IH]; intros acc; simpl.
  - rewrite app_nil_r. apply Permutation_refl.
  - eapply Permutation_trans; [apply IH |].
    eapply Permutation_trans;
      [apply Permutation_app_tail, insertSorted_permutation |].
    simpl. apply Permutation_cons_app. apply Permutation_refl.
Qed.

(** Sorting keeps the elements, each as often as it was there. *)
Lemma sortBy_permutation l : Permutation (Num.sortBy cmp l) l.
Proof. unfold Num.sortBy. apply (sortBy_fold_permutation l []). Qed.

Hypothesis cmp_asymmetric :
  forall a b, (cmp a b <? 0)%float = true -> (cmp b a <? 0)%float = false.

Lemma insertSorted_sorted x l :
  Sorted (notBelow cmp) l -> Sorted (notBelow cmp) (Num.insertSorted cmp x l).
Proof.
  induction l as [| y l IH]; simpl; intros Hs.
  - repeat constructor.
  - destruct (cmp x y <? 0)%float eqn:E.
    + constructor; [exact Hs |]. constructor. apply cmp_asymmetric, E.
    + inversion Hs as [| ? ? Hs' Hhd]; subst. constructor; [apply IH, Hs' |].
      destruct l as [| z l]; simpl.
      * constructor. exact E.
      * destruct (cmp x z <? 0)%float; constructor; [exact E |].
        inversion Hhd; assumption.
Qed.

Lemma sortBy_sorted l : Sorted (notBelow cmp) (Num.sortBy cmp l).
Proof.
  unfold Num.sortBy.
  assert (H : forall acc, Sorted (notBelow cmp) acc ->
                Sorted (notBelow cmp) (fold_left (fun acc x => Num.insertSorted cmp x acc) l acc)).
  { induction l as [| x l IH]; intros acc Hacc; simpl; [exact Hacc |].
    apply IH, insertSorted_sorted, Hacc. }
  apply H. constructor.
Qed.

End SortFacts.
(** ** The engine's argument limit *)

Lemma spread_fits {A : Type} (E : Engine) (f : list float -> A) (args : list float) :
  List.length args <= maxArguments E -> spread E f args = Ok (f args).
Proof.
  intros H. unfold spread. apply Nat.leb_le in H. rewrite H. reflexivity.
Qed.

Lemma spread_exceeds {A : Type} (E : Engine) (f : list float -> A) (args : list float) :
  maxArguments E < List.length args -> spread E f args = ThrowRangeError.
Proof.
  intros H. unfold spread. apply Nat.leb_gt in H. rewrite H. reflexivity.
Qed.

Lemma spread_Ok {A : Type} (E : Engine) (f : list float -> A) (args : list float) a :
  spread E f args = Ok a -> a = f args /\ List.length args <= maxArguments E.
Proof.
  unfold spread. destruct (List.length args <=? maxArguments E)%nat eqn:H; [| discriminate].
  intros [= <-]. split; [reflexivity | apply Nat.leb_le, H].
Qed.

Lemma maxArguments_255 (E : Engine) : 255 <= maxArguments E.
Proof. apply Nat.leb_le, maxArguments_min. Qed.

(** Every engine is one that takes 255 arguments and some more. *)
Lemma engine_limit (E : Engine) :
  exists (D : DateImpl) (k : nat) (H : (255 <=? 255 + k)%nat = true),
    E = {| dates := D; maxArguments := 255 + k; maxArguments_min := H |}.
Proof.
  destruct E as [D m Hm].
  assert (Hk : exists k, m = 255 + k).
  { exists (m - 255). apply Nat.leb_le in Hm. lia. }
  destruct Hk as [k ->]. exists D, k, Hm. reflexivity.
Qed.

Lemma spread_few {A : Type} (E : Engine) (f : list float -> A) (args : list float) :
  List.length args <= 255 -> spread E f args = Ok (f args).
Proof.
  intros H. apply spread_fits. pose proof (maxArguments_255 E). lia.
Qed.

(** ** The comparator [(a, b) => a - b] *)

Lemma binary_round_aux_not_negative mx ex lx :
  SFltb (binary_round_aux prec emax false mx ex lx) (S754_zero false) = false.
Proof.
  unfold binary_round_aux.
  destruct (shr_fexp prec emax mx ex lx) as [mrs' e'].
  destruct (shr_fexp prec emax _ e' loc_Exact) as [mrs'' e''].
  destruct (shr_m mrs'') as [| m | m]; try reflexivity.
  destruct (e'' <=? emax - prec)%Z; reflexivity.
Qed.

Lemma binary_round_not_negative m e :
  SFltb (binary_round prec emax false m e) (S754_zero false) = false.
Proof.
  unfold binary_round.
  destruct (shl_align m e _) as [mz ez]. apply binary_round_aux_not_negative.
Qed.

Lemma binary_normalize_negative z e :
  SFltb (binary_normalize prec emax z e false) (S754_zero false) = true ->
  SFltb (binary_normalize prec emax (- z) e false) (S754_zero false) = false.
Proof.
  destruct z as [| m | m]; cbn [binary_normalize Z.opp].
  - discriminate.
  - rewrite binary_round_not_negative. discriminate.
  - intros _. apply binary_round_not_negative.
Qed.

Lemma SFsub_asymmetric (X Y : spec_float) :
  SFltb (SFsub prec emax X Y) (S754_zero false) = true ->
  SFltb (SFsub prec emax Y X) (S754_zero false) = false.
Proof.
  destruct X as [sx | sx | | sx mx ex], Y as [sy | sy | | sy my ey];
    try (destruct sx; try destruct sy; cbn; congruence);
    try (destruct sy; cbn; congruence);
    try (cbn; congruence).
  cbn [SFsub]. rewrite (Z.min_comm ey ex).
  set (a := cond_Zopp sx _). set (b := cond_Zopp sy _).
  replace (b - a)%Z with (- (a - b))%Z by ring.
  apply binary_normalize_negative.
Qed.

(** If [a] sorts before [b], then [b] does not sort before [a]. *)
Lemma sub_asymmetric (a b : float) :
  (a - b <? 0)%float = true -> (b - a <? 0)%float = false.
Proof.
  rewrite !ltb_spec, !sub_spec.
  replace (Prim2SF 0) with (S754_zero false) by reflexivity.
  apply SFsub_asymmetric.
Qed.

(** ** Descriptive statistics *)

Lemma parsedColumn_cells data column :
  parsedColumn data column
  = filter (fun x => negb (Num.isNaN x))
           (map Js.parseFloat (map (fun row => Js.get row column) data)).
Proof. unfold parsedColumn. rewrite map_map. reflexivity. Qed.

Lemma parsedColumn_none data column :
  (forall row, In row data -> Num.isNaN (Js.parseFloat (Js.get row column)) = true) ->
  parsedColumn data column = [].
Proof.
  unfold parsedColumn. induction data as [| row data IH]; intros H; simpl.
  - reflexivity.
  - rewrite (H row (or_introl eq_refl)). simpl. apply IH.
    intros r Hr. apply H. right. exact Hr.
Qed.

Lemma parsedColumn_length data column :
  List.length (parsedColumn data column) <= List.length data.
Proof.
  unfold parsedColumn.
  eapply Nat.le_trans; [apply filter_length_le |]. rewrite length_map. apply Nat.le_refl.
Qed.

Lemma generateColumnStats_unfold E data column :
  generateColumnStats E data column
  = match parsedColumn data column with
    | [] => Ok {| Stats.count := 0; Stats.mean := 0; Stats.median := 0;
                  Stats.std := 0; Stats.min := 0; Stats.max := 0 |}
    | _ =>
        let values := Num.sortBy sub (parsedColumn data column) in
        Res.bind (spread E Num.min values) (fun mn =>
        Res.bind (spread E Num.max values) (fun mx =>
        Ok {| Stats.count := Stats.count (summary values);
              Stats.mean := Stats.mean (summary values);
              Stats.median := Stats.median (summary values);
              Stats.std := Stats.std (summary values);
              Stats.min := mn;
              Stats.max := mx |}))
    end.
Proof. reflexivity. Qed.

Lemma sortBy_length {A : Type} (cmp : A -> A -> float) (l : list A) :
  List.length (Num.sortBy cmp l) = List.length l.
Proof. apply Permutation_length, sortBy_permutation. Qed.

(** With a value in the column, the result is the summary of the sorted
    values when they fit a call, and a [RangeError] when they do not. *)
Lemma generateColumnStats_values E data column :
  parsedColumn data column <> [] ->
  generateColumnStats E data column
  = if (List.length (parsedColumn data column) <=? maxArguments E)%nat
    then Ok (summary (Num.sortBy sub (parsedColumn data column)))
    else ThrowRangeError.
Proof.
  intros Hne. rewrite generateColumnStats_unfold.
  destruct (parsedColumn data column) as [| x l] eqn:E0; [contradiction |].
  cbv zeta. unfold spread. rewrite sortBy_length.
  destruct (List.length (x :: l) <=? maxArguments E)%nat; reflexivity.
Qed.

Lemma list_sum_permutation (f : float -> nat) (l l' : list float) :
  Permutation l l' -> list_sum (map f l) = list_sum (map f l').
Proof.
  induction 1; simpl; lia.
Qed.

(** The statistics of the values 1, 2, 3, 4, in whatever order the column
    holds them. *)
Lemma summary_of_1234 (cells : list float) :
  Permutation cells [1%float; 2%float; 3%float; 4%float] ->
  summary (Num.sortBy sub cells)
  = {| Stats.count := 4; Stats.mean := 2.5; Stats.median := 3;
       Stats.std := 1.12; Stats.min := 1; Stats.max := 4 |}.
Proof.
  intros Hp.
  pose proof (Permutation_length Hp) as Hlen.
  pose proof (list_sum_permutation weight _ _ Hp) as Hsum.
  assert (Hin : forall x, In x cells -> In x [1%float; 2%float; 3%float; 4%float]).
  { intros x. apply Permutation_in, Hp. }
  destruct cells as [| w [| x [| y [| z [| ? ?]]]]]; try discriminate Hlen.
  assert (Hw := Hin w (or_introl eq_refl)).
  assert (Hx := Hin x (or_intror (or_introl eq_refl))).
  assert (Hy := Hin y (or_intror (or_intror (or_introl eq_refl)))).
  assert (Hz := Hin z (or_intror (or_intror (or_intror (or_introl eq_refl))))).
  clear Hin Hp Hlen.
  destruct Hw as [<- | [<- | [<- | [<- | []]]]];
    destruct Hx as [<- | [<- | [<- | [<- | []]]]];
    destruct Hy as [<- | [<- | [<- | [<- | []]]]];
    destruct Hz as [<- | [<- | [<- | [<- | []]]]];
    first [ discriminate Hsum | vm_compute; reflexivity ].
Qed.

(** C5: on a column whose parsed cells are 1, 2, 3, 4, in any order, the
    statistics are count 4, mean 2.5, median 3, std 1.12, min 1, max 4; when
    no cell of the column parses as a float every field is 0; and in
    general, when the column has a value and statistics are returned, they
    are those of the values sorted ascending by the comparator
    [(a, b) => a - b]: [median] is the element at index [floor(n / 2)] of
    the sorted values (the upper-middle one for an even [n]), [std] divides
    by [n], [mean], [median] and [std] are rounded to 2 decimals, [min] and
    [max] are not. *)
Theorem generateColumnStats_describe :
  forall E : Engine,
  (forall (data : list Row) (column : string),
      Permutation (parsedColumn data column) [1%float; 2%float; 3%float; 4%float] ->
      generateColumnStats E data column
      = Ok {| Stats.count := 4; Stats.mean := 2.5; Stats.median := 3;
              Stats.std := 1.12; Stats.min := 1; Stats.max := 4 |})
  /\ (forall (data : list Row) (column : string),
      (forall row, In row data ->
                   Num.isNaN (Js.parseFloat (Js.get row column)) = true) ->
      generateColumnStats E data column
      = Ok {| Stats.count := 0; Stats.mean := 0; Stats.median := 0;
              Stats.std := 0; Stats.min := 0; Stats.max := 0 |})
  /\ (forall (data : list Row) (column : string) (s : Stats.t),
      parsedColumn data column <> [] ->
      generateColumnStats E data column = Ok s ->
      exists sorted : list float,
        Permutation (parsedColumn data column) sorted
        /\ Sorted (fun a b => (b - a <? 0)%float = false) sorted
        /\ let n := Num.ofNat (List.length sorted) in
           let mean := (sum sorted / n)%float in
           Stats.count s = List.length sorted
           /\ Stats.mean s = round2 mean
           /\ Stats.median s = round2 (nth (List.length sorted / 2) sorted nan)
           /\ Stats.std s
              = round2 (sqrt (fold_left (fun acc val => acc + Num.square (val - mean))
                                        sorted zero / n))%float
           /\ Stats.min s = Num.min sorted
           /\ Stats.max s = Num.max sorted).
Proof.
  intros E. split; [| split].
  - intros data column Hp.
    assert (Hne : parsedColumn data column <> []).
    { intros H0. rewrite H0 in Hp. apply Permutation_nil in Hp. discriminate Hp. }
    rewrite (generateColumnStats_values E data column Hne).
    rewrite (Permutation_length Hp).
    pose proof (maxArguments_255 E) as Hmin.
    assert (Hfit : (List.length [1%float; 2%float; 3%float; 4%float] <=? maxArguments E)%nat = true).
    { apply Nat.leb_le. cbn [List.length]. lia. }
    rewrite Hfit, (summary_of_1234 _ Hp). reflexivity.
  - intros data column H. rewrite generateColumnStats_unfold.
    rewrite (parsedColumn_none data column H). reflexivity.
  - intros data column s Hne Hs.
    rewrite (generateColumnStats_values E data column Hne) in Hs.
    destruct (List.length (parsedColumn data column) <=? maxArguments E)%nat;
      [| discriminate Hs].
    injection Hs as <-.
    exists (Num.sortBy sub (parsedColumn data column)).
    split; [apply Permutation_sym, sortBy_permutation |].
    split; [apply (sortBy_sorted sub sub_asymmetric) |].
    cbv zeta. repeat split.
Qed.

Lemma generateColumnStats_describe_witness :
  generateColumnStats IsoDate.impl c5_rows_unsorted "v"
  = Ok {| Stats.count := 4; Stats.mean := 2.5; Stats.median := 3;
          Stats.std := 1.12; Stats.min := 1; Stats.max := 4 |}
  /\ generateColumnStats IsoDate.impl c5_rows "id"
     = Ok {| Stats.count := 0; Stats.mean := 0; Stats.median := 0;
             Stats.std := 0; Stats.min := 0; Stats.max := 0 |}.
Proof.
  destruct (generateColumnStats_describe IsoDate.impl) as (H1234 & Hnone & _).
  split.
  - apply (H1234 c5_rows_unsorted "v").
    replace (parsedColumn c5_rows_unsorted "v")
      with [3%float; 1%float; 4%float; 2%float] by (vm_compute; reflexivity).
    apply Permutation_sym.
    apply perm_trans with [3%float; 1%float; 2%float; 4%float].
    + apply perm_trans with [1%float; 3%float; 2%float; 4%float].
      * apply perm_skip, perm_swap.
      * apply perm_swap.
    + apply perm_skip, perm_skip, perm_swap.
  - apply (Hnone c5_rows "id").
    intros row [<- | [<- | [<- | [<- | []]]]]; vm_compute; reflexivity.
Defined.

(** The median is the upper-middle element: on 1, 2, 3, 4 the average of
    the two middle elements would be 2.5; and the values are sorted first:
    on 7, 1 it is 7, on 4, 3, 2, 1 it is 3. *)
Example median_is_upper_middle :
  generateColumnStats IsoDate.impl c5_rows "v"
  = Ok {| Stats.count := 4; Stats.mean := 2.5; Stats.median := 3;
          Stats.std := 1.12; Stats.min := 1; Stats.max := 4 |}
  /\ generateColumnStats IsoDate.impl [[("v", VNum 7)]; [("v", VNum 1)]] "v"
     = Ok {| Stats.count := 2; Stats.mean := 4; Stats.median := 7;
             Stats.std := 3; Stats.min := 1; Stats.max := 7 |}
  /\ generateColumnStats IsoDate.impl
       [[("v", VNum 4)]; [("v", VNum 3)]; [("v", VNum 2)]; [("v", VNum 1)]] "v"
     = Ok {| Stats.count := 4; Stats.mean := 2.5; Stats.median := 3;
             Stats.std := 1.12; Stats.min := 1; Stats.max := 4 |}.
Proof. repeat split; vm_compute; reflexivity. Qed.

(** ** Association lists *)

Section AssocFacts.

Context {V : Type}.
Implicit Types (m : list (string * V)) (k : string) (v : V).

Lemma assoc_get_set_eq m k v : Assoc.get (Assoc.set m k v) k = Some v.
Proof.
  induction m as [| [k' v'] m IH]; simpl.
  - rewrite String.eqb_refl. reflexivity.
  - destruct (String.eqb k' k) eqn:E; simpl; rewrite E; [reflexivity | exact IH].
Qed.

Lemma assoc_get_set_ne m k k' v :
  k <> k' -> Assoc.get (Assoc.set m k v) k' = Assoc.get m k'.
Proof.
  intros Hne. induction m as [| [k0 v0] m IH]; simpl.
  - apply String.eqb_neq in Hne. rewrite Hne. reflexivity.
  - destruct (String.eqb k0 k) eqn:E; simpl.
    + apply String.eqb_eq in E. subst k0.
      apply String.eqb_neq in Hne. rewrite Hne. reflexivity.
    + rewrite IH. reflexivity.
Qed.

Lemma assoc_keys_set m k v x :
  In x (Assoc.keys (Assoc.set m k v)) <-> In x (Assoc.keys m) \/ x = k.
Proof.
  unfold Assoc.keys. induction m as [| [k' v'] m IH]; simpl.
  - intuition.
  - destruct (String.eqb k' k) eqn:E; simpl.
    + apply String.eqb_eq in E. subst k'. intuition.
    + rewrite IH. intuition.
Qed.

Lemma assoc_keys_set_NoDup m k v :
  NoDup (Assoc.keys m) -> NoDup (Assoc.keys (Assoc.set m k v)).
Proof.
  induction m as [| [k' v'] m IH]; simpl; intros H.
  - constructor; [intros [] | constructor].
  - inversion H as [| ? ? Hnot Hnd]; subst.
    destruct (String.eqb k' k) eqn:E; simpl.
    + constructor; assumption.
    + constructor; [| apply IH, Hnd].
      intros Hin. apply assoc_keys_set in Hin. destruct Hin as [Hin | ->].
      * exact (Hnot Hin).
      * rewrite String.eqb_refl in E. discriminate.
Qed.

Lemma assoc_values_set m k v x :
  In x (Assoc.values (Assoc.set m k v)) -> In x (Assoc.values m) \/ x = v.
Proof.
  unfold Assoc.values. induction m as [| [k' v'] m IH]; simpl.
  - intuition.
  - destruct (String.eqb k' k); simpl; intuition.
Qed.

Lemma assoc_values_set_NoDup m k v :
  NoDup (Assoc.values m) -> ~ In v (Assoc.values m) ->
  NoDup (Assoc.values (Assoc.set m k v)).
Proof.
  induction m as [| [k' v'] m IH]; simpl; intros Hnd Hv.
  - constructor; [intros [] | constructor].
  - inversion Hnd as [| ? ? Hnot Hnd']; subst.
    destruct (String.eqb k' k); simpl.
    + constructor; [| exact Hnd']. intros Hin. apply Hv. right. exact Hin.
    + constructor.
      * intros Hin. apply assoc_values_set in Hin. destruct Hin as [Hin | ->].
        -- exact (Hnot Hin).
        -- apply Hv. left. reflexivity.
      * apply IH; [exact Hnd' |]. intros Hin. apply Hv. right. exact Hin.
Qed.

Lemma assoc_get_In m k v : Assoc.get m k = Some v -> In (k, v) m.
Proof.
  induction m as [| [k' v'] m IH]; simpl; [discriminate |].
  destruct (String.eqb k' k) eqn:E.
  - apply String.eqb_eq in E. intros [= ->]. left. subst. reflexivity.
  - intros H. right. apply IH, H.
Qed.

Lemma assoc_In_get m k v :
  NoDup (Assoc.keys m) -> In (k, v) m -> Assoc.get m k = Some v.
Proof.
  induction m as [| [k' v'] m IH]; simpl; intros Hnd Hin; [contradiction |].
  inversion Hnd as [| ? ? Hnot Hnd']; subst.
  destruct Hin as [[= -> ->] | Hin].
  - rewrite String.eqb_refl. reflexivity.
  - destruct (String.eqb k' k) eqn:E.
    + apply String.eqb_eq in E. subst k'. exfalso. apply Hnot.
      unfold Assoc.keys. change k with (fst (k, v)). apply in_map, Hin.
    + apply IH; assumption.
Qed.

Lemma assoc_get_is_Some m k :
  In k (Assoc.keys m) -> exists v, Assoc.get m k = Some v.
Proof.
  unfold Assoc.keys. induction m as [| [k' v'] m IH]; simpl; [contradiction |].
  intros [-> | Hin].
  - rewrite String.eqb_refl. eauto.
  - destruct (String.eqb k' k); eauto.
Qed.

End AssocFacts.

Lemma assoc_set_fresh {V : Type} (m : list (string * V)) k v :
  ~ In k (Assoc.keys m) -> Assoc.set m k v = m ++ [(k, v)].
Proof.
  unfold Assoc.keys. induction m as [| [k' v'] m IH]; simpl; intros H.
  - reflexivity.
  - destruct (String.eqb k' k) eqn:E.
    + apply String.eqb_eq in E. subst. exfalso. apply H. left. reflexivity.
    + rewrite IH; [reflexivity |]. intros Hin. apply H. right. exact Hin.
Qed.

(** ** Column names *)

Lemma includesString_In l s : Js.includesString l s = true <-> In s l.
Proof.
  unfold Js.includesString. rewrite existsb_exists. split.
  - intros [x [Hx E]]. apply String.eqb_eq in E. subst. exact Hx.
  - intros H. exists s. split; [exact H | apply String.eqb_refl].
Qed.

Lemma length_append (a b : string) :
  String.length (a ++ b)%string = String.length a + String.length b.
Proof. induction a as [| c a IH]; simpl; [reflexivity | rewrite IH; reflexivity]. Qed.

(** The loop leaves through its test: the candidates tried are pairwise
    distinct, being longer and longer, so [existing] cannot hold more of
    them than it has elements. *)
Lemma uniquify_leaves_loop fuel existing candidate suffix seen :
  NoDup seen -> incl seen existing ->
  (forall s, In s seen -> String.length s < String.length candidate) ->
  List.length existing < fuel + List.length seen ->
  ~ In (uniquify fuel existing candidate suffix) existing.
Proof.
  revert candidate suffix seen.
  induction fuel as [| fuel IH]; intros candidate suffix seen Hnd Hincl Hlen Hfuel.
  - pose proof (NoDup_incl_length Hnd Hincl). simpl in Hfuel. lia.
  - simpl. destruct (Js.includesString existing candidate) eqn:E.
    + apply includesString_In in E.
      apply (IH _ _ (candidate :: seen)).
      * constructor; [| exact Hnd]. intros Hin. apply Hlen in Hin. lia.
      * intros x [<- | Hx]; [exact E | apply Hincl, Hx].
      * intros s Hs. rewrite length_append. destruct Hs as [<- | Hs].
        -- simpl. lia.
        -- apply Hlen in Hs. lia.
      * simpl. lia.
    + intros Hin. apply includesString_In in Hin. congruence.
Qed.

Lemma uniquify_suffixed fuel existing base j :
  exists k, j <= k
            /\ uniquify fuel existing (SpecNames.suffixed base j) (S j)
               = SpecNames.suffixed base k
            /\ forall i, j <= i < k -> In (SpecNames.suffixed base i) existing.
Proof.
  revert j. induction fuel as [| fuel IH]; intros j.
  - exists j. simpl. repeat split; [lia | intros i Hi; lia].
  - simpl. destruct (Js.includesString existing (SpecNames.suffixed base j)) eqn:E.
    + destruct (IH (S j)) as (k & Hk & Heq & Hin). exists k. split; [lia |].
      split; [exact Heq |]. intros i Hi.
      destruct (Nat.eq_dec i j) as [-> | Hne].
      * apply includesString_In, E.
      * apply Hin. lia.
    + exists j. repeat split; [lia | intros i Hi; lia].
Qed.

Lemma sanitize_fst nameMap colCounter raw :
  fst (sanitize nameMap colCounter raw)
  = uniquify (S (List.length (NameMapOps.values nameMap))) (NameMapOps.values nameMap)
             (SpecNames.baseName colCounter raw) 1.
Proof. reflexivity. Qed.

Lemma sanitize_snd nameMap colCounter raw :
  snd (sanitize nameMap colCounter raw)
  = if SpecNames.invalidKey raw then S colCounter else colCounter.
Proof. reflexivity. Qed.

Lemma sanitize_fresh nameMap colCounter raw :
  ~ In (fst (sanitize nameMap colCounter raw)) (NameMapOps.values nameMap).
Proof.
  rewrite sanitize_fst. apply (uniquify_leaves_loop _ _ _ _ []).
  - constructor.
  - intros x [].
  - intros s [].
  - simpl. lia.
Qed.

Lemma sanitizeStep_eq nameMap colCounter n :
  sanitizeStep (nameMap, colCounter) n
  = (NameMapOps.set nameMap n (fst (sanitize nameMap colCounter n)),
     snd (sanitize nameMap colCounter n)).
Proof. unfold sanitizeStep. destruct (sanitize nameMap colCounter n). reflexivity. Qed.

(** What the loop over the raw keys keeps true of the name map. *)
Lemma sanitize_loop_invariant raw nameMap colCounter :
  NoDup (Assoc.keys nameMap) -> NoDup (NameMapOps.values nameMap) ->
  let st := fold_left sanitizeStep raw (nameMap, colCounter) in
  NoDup (Assoc.keys (fst st)) /\ NoDup (NameMapOps.values (fst st))
  /\ (forall k, In k (Assoc.keys (fst st)) <-> In k (Assoc.keys nameMap) \/ In k raw)
  /\ snd st = colCounter + SpecNames.countInvalid raw.
Proof.
  revert nameMap colCounter.
  induction raw as [| n raw IH]; intros nameMap colCounter Hk Hv;
    cbv zeta; cbn [fold_left].
  - cbn [fst snd]. split; [exact Hk |]. split; [exact Hv |]. split.
    + intros k. cbn [In]. tauto.
    + unfold SpecNames.countInvalid. simpl. lia.
  - rewrite sanitizeStep_eq.
    specialize (IH (NameMapOps.set nameMap n (fst (sanitize nameMap colCounter n)))
                   (snd (sanitize nameMap colCounter n))).
    cbv zeta in IH. destruct IH as (H1 & H2 & H3 & H4).
    + apply assoc_keys_set_NoDup, Hk.
    + apply assoc_values_set_NoDup; [exact Hv | apply sanitize_fresh].
    + split; [exact H1 |]. split; [exact H2 |]. split.
      * intros k. rewrite H3. unfold NameMapOps.set. rewrite assoc_keys_set.
        cbn [In]. intuition (subst; auto).
      * eapply eq_trans; [exact H4 |].
        rewrite sanitize_snd. unfold SpecNames.countInvalid. simpl.
        destruct (SpecNames.invalidKey n); simpl; lia.
Qed.

Lemma buildNameMap_facts raw :
  NoDup (Assoc.keys (buildNameMap raw)) /\ NoDup (NameMapOps.values (buildNameMap raw))
  /\ (forall k, In k (Assoc.keys (buildNameMap raw)) <-> In k raw).
Proof.
  pose proof (sanitize_loop_invariant raw [] 1 (NoDup_nil _) (NoDup_nil _))
    as (H1 & H2 & H3 & _).
  unfold buildNameMap. split; [exact H1 |]. split; [exact H2 |].
  intros k. rewrite H3. cbn [Assoc.keys map In]. tauto.
Qed.

(** C4, as stated, fails on its example: the suffixes accumulate, so the
    third of three keys that trim to [a] is named [a_1_2]; and the key [a]
    given three times over leaves one entry, named [a]. *)
Lemma third_duplicate_is_not_a_2 :
  NameMapOps.values (buildNameMap ["a"; " a"; "a "]) = ["a"; "a_1"; "a_1_2"]
  /\ buildNameMap ["a"; "a"; "a"] = [("a", "a")].
Proof. split; vm_compute; reflexivity. Qed.

(** C4, amended: a key whose trimmed form is empty, auto-numbered or an
    empty-cell marker starts from [Column_<n>], and [n] goes up by one for
    each such key; any other key starts from its trimmed form; while the
    name is among those assigned so far the suffixes [_1], [_2], ... are
    appended one after the other, and the name returned is none of those
    assigned so far; the names of a name map are pairwise distinct; keys
    ["a"; " a"; "a "] get the names [a], [a_1], [a_1_2]. *)
Theorem sanitize_assigns_unique_names :
  (forall (nameMap : NameMap) (colCounter : nat) (raw : string),
      snd (sanitize nameMap colCounter raw)
      = (if SpecNames.invalidKey raw then S colCounter else colCounter)
      /\ ~ In (fst (sanitize nameMap colCounter raw)) (NameMapOps.values nameMap)
      /\ exists k,
          fst (sanitize nameMap colCounter raw)
          = SpecNames.suffixed (SpecNames.baseName colCounter raw) k
          /\ forall i, i < k ->
               In (SpecNames.suffixed (SpecNames.baseName colCounter raw) i)
                  (NameMapOps.values nameMap))
  /\ (forall raw : list string,
        NoDup (NameMapOps.values (buildNameMap raw))
        /\ snd (fold_left sanitizeStep raw ([], 1)) = 1 + SpecNames.countInvalid raw)
  /\ NameMapOps.values (buildNameMap ["a"; " a"; "a "]) = ["a"; "a_1"; "a_1_2"].
Proof.
  split; [| split].
  - intros nameMap colCounter raw. split; [apply sanitize_snd |].
    split; [apply sanitize_fresh |].
    rewrite sanitize_fst.
    destruct (uniquify_suffixed (S (List.length (NameMapOps.values nameMap)))
                (NameMapOps.values nameMap) (SpecNames.baseName colCounter raw) 0)
      as (k & _ & Heq & Hin).
    exists k. split; [exact Heq |]. intros i Hi. apply Hin. lia.
  - intros raw. split; [apply buildNameMap_facts |].
    pose proof (sanitize_loop_invariant raw [] 1 (NoDup_nil _) (NoDup_nil _))
      as (_ & _ & _ & H). exact H.
  - vm_compute. reflexivity.
Qed.

Example sanitize_generated_names :
  buildNameMap [""; "__EMPTY"; "__empty_1"; "_12"; "Column_1"; " x "]
  = [("", "Column_1"); ("__EMPTY", "Column_2"); ("__empty_1", "Column_3");
     ("_12", "Column_4"); ("Column_1", "Column_1_1"); (" x ", "x")].
Proof. vm_compute. reflexivity. Qed.

(** ** Type inference *)

Section TypeFacts.

Variable D : DateImpl.

Lemma finite_not_nan x : negb (Num.isNaN x) && Num.isFinite x = Num.isFinite x.
Proof.
  unfold Num.isNaN, Num.isFinite, is_finite. destruct (is_nan x); reflexivity.
Qed.

(** One turn of the loop adds the value to its bucket. *)
Lemma detectStep_bucket c value :
  detectStep D c value = bump c (SpecTypes.bucket D value).
Proof.
  unfold detectStep, SpecTypes.bucket, SpecTypes.isBooleanWord,
    SpecTypes.finiteNumber, SpecTypes.isDate, booleanWords.
  cbv zeta.
  destruct (Js.includesString _ _); [reflexivity |].
  rewrite finite_not_nan.
  destruct (Re.thousands _ || Re.simpleNumeric _); cbn [andb].
  - destruct (Num.isFinite _); cbn [bump].
    + reflexivity.
    + destruct (_ && _); reflexivity.
  - destruct (_ && _); reflexivity.
Qed.

Lemma detect_loop values c :
  fold_left (detectStep D) values c
  = {| numericCount := numericCount c + SpecTypes.count D SpecTypes.isNumeric values;
       integerCount := integerCount c
                       + SpecTypes.count D SpecTypes.isIntegerNumeric values;
       dateCount := dateCount c + SpecTypes.count D SpecTypes.isDateLike values;
       booleanCount := booleanCount c + SpecTypes.count D SpecTypes.isBoolean values |}.
Proof.
  unfold SpecTypes.count. revert c.
  induction values as [| v values IH]; intros c; cbn [fold_left filter].
  - destruct c. cbn. rewrite !Nat.add_0_r. reflexivity.
  - rewrite IH, detectStep_bucket.
    destruct (SpecTypes.bucket D v) as [| [|] | |]; destruct c; cbn;
      f_equal; lia.
Qed.

Lemma counts_bounded values :
  SpecTypes.count D SpecTypes.isBoolean values
  + SpecTypes.count D SpecTypes.isNumeric values
  + SpecTypes.count D SpecTypes.isDateLike values <= List.length values
  /\ SpecTypes.count D SpecTypes.isIntegerNumeric values
     <= SpecTypes.count D SpecTypes.isNumeric values.
Proof.
  unfold SpecTypes.count.
  induction values as [| v values IH]; cbn [filter List.length]; [lia |].
  destruct (SpecTypes.bucket D v) as [| [|] | |]; cbn; lia.
Qed.

Lemma detectColumnType_inferType values :
  values <> [] -> detectColumnType D values = SpecTypes.inferType D values.
Proof.
  intros Hne. unfold detectColumnType.
  destruct values as [| v values]; [contradiction |].
  rewrite detect_loop. reflexivity.
Qed.

End TypeFacts.

(** C2: on a non-empty list every value counts in one bucket at most
    (boolean words first, then finite numbers in one of the two patterns,
    then dates longer than 4 characters); the counters of the loop are the
    sizes of the buckets; the type is boolean, else date, else integer or
    float, else string, by the 0.8 and 0.9 shares; and 4 dates among 5
    values give the type date. *)
Theorem detectColumnType_votes :
  forall (D : DateImpl) (values : list JsVal),
    values <> [] ->
    let booleans := SpecTypes.count D SpecTypes.isBoolean values in
    let numerics := SpecTypes.count D SpecTypes.isNumeric values in
    let integers := SpecTypes.count D SpecTypes.isIntegerNumeric values in
    let dates := SpecTypes.count D SpecTypes.isDateLike values in
    fold_left (detectStep D) values noCounts
    = {| numericCount := numerics; integerCount := integers;
         dateCount := dates; booleanCount := booleans |}
    /\ booleans + numerics + dates <= List.length values
    /\ integers <= numerics
    /\ detectColumnType D values = SpecTypes.inferType D values
    /\ (List.length values = 5 -> dates = 4 -> detectColumnType D values = TDate).
Proof.
  intros D values Hne. cbv zeta.
  destruct (counts_bounded D values) as [Hsum Hint].
  split; [apply detect_loop |]. split; [exact Hsum |]. split; [exact Hint |].
  split; [apply detectColumnType_inferType, Hne |].
  intros Hlen Hdates. rewrite (detectColumnType_inferType D values Hne).
  unfold SpecTypes.inferType. rewrite Hlen, Hdates.
  rewrite Hlen, Hdates in Hsum.
  destruct (SpecTypes.count D SpecTypes.isBoolean values) as [| [| b]]; [| | lia];
    vm_compute; reflexivity.
Qed.

Lemma detectColumnType_votes_witness :
  detectColumnType IsoDate.impl c2_values = TDate.
Proof.
  apply (detectColumnType_votes IsoDate.impl c2_values); [discriminate | |];
    vm_compute; reflexivity.
Defined.

(** Up to 120 values, a share is at least 0.8 as doubles exactly when it is
    as a fraction; 3 of 4 and 7 of 9 are below. *)
Example threshold_is_four_fifths :
  forallb (fun total =>
             forallb (fun k => Bool.eqb (threshold <=? SpecTypes.fraction k total)%float
                                        (4 * total <=? 5 * k)%nat)
                     (seq 0 (S total)))
          (seq 1 120) = true.
Proof. vm_compute. reflexivity. Qed.

(** ** Calls that can throw *)

Lemma mapM_Ok {A B : Type} (f : A -> Result B) (l : list A) (bs : list B) :
  Res.mapM f l = Ok bs -> Forall2 (fun a b => f a = Ok b) l bs.
Proof.
  revert bs. induction l as [| a l IH]; intros bs; cbn [Res.mapM].
  - intros [= <-]. constructor.
  - destruct (f a) as [b | m |] eqn:Ea; cbn [Res.bind]; try discriminate.
    destruct (Res.mapM f l) as [bs' | m |]; cbn [Res.bind]; try discriminate.
    intros [= <-]. constructor; [exact Ea | apply IH; reflexivity].
Qed.

Lemma mapM_all_Ok {A B : Type} (f : A -> Result B) (l : list A) :
  (forall a, In a l -> exists b, f a = Ok b) -> exists bs, Res.mapM f l = Ok bs.
Proof.
  induction l as [| a l IH]; intros H; cbn [Res.mapM].
  - eexists. reflexivity.
  - destruct (H a (or_introl eq_refl)) as [b ->].
    destruct IH as [bs ->]; [intros x Hx; apply H; right; exact Hx |].
    eexists. reflexivity.
Qed.

Lemma mapM_no_Throw {A B : Type} (f : A -> Result B) (l : list A) message :
  (forall a m, f a <> Throw m) -> Res.mapM f l <> Throw message.
Proof.
  intros H. induction l as [| a l IH]; cbn [Res.mapM]; [discriminate |].
  destruct (f a) as [b | m |] eqn:Ea; cbn [Res.bind]; try discriminate.
  - destruct (Res.mapM f l) as [bs | m |]; cbn [Res.bind];
      try discriminate; exact IH.
  - exfalso. exact (H a m Ea).
Qed.

Lemma mapM_ext {A B : Type} (f g : A -> Result B) (l : list A) :
  (forall a, In a l -> f a = g a) -> Res.mapM f l = Res.mapM g l.
Proof.
  induction l as [| a l IH]; intros H; cbn [Res.mapM]; [reflexivity |].
  rewrite (H a (or_introl eq_refl)), IH; [reflexivity |].
  intros x Hx. apply H. right. exact Hx.
Qed.

Lemma Forall2_map_eq {A B : Type} (f : B -> A) (l : list A) (bs : list B) :
  Forall2 (fun a b => f b = a) l bs -> map f bs = l.
Proof.
  induction 1 as [| a b l bs H _ IH]; cbn [map]; [reflexivity |].
  rewrite H, IH. reflexivity.
Qed.

(** ** The profiler *)

Section ProfilerFacts.

Variable E : Engine.

(** What a column that is returned holds. *)
Lemma analyzeColumn_Ok n values c :
  analyzeColumn E n values = Ok c ->
  name c = n
  /\ (values <> [] ->
      type c = detectColumnType E (filter Js.nonEmpty values)
      /\ unique_values c = List.length (Js.distinct values)
      /\ sample_values c = Some (firstn 5 (Js.distinct values))).
Proof.
  unfold analyzeColumn. destruct values as [| v values].
  - intros [= <-]. split; [reflexivity | intros H; contradiction].
  - cbv zeta.
    destruct (detectColumnType E (filter Js.nonEmpty (v :: values)));
      try (intros [= <-]; cbn; repeat split; fail);
      match goal with |- context [filter ?p ?l] => destruct (filter p l) end;
      try (intros [= <-]; cbn; repeat split; fail);
      unfold spread; destruct (_ <=? _)%nat; cbn [Res.bind];
      try discriminate; intros [= <-]; cbn; repeat split.
Qed.

Lemma analyzeColumn_name n values c : analyzeColumn E n values = Ok c -> name c = n.
Proof. intros H. apply (analyzeColumn_Ok n values c H). Qed.

(** [analyzeColumn] throws no [Error]. *)
Lemma analyzeColumn_no_Throw n values message :
  analyzeColumn E n values <> Throw message.
Proof.
  unfold analyzeColumn. destruct values as [| v values]; [discriminate |].
  cbv zeta.
  destruct (detectColumnType E _); try discriminate;
    match goal with |- context [filter ?p ?l] => destruct (filter p l) end;
    try discriminate;
    unfold spread; destruct (_ <=? _)%nat; cbn [Res.bind]; discriminate.
Qed.

Lemma filter_length_le_trans {A : Type} (p : A -> bool) (l : list A) n :
  List.length l <= n -> List.length (filter p l) <= n.
Proof. intros H. pose proof (filter_length_le p l). lia. Qed.

(** A column whose values fit a call is returned. *)
Lemma analyzeColumn_fits n values :
  List.length values <= maxArguments E -> exists c, analyzeColumn E n values = Ok c.
Proof.
  intros H. unfold analyzeColumn. destruct values as [| v values]; [eexists; reflexivity |].
  cbv zeta.
  assert (Hne : List.length (filter Js.nonEmpty (v :: values)) <= maxArguments E)
    by (apply filter_length_le_trans, H).
  destruct (detectColumnType E _); try (eexists; reflexivity).
  - destruct (filter _ (map Js.parseFloat _)) as [| x xs] eqn:Ef; [eexists; reflexivity |].
    rewrite !spread_fits; [eexists; reflexivity | |];
      rewrite <- Ef; apply filter_length_le_trans; rewrite length_map; exact Hne.
  - destruct (filter _ (map Js.parseFloat _)) as [| x xs] eqn:Ef; [eexists; reflexivity |].
    rewrite !spread_fits; [eexists; reflexivity | |];
      rewrite <- Ef; apply filter_length_le_trans; rewrite length_map; exact Hne.
  - destruct (filter _ (map (JsDate.time E) _)) as [| x xs] eqn:Ef; [eexists; reflexivity |].
    rewrite !spread_fits; [eexists; reflexivity | |];
      rewrite <- Ef; apply filter_length_le_trans; rewrite length_map; exact Hne.
Qed.

Lemma columnData_length_le cleanedData c :
  List.length (columnData cleanedData c) <= List.length cleanedData.
Proof.
  unfold columnData. apply filter_length_le_trans. rewrite length_map. apply Nat.le_refl.
Qed.

Lemma generateDatasetProfile_rows firstRow rest datasetName :
  generateDatasetProfile E (Some (firstRow :: rest)) datasetName
  = let raw := Js.keys firstRow in
    let nameMap := buildNameMap raw in
    let cleanedData := map (cleanRow nameMap raw) (firstRow :: rest) in
    Res.bind
      (Res.mapM (fun c => analyzeColumn E c (columnData cleanedData c))
                (nonEmptyColumns nameMap cleanedData))
      (fun columns =>
         Ok {| dataset_name := Re.stripExtension datasetName;
               columns := columns;
               sample_rows := firstn 10 cleanedData;
               rows := cleanedData;
               total_rows := List.length cleanedData |}).
Proof. reflexivity. Qed.

(** What a profile that is returned holds. *)
Lemma generateDatasetProfile_Ok firstRow rest datasetName p :
  generateDatasetProfile E (Some (firstRow :: rest)) datasetName = Ok p ->
  rows p = map (cleanRow (buildNameMap (Js.keys firstRow)) (Js.keys firstRow))
               (firstRow :: rest)
  /\ sample_rows p = firstn 10 (rows p)
  /\ total_rows p = List.length (rows p)
  /\ Forall2 (fun c column => analyzeColumn E c (columnData (rows p) c) = Ok column)
             (nonEmptyColumns (buildNameMap (Js.keys firstRow)) (rows p)) (columns p).
Proof.
  rewrite generateDatasetProfile_rows. cbv zeta.
  destruct (Res.mapM _ _) as [cols | m |] eqn:Em; cbn [Res.bind]; try discriminate.
  intros [= <-]. cbn [rows sample_rows total_rows columns].
  repeat split. apply mapM_Ok, Em.
Qed.

Lemma generateDatasetProfile_no_Throw firstRow rest datasetName message :
  generateDatasetProfile E (Some (firstRow :: rest)) datasetName <> Throw message.
Proof.
  rewrite generateDatasetProfile_rows. cbv zeta.
  destruct (Res.mapM _ _) as [cols | m |] eqn:Em; cbn [Res.bind]; try discriminate.
  exfalso. revert Em. apply mapM_no_Throw. intros c m'. apply analyzeColumn_no_Throw.
Qed.

(** A data set with no more rows than a call takes arguments is profiled. *)
Lemma generateDatasetProfile_fits firstRow rest datasetName :
  List.length (firstRow :: rest) <= maxArguments E ->
  exists p, generateDatasetProfile E (Some (firstRow :: rest)) datasetName = Ok p.
Proof.
  intros H. rewrite generateDatasetProfile_rows. cbv zeta.
  destruct (mapM_all_Ok
              (fun c => analyzeColumn E c
                 (columnData (map (cleanRow (buildNameMap (Js.keys firstRow))
                                            (Js.keys firstRow)) (firstRow :: rest)) c))
              (nonEmptyColumns (buildNameMap (Js.keys firstRow))
                 (map (cleanRow (buildNameMap (Js.keys firstRow)) (Js.keys firstRow))
                      (firstRow :: rest)))) as [cols Hc].
  - intros c _. apply analyzeColumn_fits.
    eapply Nat.le_trans; [apply columnData_length_le |]. rewrite length_map. exact H.
  - rewrite Hc. eexists. reflexivity.
Qed.

Lemma profile_column_names firstRow rest datasetName p :
  generateDatasetProfile E (Some (firstRow :: rest)) datasetName = Ok p ->
  map name (columns p) = filter (hasValue (rows p)) (sanitizedColumns firstRow).
Proof.
  intros H. destruct (generateDatasetProfile_Ok _ _ _ _ H) as (_ & _ & _ & Hcols).
  apply Forall2_map_eq. eapply Forall2_impl; [| exact Hcols].
  intros c column Hc. apply (analyzeColumn_name _ _ _ Hc).
Qed.

Lemma profile_Ok_inv data datasetName p :
  generateDatasetProfile E data datasetName = Ok p ->
  exists firstRow rest, data = Some (firstRow :: rest).
Proof.
  destruct data as [[| firstRow rest] |]; try discriminate. eauto.
Qed.

End ProfilerFacts.

(** ** Cleaned rows *)

Lemma js_keys_set r k v x :
  In x (Js.keys (Js.set r k v)) <-> In x (Js.keys r) \/ (x = k /\ k <> "__proto__").
Proof.
  unfold Js.keys, Js.set. destruct (String.eqb_spec k "__proto__") as [-> | Hne].
  - split; [auto | intros [H | [_ H]]; [exact H | contradiction]].
  - rewrite assoc_keys_set. split; intros [H | H]; auto. destruct H as [H _]. auto.
Qed.

Lemma js_get_set_eq r k v : k <> "__proto__" -> Js.get (Js.set r k v) k = v.
Proof.
  intros H. unfold Js.get, Js.set. apply String.eqb_neq in H. rewrite H.
  rewrite assoc_get_set_eq. reflexivity.
Qed.

Lemma js_get_set_ne r k k' v : k <> k' -> Js.get (Js.set r k v) k' = Js.get r k'.
Proof.
  intros H. unfold Js.get, Js.set. destruct (String.eqb k "__proto__"); [reflexivity |].
  rewrite assoc_get_set_ne by exact H. reflexivity.
Qed.

Lemma cleanRow_fold_ext nameMap raw r r' acc :
  (forall k, In k raw -> Js.get r k = Js.get r' k) ->
  fold_left (fun newRow orig =>
               Js.set newRow (newKey nameMap orig) (cleanValue (Js.get r orig)))
            raw acc
  = fold_left (fun newRow orig =>
                 Js.set newRow (newKey nameMap orig) (cleanValue (Js.get r' orig)))
              raw acc.
Proof.
  revert acc. induction raw as [| orig raw IH]; intros acc H; simpl.
  - reflexivity.
  - rewrite (H orig (or_introl eq_refl)). apply IH.
    intros k Hk. apply H. right. exact Hk.
Qed.

(** A cleaned row is made from the cells under the raw column names. *)
Lemma cleanRow_ext nameMap raw r r' :
  (forall k, In k raw -> Js.get r k = Js.get r' k) ->
  cleanRow nameMap raw r = cleanRow nameMap raw r'.
Proof. apply cleanRow_fold_ext. Qed.

Lemma cleanRow_fold_keys nameMap raw r acc k :
  In k (Js.keys (fold_left (fun newRow orig =>
                              Js.set newRow (newKey nameMap orig)
                                     (cleanValue (Js.get r orig)))
                           raw acc))
  <-> In k (Js.keys acc)
      \/ (k <> "__proto__" /\ exists orig, In orig raw /\ newKey nameMap orig = k).
Proof.
  revert acc. induction raw as [| orig raw IH]; intros acc; cbn [fold_left].
  - split; [auto | intros [H | (_ & o & [] & _)]; exact H].
  - rewrite IH, js_keys_set. split.
    + intros [[H | [-> Hne]] | (Hne & o & Ho & Eo)].
      * left. exact H.
      * right. split; [exact Hne |]. exists orig. split; [left |]; reflexivity.
      * right. split; [exact Hne |]. exists o. split; [right |]; assumption.
    + intros [H | (Hne & o & [<- | Ho] & Eo)].
      * left. left. exact H.
      * left. right. split; [symmetry; exact Eo | rewrite Eo; exact Hne].
      * right. split; [exact Hne |]. exists o. split; assumption.
Qed.

(** The keys of a cleaned row are the new names of the raw column names,
    but for [__proto__], under which no property is made. *)
Lemma cleanRow_keys nameMap raw r k :
  In k (Js.keys (cleanRow nameMap raw r))
  <-> k <> "__proto__" /\ exists orig, In orig raw /\ newKey nameMap orig = k.
Proof.
  unfold cleanRow. rewrite cleanRow_fold_keys. cbn [Js.keys Assoc.keys map In]. tauto.
Qed.

Lemma buildNameMap_values raw k :
  In k (NameMapOps.values (buildNameMap raw))
  <-> exists orig, In orig raw /\ newKey (buildNameMap raw) orig = k.
Proof.
  destruct (buildNameMap_facts raw) as (Hnd & _ & Hkeys).
  unfold NameMapOps.values, Assoc.values, newKey, NameMapOps.get. split.
  - intros Hin. apply in_map_iff in Hin. destruct Hin as ([o v] & <- & Hin).
    exists o. split.
    + apply Hkeys. unfold Assoc.keys. change o with (fst (o, v)). apply in_map, Hin.
    + rewrite (assoc_In_get _ _ _ Hnd Hin). reflexivity.
  - intros (orig & Ho & E). apply Hkeys in Ho.
    destruct (assoc_get_is_Some _ _ Ho) as [v Hv]. rewrite Hv in E. subst v.
    apply assoc_get_In in Hv. change k with (snd (orig, k)). apply in_map, Hv.
Qed.

(** The keys of a cleaned row are the sanitized column names other than
    [__proto__], all of them. *)
Lemma cleanRow_keys_sanitized firstRow r k :
  In k (Js.keys (cleanRow (buildNameMap (Js.keys firstRow)) (Js.keys firstRow) r))
  <-> In k (sanitizedColumns firstRow) /\ k <> "__proto__".
Proof.
  unfold sanitizedColumns. rewrite cleanRow_keys, buildNameMap_values. tauto.
Qed.

Lemma assoc_values_injective {V : Type} (m : list (string * V)) a b v :
  NoDup (Assoc.values m) -> In (a, v) m -> In (b, v) m -> a = b.
Proof.
  unfold Assoc.values.
  induction m as [| [k w] m IH]; simpl; intros Hnd Ha Hb; [contradiction |].
  inversion Hnd as [| ? ? Hnot Hnd']; subst.
  assert (Hin : forall x, In (x, w) m -> In w (map snd m)).
  { intros x Hx. change w with (snd (x, w)). apply in_map, Hx. }
  destruct Ha as [Ha | Ha], Hb as [Hb | Hb].
  - congruence.
  - injection Ha as <- <-. exfalso. apply Hnot. eapply Hin, Hb.
  - injection Hb as <- <-. exfalso. apply Hnot. eapply Hin, Ha.
  - apply IH; assumption.
Qed.

(** Distinct raw keys have distinct sanitized names. *)
Lemma newKey_injective raw o1 o2 :
  In o1 raw -> In o2 raw ->
  newKey (buildNameMap raw) o1 = newKey (buildNameMap raw) o2 -> o1 = o2.
Proof.
  destruct (buildNameMap_facts raw) as (Hk & Hv & Hkeys).
  intros H1 H2. apply Hkeys in H1, H2.
  destruct (assoc_get_is_Some _ _ H1) as [v1 E1].
  destruct (assoc_get_is_Some _ _ H2) as [v2 E2].
  unfold newKey, NameMapOps.get. rewrite E1, E2. intros ->.
  apply assoc_get_In in E1, E2. exact (assoc_values_injective _ _ _ _ Hv E1 E2).
Qed.

Lemma cleanRow_fold_untouched nameMap raw r acc k :
  (forall o, In o raw -> newKey nameMap o <> k) ->
  Js.get (fold_left (fun newRow orig =>
                       Js.set newRow (newKey nameMap orig) (cleanValue (Js.get r orig)))
                    raw acc) k
  = Js.get acc k.
Proof.
  revert acc. induction raw as [| o raw IH]; intros acc H; simpl; [reflexivity |].
  rewrite IH.
  - apply js_get_set_ne, H. left. reflexivity.
  - intros o' Ho'. apply H. right. exact Ho'.
Qed.

Lemma cleanRow_fold_get nameMap raw r acc orig :
  (forall o1 o2, In o1 raw -> In o2 raw ->
                 newKey nameMap o1 = newKey nameMap o2 -> o1 = o2) ->
  In orig raw -> newKey nameMap orig <> "__proto__" ->
  Js.get (fold_left (fun newRow o =>
                       Js.set newRow (newKey nameMap o) (cleanValue (Js.get r o)))
                    raw acc) (newKey nameMap orig)
  = cleanValue (Js.get r orig).
Proof.
  revert acc. induction raw as [| o raw IH]; intros acc Hinj Hin Hne; [contradiction |].
  simpl. destruct (in_dec string_dec orig raw) as [Hr | Hr].
  - apply IH; [| exact Hr | exact Hne].
    intros o1 o2 H1 H2. apply Hinj; right; assumption.
  - destruct Hin as [-> | Hin]; [| contradiction].
    rewrite cleanRow_fold_untouched; [apply js_get_set_eq, Hne |].
    intros o' Ho' E. apply Hr.
    rewrite <- (Hinj o' orig (or_intror Ho') (or_introl eq_refl) E). exact Ho'.
Qed.

(** The cell of a cleaned row under a new name other than [__proto__]. *)
Lemma cleanRow_get raw r orig :
  In orig raw -> newKey (buildNameMap raw) orig <> "__proto__" ->
  Js.get (cleanRow (buildNameMap raw) raw r) (newKey (buildNameMap raw) orig)
  = cleanValue (Js.get r orig).
Proof.
  intros H Hne. unfold cleanRow. apply cleanRow_fold_get; [| exact H | exact Hne].
  intros o1 o2. apply newKey_injective.
Qed.

(** ** Columns with a value *)

Lemma thousands_nonempty : Re.thousands "" = false.
Proof. reflexivity. Qed.

(** A cleaned cell is empty exactly when the raw cell is blank. *)
Lemma cleanValue_nonEmpty v : Js.nonEmpty (cleanValue v) = negb (SpecRows.blank v).
Proof.
  destruct v as [| | b | x | s]; cbn [cleanValue SpecRows.blank]; try reflexivity.
  cbv zeta. destruct (Str.trim s) as [| c t] eqn:Et.
  - reflexivity.
  - cbn [Str.isEmpty negb].
    destruct (Re.thousands _); [destruct (negb _); reflexivity |].
    destruct (Re.simpleNumeric _); [destruct (negb _); reflexivity |].
    reflexivity.
Qed.

(** The keys of the name map are the raw keys, in their order. *)
Lemma sanitize_loop_keys raw nameMap colCounter :
  NoDup (Assoc.keys nameMap ++ raw) ->
  Assoc.keys (fst (fold_left sanitizeStep raw (nameMap, colCounter)))
  = Assoc.keys nameMap ++ raw.
Proof.
  revert nameMap colCounter.
  induction raw as [| n raw IH]; intros nameMap colCounter Hnd; cbn [fold_left].
  - rewrite app_nil_r. reflexivity.
  - rewrite sanitizeStep_eq. unfold NameMapOps.set.
    assert (Hfresh : ~ In n (Assoc.keys nameMap)).
    { apply NoDup_remove_2 in Hnd. intros Hin. apply Hnd, in_or_app. left. exact Hin. }
    rewrite IH.
    + rewrite (assoc_set_fresh nameMap n _ Hfresh).
      unfold Assoc.keys. rewrite map_app, <- app_assoc. reflexivity.
    + rewrite (assoc_set_fresh nameMap n _ Hfresh).
      unfold Assoc.keys in *. rewrite map_app, <- app_assoc. exact Hnd.
Qed.

Lemma buildNameMap_keys raw : NoDup raw -> Assoc.keys (buildNameMap raw) = raw.
Proof.
  intros H. unfold buildNameMap. apply (sanitize_loop_keys raw [] 1). exact H.
Qed.

Lemma assoc_values_by_key {V : Type} (m : list (string * V)) (d : V) :
  NoDup (Assoc.keys m) ->
  Assoc.values m
  = map (fun k => match Assoc.get m k with Some v => v | None => d end) (Assoc.keys m).
Proof.
  unfold Assoc.values, Assoc.keys.
  induction m as [| [k v] m IH]; cbn [map fst snd Assoc.get]; intros Hnd; [reflexivity |].
  inversion Hnd as [| ? ? Hnot Hnd']; subst.
  rewrite String.eqb_refl. f_equal. rewrite (IH Hnd').
  apply map_ext_in. intros k' Hk'.
  destruct (String.eqb_spec k k') as [-> | _]; [contradiction | reflexivity].
Qed.

(** The sanitized names are the new names of the raw keys, in their
    order. *)
Lemma sanitizedColumns_by_key firstRow :
  NoDup (Js.keys firstRow) ->
  sanitizedColumns firstRow
  = map (newKey (buildNameMap (Js.keys firstRow))) (Js.keys firstRow).
Proof.
  intros Hnd. unfold sanitizedColumns, NameMapOps.values.
  rewrite (assoc_values_by_key _ "undefined").
  - rewrite (buildNameMap_keys _ Hnd). reflexivity.
  - apply buildNameMap_facts.
Qed.

Lemma filter_map_comm {A B : Type} (f : A -> B) (p : B -> bool) (l : list A) :
  filter p (map f l) = map f (filter (fun a => p (f a)) l).
Proof.
  induction l as [| a l IH]; cbn [map filter]; [reflexivity |].
  destruct (p (f a)); cbn [map]; rewrite IH; reflexivity.
Qed.

(** A sanitized column has a value in the cleaned rows exactly when the
    raw column has one in the raw rows. *)
Lemma hasValue_cleaned raw data orig :
  In orig raw -> newKey (buildNameMap raw) orig <> "__proto__" ->
  hasValue (map (cleanRow (buildNameMap raw) raw) data) (newKey (buildNameMap raw) orig)
  = SpecRows.hasValue data orig.
Proof.
  intros Ho Hne. unfold hasValue, SpecRows.hasValue.
  induction data as [| r data IH]; cbn [map existsb]; [reflexivity |].
  rewrite IH, (cleanRow_get raw r orig Ho Hne), cleanValue_nonEmpty. reflexivity.
Qed.

(** The columns of a profile, from the raw rows. *)
Lemma profile_columns_from_raw E firstRow rest datasetName p :
  generateDatasetProfile E (Some (firstRow :: rest)) datasetName = Ok p ->
  NoDup (Js.keys firstRow) ->
  ~ In "__proto__" (sanitizedColumns firstRow) ->
  map name (columns p)
  = map (newKey (buildNameMap (Js.keys firstRow)))
        (filter (SpecRows.hasValue (firstRow :: rest)) (Js.keys firstRow)).
Proof.
  intros H Hnd Hproto.
  rewrite (profile_column_names E _ _ _ _ H).
  destruct (generateDatasetProfile_Ok E _ _ _ _ H) as (-> & _).
  rewrite (sanitizedColumns_by_key firstRow Hnd), filter_map_comm.
  f_equal. apply filter_ext_in. intros orig Ho.
  apply hasValue_cleaned; [exact Ho |].
  intros Heq. apply Hproto. rewrite <- Heq.
  apply buildNameMap_values. exists orig. split; [exact Ho | reflexivity].
Qed.

(** ** A column too long for a spread call *)

Lemma detectStep_five D c :
  detectStep D c (VNum 5)
  = {| numericCount := S (numericCount c); integerCount := S (integerCount c);
       dateCount := dateCount c; booleanCount := booleanCount c |}.
Proof. destruct c. vm_compute. reflexivity. Qed.

Lemma detect_loop_fives D n c :
  fold_left (detectStep D) (repeat (VNum 5) n) c
  = {| numericCount := n + numericCount c; integerCount := n + integerCount c;
       dateCount := dateCount c; booleanCount := booleanCount c |}.
Proof.
  revert c. induction n as [| n IH]; intros c; cbn [repeat fold_left].
  - destruct c. reflexivity.
  - rewrite IH, detectStep_five. cbn [numericCount integerCount dateCount booleanCount].
    f_equal; lia.
Qed.

Lemma filter_repeat {A : Type} (p : A -> bool) (x : A) (n : nat) :
  p x = true -> filter p (repeat x n) = repeat x n.
Proof.
  intros H. induction n as [| n IH]; cbn [repeat filter]; [reflexivity |].
  rewrite H, IH. reflexivity.
Qed.

(** The profile of [n] rows that hold the number 5 under [a], for more
    rows than a call takes arguments: the column is an integer column, and
    [Math.min(...numericValues)] throws. *)
Lemma profile_of_many_fives (E : Engine) (n : nat) (datasetName : string) :
  maxArguments E < n ->
  decideType {| numericCount := n; integerCount := n; dateCount := 0;
                booleanCount := 0 |} n = TInteger ->
  generateDatasetProfile E (Some (repeat [("a", VNum 5)] n)) datasetName
  = ThrowRangeError.
Proof.
  intros Hlimit Htype. destruct n as [| n]; [lia |].
  change (repeat [("a", VNum 5)] (S n))
    with ([("a", VNum 5)] :: repeat [("a", VNum 5)] n).
  rewrite generateDatasetProfile_rows. cbv zeta.
  change (map ?f ([("a", VNum 5)] :: repeat [("a", VNum 5)] n))
    with (map f (repeat [("a", VNum 5)] (S n))).
  rewrite map_repeat.
  change (cleanRow (buildNameMap (Js.keys [("a", VNum 5)])) (Js.keys [("a", VNum 5)])
                   [("a", VNum 5)])
    with [("a", VNum 5)].
  change (nonEmptyColumns (buildNameMap (Js.keys [("a", VNum 5)]))
                          (repeat [("a", VNum 5)] (S n)))
    with ["a"].
  cbn [Res.mapM]. cbv beta.
  match goal with
  | |- context [columnData ?d "a"] =>
      assert (Hdata : columnData d "a" = repeat (VNum 5) (S n))
  end.
  { unfold columnData. rewrite map_repeat. apply filter_repeat. reflexivity. }
  rewrite Hdata. unfold analyzeColumn. cbn [repeat]. cbv zeta.
  change (VNum 5 :: repeat (VNum 5) n) with (repeat (VNum 5) (S n)).
  rewrite (filter_repeat Js.nonEmpty (VNum 5) (S n) eq_refl).
  assert (Ht : detectColumnType E (repeat (VNum 5) (S n)) = TInteger).
  { unfold detectColumnType. cbn [repeat].
    change (VNum 5 :: repeat (VNum 5) n) with (repeat (VNum 5) (S n)).
    rewrite detect_loop_fives, repeat_length. cbn [noCounts numericCount integerCount
      dateCount booleanCount]. rewrite Nat.add_0_r. exact Htype. }
  rewrite Ht, map_repeat.
  change (Js.parseFloat (VNum 5)) with 5%float.
  rewrite (filter_repeat (fun x => negb (Num.isNaN x)) 5%float (S n) eq_refl).
  cbn [repeat].
  change (5%float :: repeat 5%float n) with (repeat 5%float (S n)).
  rewrite spread_exceeds by (rewrite repeat_length; exact Hlimit).
  reflexivity.
Qed.

(** C6: the profiler throws its error iff the rows are absent or empty,
    and throws no other [Error]; for non-empty rows that are no more than
    a call takes arguments it returns a profile; a profile returned has as
    [total_rows] the number of its cleaned rows, which is the number of
    input rows, and (for a first row with ordinary keys) as columns the
    sanitized columns of the raw keys under which some raw row has a cell
    that is not blank, as many as there are such keys.  Past that
    number of rows a profile need not be returned: on an engine whose calls
    take fewer than 130000 arguments, 130000 rows with the number 5 under
    [a] give a [RangeError]. *)
Theorem generateDatasetProfile_throws_iff_empty :
  forall (E : Engine) (data : option (list Row)) (datasetName : string),
    (generateDatasetProfile E data datasetName = Throw "Dataset is empty or invalid"
     <-> data = None \/ data = Some [])
    /\ (forall message, generateDatasetProfile E data datasetName = Throw message ->
                        message = "Dataset is empty or invalid")
    /\ (forall firstRow rest, data = Some (firstRow :: rest) ->
        (List.length (firstRow :: rest) <= maxArguments E ->
         exists p, generateDatasetProfile E data datasetName = Ok p)
        /\ forall p, generateDatasetProfile E data datasetName = Ok p ->
             total_rows p = List.length (rows p)
             /\ List.length (rows p) = List.length (firstRow :: rest)
             /\ (ordinaryHeader firstRow ->
                 map name (columns p)
                 = map (newKey (buildNameMap (Js.keys firstRow)))
                       (filter (SpecRows.hasValue (firstRow :: rest)) (Js.keys firstRow))
                 /\ List.length (columns p)
                    = List.length (filter (SpecRows.hasValue (firstRow :: rest))
                                          (Js.keys firstRow))))
    /\ (maxArguments E < Z.to_nat 130000 ->
        generateDatasetProfile E (Some c6_many_rows) datasetName = ThrowRangeError).
Proof.
  intros E data datasetName. split; [| split; [| split]]; cycle 3.
  { intros Hlimit. apply profile_of_many_fives; [exact Hlimit |].
    vm_compute. reflexivity. }
  - split.
    + intros H. destruct data as [[| firstRow rest] |]; auto.
      exfalso. exact (generateDatasetProfile_no_Throw E _ _ _ _ H).
    + intros [-> | ->]; reflexivity.
  - intros message H. destruct data as [[| firstRow rest] |].
    + injection H as <-. reflexivity.
    + exfalso. exact (generateDatasetProfile_no_Throw E _ _ _ _ H).
    + injection H as <-. reflexivity.
  - intros firstRow rest ->. split; [apply generateDatasetProfile_fits |].
    intros p H.
    destruct (generateDatasetProfile_Ok E _ _ _ _ H) as (Hrows & _ & Htotal & _).
    split; [exact Htotal |].
    split; [rewrite Hrows; apply length_map |].
    intros (Hnd & _ & Hproto).
    pose proof (profile_columns_from_raw E _ _ _ _ H Hnd Hproto) as Hnames.
    split; [exact Hnames |].
    rewrite <- (length_map name), Hnames. apply length_map.
Qed.

Lemma generateDatasetProfile_throws_iff_empty_witness :
  (exists p, generateDatasetProfile IsoDate.impl (Some c6_rows) "orders.xlsx" = Ok p
             /\ total_rows p = 2
             /\ map name (columns p) = ["name"; "qty"])
  /\ generateDatasetProfile IsoDate.impl (Some c6_many_rows) "orders.xlsx"
     = ThrowRangeError.
Proof.
  destruct (generateDatasetProfile_throws_iff_empty
              IsoDate.impl (Some c6_rows) "orders.xlsx") as (_ & _ & Hrows & Hmany).
  split; [| apply Hmany, Nat.ltb_lt; vm_compute; reflexivity].
  destruct (Hrows _ _ eq_refl) as (Hfits & Hp).
  destruct Hfits as [p H]; [apply Nat.leb_le; vm_compute; reflexivity |].
  exists p. split; [exact H |].
  destruct (Hp p H) as (Ht & Hl & Hraw).
  split; [rewrite Ht, Hl; reflexivity |].
  destruct Hraw as [Hn _].
  - split; [| split].
    + vm_compute. repeat constructor; cbn [In]; intuition discriminate.
    + intros k Hk Hin. vm_compute in Hk, Hin. intuition (subst; discriminate).
    + vm_compute. intuition discriminate.
  - rewrite Hn. vm_compute. reflexivity.
Defined.

(** C9: the profile is made from the cells under the keys of the first raw
    row alone: data sets that agree there give the same result, whatever
    other keys their later rows hold; the keys of every cleaned row, and so
    of every sample row, are the sanitized names of the first row's keys
    (but for [__proto__], under which an assignment makes no property), and
    every column is named by one of them. *)
Theorem profile_depends_on_first_row_keys :
  forall (E : Engine) (firstRow : Row) (rest rest' : list Row) (datasetName : string),
    Forall2 (fun r r' => forall k, In k (Js.keys firstRow) -> Js.get r k = Js.get r' k)
            rest rest' ->
    generateDatasetProfile E (Some (firstRow :: rest)) datasetName
    = generateDatasetProfile E (Some (firstRow :: rest')) datasetName
    /\ (List.length (firstRow :: rest) <= maxArguments E ->
        exists p, generateDatasetProfile E (Some (firstRow :: rest)) datasetName = Ok p)
    /\ forall p,
        generateDatasetProfile E (Some (firstRow :: rest)) datasetName = Ok p ->
        (forall row k, In row (rows p) ->
           (In k (Js.keys row) <-> In k (sanitizedColumns firstRow) /\ k <> "__proto__"))
        /\ sample_rows p = firstn 10 (rows p)
        /\ (forall c, In c (columns p) -> In (name c) (sanitizedColumns firstRow)).
Proof.
  intros E firstRow rest rest' datasetName H. split; [| split].
  - rewrite !generateDatasetProfile_rows. cbv zeta.
    assert (Heq : map (cleanRow (buildNameMap (Js.keys firstRow)) (Js.keys firstRow)) rest
                  = map (cleanRow (buildNameMap (Js.keys firstRow)) (Js.keys firstRow)) rest').
    { induction H as [| r r' rest rest' Hr _ IH]; simpl; [reflexivity |].
      rewrite IH, (cleanRow_ext _ _ r r' Hr). reflexivity. }
    cbn [map]. rewrite Heq. reflexivity.
  - apply generateDatasetProfile_fits.
  - intros p Hp.
    destruct (generateDatasetProfile_Ok E _ _ _ _ Hp) as (Hrows & Hsample & _ & _).
    split; [| split; [exact Hsample |]].
    + intros row k Hrow. rewrite Hrows in Hrow.
      apply in_map_iff in Hrow. destruct Hrow as (r & <- & _).
      apply cleanRow_keys_sanitized.
    + intros c Hc.
      assert (Hin : In (name c) (map name (columns p))) by (apply in_map, Hc).
      rewrite (profile_column_names E _ _ _ _ Hp) in Hin.
      apply filter_In in Hin. exact (proj1 Hin).
Qed.

Lemma profile_depends_on_first_row_keys_witness :
  generateDatasetProfile IsoDate.impl (Some (c9_first :: c9_rest)) "cities.csv"
  = generateDatasetProfile IsoDate.impl (Some (c9_first :: c9_rest')) "cities.csv".
Proof.
  apply (profile_depends_on_first_row_keys IsoDate.impl c9_first c9_rest c9_rest').
  constructor; [| constructor].
  intros k [<- | [<- | []]]; reflexivity.
Defined.

Example later_key_is_ignored :
  generateDatasetProfile IsoDate.impl (Some (c9_first :: c9_rest)) "cities.csv"
  = Ok {| dataset_name := "cities";
          columns :=
            [ {| name := "id"; type := TInteger; unique_values := 2;
                 min := Some (VNum 7); max := Some (VNum 8);
                 sample_values := Some [VNum 7; VNum 8] |};
              {| name := "city"; type := TString; unique_values := 2;
                 min := None; max := None;
                 sample_values := Some [VStr "Oslo"; VStr "Rome"] |} ];
          sample_rows := [ [("id", VNum 7); ("city", VStr "Oslo")];
                           [("id", VNum 8); ("city", VStr "Rome")] ];
          rows := [ [("id", VNum 7); ("city", VStr "Oslo")];
                    [("id", VNum 8); ("city", VStr "Rome")] ];
          total_rows := 2 |}.
Proof. vm_compute. reflexivity. Qed.

(** A header that trims to [__proto__] names a column of the name map, and
    no key of the cleaned rows. *)
Example proto_header_makes_no_key :
  sanitizedColumns [("a", VStr "x"); (" __proto__", VStr "y")] = ["a"; "__proto__"]
  /\ cleanRow (buildNameMap ["a"; " __proto__"]) ["a"; " __proto__"]
              [("a", VStr "x"); (" __proto__", VStr "y")]
     = [("a", VStr "x")].
Proof. split; vm_compute; reflexivity. Qed.

(** C1 at a data set with a column that is empty in every row: the column
    [b] is left out of the profile's columns, and the cleaned row, which is
    also the sample row, still has the key [b]. *)
Theorem empty_column_stays_in_rows :
  generateDatasetProfile IsoDate.impl (Some c1_rows) "t.csv"
  = Ok {| dataset_name := "t";
          columns := [ {| name := "a"; type := TInteger; unique_values := 1;
                          min := Some (VNum 5); max := Some (VNum 5);
                          sample_values := Some [VNum 5] |} ];
          sample_rows := [ [("a", VNum 5); ("b", VStr "")] ];
          rows := [ [("a", VNum 5); ("b", VStr "")] ];
          total_rows := 1 |}.
Proof. vm_compute. reflexivity. Qed.
(** ** Local analytics *)

(** C3, as stated, fails: the name [y] has none of the words year, date,
    time, occurrence in it, and the column's type is integer, so no column
    is date-like and no line is produced. *)
Lemma column_y_is_not_date_like :
  exists p,
    generateDatasetProfile IsoDate.impl (Some c3_rows) "data.csv" = Ok p
    /\ map (fun c => (name c, type c)) (columns p)
       = [("y", TInteger); ("amount", TInteger)]
    /\ Re.dateLikeName "y" = false
    /\ computeLocalAnalytics IsoDate.impl p (rows p) = []
    /\ computeLocalAnalytics IsoDate.impl p c3_rows = [].
Proof.
  eexists. split; [vm_compute; reflexivity |].
  repeat split; vm_compute; reflexivity.
Qed.

(** The same for every engine. *)
Example no_line_for_column_y :
  forall E : Engine,
  exists p,
    generateDatasetProfile E (Some c3_rows) "data.csv" = Ok p
    /\ computeLocalAnalytics E p (rows p) = [].
Proof.
  intros E. destruct (engine_limit E) as (D & k & Hk & ->). eexists. split; [vm_compute; reflexivity |].
  vm_compute. reflexivity.
Qed.

(** C3, amended: with the date-like column named [year] and the numeric
    column [amount] before it, the rows (amount 100, year 2020) and (amount
    150, year 2021) give one line, the year-over-year change of [amount]
    from 2020 to 2021, which ends in [+50%]. *)
Theorem yoy_line_for_year_column :
  forall E : Engine,
  exists p,
    generateDatasetProfile E (Some c3_rows_amount_year) "data.csv" = Ok p
    /\ map (fun c => (name c, type c)) (columns p)
       = [("amount", TInteger); ("year", TInteger)]
    /\ Re.dateLikeName "year" = true
    /\ computeLocalAnalytics E p (rows p)
       = ["YoY change of amount from 2020 to 2021: +50%"]
    /\ Str.contains "+50%" "YoY change of amount from 2020 to 2021: +50%" = true.
Proof.
  intros E. destruct (engine_limit E) as (D & k & Hk & ->).
  eexists. split; [vm_compute; reflexivity |].
  repeat split; vm_compute; reflexivity.
Qed.

(** With [year] before [amount] the first numeric column is [year] itself,
    and the line is about it. *)
Example yoy_line_when_year_comes_first :
  forall E : Engine,
  exists p,
    generateDatasetProfile E (Some c3_rows_year_amount) "data.csv" = Ok p
    /\ computeLocalAnalytics E p (rows p)
       = ["YoY change of year from 2020 to 2021: +0%"].
Proof.
  intros E. destruct (engine_limit E) as (D & k & Hk & ->). eexists. split; [vm_compute; reflexivity |].
  vm_compute. reflexivity.
Qed.

(** * Further properties of the sources *)

(** ** [applyFilters]: how filters compose *)

Section FilterComposition.

Variable D : DateImpl.

Lemma filter_filter_andb {A : Type} (p q : A -> bool) (l : list A) :
  filter q (filter p l) = filter (fun x => p x && q x) l.
Proof.
  induction l as [| x l IH]; simpl; [reflexivity |].
  destruct (p x); simpl; [destruct (q x) |]; rewrite IH; reflexivity.
Qed.

Lemma forallb_permutation {A : Type} (p : A -> bool) (l l' : list A) :
  Permutation l l' -> forallb p l = forallb p l'.
Proof.
  induction 1 as [| x l l' _ IH | x y l | l l' l'' _ IH1 _ IH2]; simpl.
  - reflexivity.
  - rewrite IH. reflexivity.
  - destruct (p x), (p y); reflexivity.
  - congruence.
Qed.

End FilterComposition.

(** X1: filtering by two lists of filters one after the other is filtering
    by both at once; so filtering twice by the same filters changes nothing
    more. *)
Theorem applyFilters_in_sequence :
  forall (D : DateImpl) (data : list Row) (first second : list Filter.Spec),
    applyFilters D (applyFilters D data first) second
    = applyFilters D data (first ++ second)
    /\ applyFilters D (applyFilters D data first) first = applyFilters D data first.
Proof.
  intros D data first second.
  assert (H : forall fs gs, applyFilters D (applyFilters D data fs) gs
                            = applyFilters D data (fs ++ gs)).
  { intros fs gs. unfold applyFilters. rewrite filter_filter_andb.
    apply filter_ext. intros row. rewrite forallb_app. reflexivity. }
  split; [apply H |].
  rewrite H. unfold applyFilters. apply filter_ext. intros row.
  rewrite forallb_app. destruct (forallb (matchesFilter D row) first); reflexivity.
Qed.

(** X2: the order in which the filters are listed does not matter. *)
Theorem applyFilters_order_irrelevant :
  forall (D : DateImpl) (data : list Row) (filters filters' : list Filter.Spec),
    Permutation filters filters' ->
    applyFilters D data filters = applyFilters D data filters'.
Proof.
  intros D data filters filters' H. unfold applyFilters.
  apply filter_ext. intros row. apply forallb_permutation, H.
Qed.

Lemma applyFilters_order_irrelevant_witness :
  applyFilters IsoDate.impl x2_rows [x2_range; x2_discrete]
  = applyFilters IsoDate.impl x2_rows [x2_discrete; x2_range].
Proof.
  apply (applyFilters_order_irrelevant IsoDate.impl x2_rows). apply perm_swap.
Defined.

(** ** The profile: names, cells and columns *)

Lemma trimEnd_idempotent s : Str.trimEnd (Str.trimEnd s) = Str.trimEnd s.
Proof.
  induction s as [| c s IH]; simpl; [reflexivity |].
  destruct (Str.isWhiteSpace c && Str.isEmpty (Str.trimEnd s)) eqn:E; simpl.
  - reflexivity.
  - rewrite IH, E. reflexivity.
Qed.

Lemma trimStart_startsClean s : startsClean (Str.trimStart s).
Proof.
  induction s as [| c s IH]; simpl; [exact I |].
  destruct (Str.isWhiteSpace c) eqn:E; [exact IH | exact E].
Qed.

Lemma trimStart_of_startsClean s : startsClean s -> Str.trimStart s = s.
Proof. destruct s as [| c s]; simpl; [reflexivity | intros ->; reflexivity]. Qed.

Lemma trimEnd_startsClean s : startsClean s -> startsClean (Str.trimEnd s).
Proof.
  destruct s as [| c s]; simpl; [intros _; exact I |].
  intros E. rewrite E. simpl. exact E.
Qed.

Lemma trim_idempotent s : Str.trim (Str.trim s) = Str.trim s.
Proof.
  unfold Str.trim.
  rewrite (trimStart_of_startsClean (Str.trimEnd (Str.trimStart s))).
  - apply trimEnd_idempotent.
  - apply trimEnd_startsClean, trimStart_startsClean.
Qed.

Lemma cleanValue_not_null v : cleanValue v <> VNull /\ cleanValue v <> VUndefined.
Proof.
  destruct v as [| | b | x | s]; simpl; try (split; discriminate).
  destruct (Re.thousands _); [destruct (negb _); split; discriminate |].
  destruct (Re.simpleNumeric _); [destruct (negb _); split; discriminate |].
  split; discriminate.
Qed.

Lemma cleanValue_string_trimmed v s : cleanValue v = VStr s -> Str.trim s = s.
Proof.
  destruct v as [| | b | x | s0]; simpl; try discriminate.
  - intros [= <-]. reflexivity.
  - intros [= <-]. reflexivity.
  - destruct (Re.thousands _).
    + destruct (negb _); [discriminate | intros [= <-]; apply trim_idempotent].
    + destruct (Re.simpleNumeric _).
      * destruct (negb _); [discriminate | intros [= <-]; apply trim_idempotent].
      * intros [= <-]. apply trim_idempotent.
Qed.

(** X3: the column names of a profile are pairwise distinct. *)
Theorem profile_column_names_distinct :
  forall (E : Engine) (data : option (list Row)) (datasetName : string)
         (p : DatasetProfile),
    generateDatasetProfile E data datasetName = Ok p ->
    NoDup (map name (columns p)).
Proof.
  intros E data datasetName p H.
  destruct (profile_Ok_inv _ _ _ _ H) as (firstRow & rest & ->).
  rewrite (profile_column_names _ _ _ _ _ H).
  apply NoDup_filter. unfold sanitizedColumns. apply buildNameMap_facts.
Qed.

Lemma profile_column_names_distinct_witness :
  exists p, generateDatasetProfile IsoDate.impl (Some x3_rows) "people.csv" = Ok p
            /\ map name (columns p) = ["name"; "name_1"; "n"]
            /\ NoDup (map name (columns p)).
Proof.
  eexists. split; [vm_compute; reflexivity |]. split; [vm_compute; reflexivity |].
  apply (profile_column_names_distinct IsoDate.impl (Some x3_rows) "people.csv").
  vm_compute. reflexivity.
Defined.

(** X4: in the cleaned row of a raw row, the cell under the sanitized name
    of a key of the first row is the cleaned cell the raw row has under
    that key, for every sanitized name but [__proto__] (under which the
    assignment makes no property). *)
Theorem cleaned_cell_is_cleaned_raw_cell :
  forall (E : Engine) (firstRow : Row) (rest : list Row) (datasetName : string)
         (p : DatasetProfile) (i : nat) (rawRow : Row),
    generateDatasetProfile E (Some (firstRow :: rest)) datasetName = Ok p ->
    nth_error (firstRow :: rest) i = Some rawRow ->
    exists cleanedRow,
      nth_error (rows p) i = Some cleanedRow
      /\ forall orig, In orig (Js.keys firstRow) ->
           newKey (buildNameMap (Js.keys firstRow)) orig <> "__proto__" ->
           Js.get cleanedRow (newKey (buildNameMap (Js.keys firstRow)) orig)
           = cleanValue (Js.get rawRow orig).
Proof.
  intros E firstRow rest datasetName p i rawRow H Hi.
  destruct (generateDatasetProfile_Ok _ _ _ _ _ H) as (-> & _).
  eexists. split.
  - apply map_nth_error, Hi.
  - intros orig Ho Hne. apply cleanRow_get; [exact Ho | exact Hne].
Qed.

Lemma cleaned_cell_is_cleaned_raw_cell_witness :
  exists p cleanedRow,
    generateDatasetProfile IsoDate.impl (Some x3_rows) "people.csv" = Ok p
    /\ nth_error (rows p) 0 = Some cleanedRow
    /\ Js.get cleanedRow "name_1" = VStr "x"
    /\ Js.get cleanedRow "n" = VNum 1200.
Proof.
  assert (H : exists p, generateDatasetProfile IsoDate.impl (Some x3_rows) "people.csv" = Ok p)
    by (eexists; vm_compute; reflexivity).
  destruct H as [p H]. exists p.
  destruct (cleaned_cell_is_cleaned_raw_cell IsoDate.impl _ _ _ p 0 _ H eq_refl)
    as (cleanedRow & Hn & Hcell).
  exists cleanedRow. split; [exact H |]. split; [exact Hn |]. split.
  - apply (Hcell "name "); [vm_compute; tauto | vm_compute; discriminate].
  - apply (Hcell "n"); [vm_compute; tauto | vm_compute; discriminate].
Defined.

(** X5: no cell of a cleaned row is [null] or [undefined], and a cell that
    is a string has no white space at either end. *)
Theorem cleaned_cells_are_never_null :
  forall (E : Engine) (data : option (list Row)) (datasetName : string)
         (p : DatasetProfile) (row : Row) (k : string),
    generateDatasetProfile E data datasetName = Ok p ->
    In row (rows p) -> In k (Js.keys row) ->
    Js.get row k <> VNull /\ Js.get row k <> VUndefined
    /\ forall s, Js.get row k = VStr s -> Str.trim s = s.
Proof.
  intros E data datasetName p row k H Hrow Hk.
  destruct (profile_Ok_inv _ _ _ _ H) as (firstRow & rest & ->).
  destruct (generateDatasetProfile_Ok _ _ _ _ _ H) as (Hrows & _).
  rewrite Hrows in Hrow. apply in_map_iff in Hrow. destruct Hrow as (r & <- & _).
  apply cleanRow_keys in Hk. destruct Hk as (Hne & orig & Ho & <-).
  rewrite (cleanRow_get _ r orig Ho Hne).
  destruct (cleanValue_not_null (Js.get r orig)) as [H1 H2].
  split; [exact H1 |]. split; [exact H2 |].
  intros s. apply cleanValue_string_trimmed.
Qed.

Lemma cleaned_cells_are_never_null_witness :
  exists p row,
    generateDatasetProfile IsoDate.impl (Some x3_rows) "people.csv" = Ok p
    /\ In row (rows p)
    /\ Js.get row "Column_1" <> VNull.
Proof.
  assert (H : exists p, generateDatasetProfile IsoDate.impl (Some x3_rows) "people.csv" = Ok p)
    by (eexists; vm_compute; reflexivity).
  destruct H as [p H]. exists p.
  assert (Hrow : exists row, nth_error (rows p) 0 = Some row /\ In "Column_1" (Js.keys row)).
  { vm_compute in H. injection H as <-. eexists. split; [reflexivity |].
    vm_compute. tauto. }
  destruct Hrow as (row & Hn & Hk). exists row.
  apply nth_error_In in Hn. split; [exact H |]. split; [exact Hn |].
  exact (proj1 (cleaned_cells_are_never_null IsoDate.impl _ _ p row "Column_1" H Hn Hk)).
Defined.

Lemma distinct_fold_length values acc :
  List.length acc
  <= List.length (fold_left (fun acc v => if Js.includes acc v then acc
                                          else acc ++ [Js.setElement v]) values acc)
  <= List.length acc + List.length values.
Proof.
  revert acc. induction values as [| v values IH]; intros acc; simpl; [lia |].
  destruct (Js.includes acc v).
  - specialize (IH acc). lia.
  - specialize (IH (acc ++ [Js.setElement v])). rewrite length_app in IH. simpl in IH. lia.
Qed.

Lemma distinct_length values :
  values <> [] ->
  1 <= List.length (Js.distinct values) <= List.length values.
Proof.
  destruct values as [| v values]; [contradiction |]. intros _.
  unfold Js.distinct. simpl.
  pose proof (distinct_fold_length values [Js.setElement v]) as H. simpl in H. lia.
Qed.

Lemma Forall2_in_r {A B : Type} (R : A -> B -> Prop) (l : list A) (l' : list B) :
  Forall2 R l l' -> forall b, In b l' -> exists a, In a l /\ R a b.
Proof.
  induction 1 as [| a b l l' Hab _ IH]; intros x Hx; [contradiction |].
  destruct Hx as [<- | Hx].
  - exists a. split; [left; reflexivity | exact Hab].
  - destruct (IH x Hx) as (a' & Ha' & Hr). exists a'. split; [right |]; assumption.
Qed.

Lemma columnData_nonempty cleanedData col :
  hasValue cleanedData col = true -> columnData cleanedData col <> [].
Proof.
  unfold hasValue, columnData.
  induction cleanedData as [| r cleanedData IH]; simpl; [discriminate |].
  destruct (Js.nonEmpty (Js.get r col)); simpl; [discriminate | exact IH].
Qed.

(** X6: every column of a profile counts at least one distinct value and no
    more than there are rows, and comes with sample values: the first five
    distinct values, or all of them when they are fewer. *)
Theorem profile_columns_have_values :
  forall (E : Engine) (data : option (list Row)) (datasetName : string)
         (p : DatasetProfile) (c : DatasetColumn),
    generateDatasetProfile E data datasetName = Ok p ->
    In c (columns p) ->
    1 <= unique_values c <= total_rows p
    /\ exists l, sample_values c = Some l
                 /\ List.length l = Nat.min 5 (unique_values c).
Proof.
  intros E data datasetName p c H Hc.
  destruct (profile_Ok_inv _ _ _ _ H) as (firstRow & rest & ->).
  destruct (generateDatasetProfile_Ok _ _ _ _ _ H) as (_ & _ & Htotal & Hcols).
  destruct (Forall2_in_r _ _ _ Hcols c Hc) as (col & Hcol & Ha).
  unfold nonEmptyColumns in Hcol. apply filter_In in Hcol. destruct Hcol as [_ Hcol].
  apply columnData_nonempty in Hcol.
  destruct (analyzeColumn_Ok E col _ c Ha) as [_ Hfields].
  destruct (Hfields Hcol) as (_ & -> & ->).
  pose proof (distinct_length _ Hcol) as Hd.
  pose proof (columnData_length_le (rows p) col) as Hl.
  rewrite Htotal.
  split; [lia |]. eexists. split; [reflexivity |]. apply length_firstn.
Qed.

Lemma profile_columns_have_values_witness :
  exists p c,
    generateDatasetProfile IsoDate.impl (Some x3_rows) "people.csv" = Ok p
    /\ nth_error (columns p) 2 = Some c
    /\ unique_values c = 2
    /\ 1 <= unique_values c <= total_rows p.
Proof.
  assert (H : exists p, generateDatasetProfile IsoDate.impl (Some x3_rows) "people.csv" = Ok p)
    by (eexists; vm_compute; reflexivity).
  destruct H as [p H]. exists p.
  assert (Hc : exists c, nth_error (columns p) 2 = Some c /\ unique_values c = 2).
  { vm_compute in H. injection H as <-. eexists. split; reflexivity. }
  destruct Hc as (c & Hn & Hu). exists c.
  split; [exact H |]. split; [exact Hn |]. split; [exact Hu |].
  exact (proj1 (profile_columns_have_values IsoDate.impl _ _ p c H (nth_error_In _ _ Hn))).
Defined.

(** ** Column names, continued *)

Lemma includesString_false l s : ~ In s l -> Js.includesString l s = false.
Proof.
  intros H. destruct (Js.includesString l s) eqn:E; [| reflexivity].
  apply includesString_In in E. contradiction.
Qed.

Lemma sanitize_clean_header nameMap colCounter k :
  SpecNames.invalidKey k = false -> Str.trim k = k ->
  ~ In k (NameMapOps.values nameMap) ->
  sanitize nameMap colCounter k = (k, colCounter).
Proof.
  intros Hvalid Htrim Hfresh. unfold sanitize.
  change (Str.isEmpty (Str.trim k) || Re.autoNumbered (Str.trim k)
          || Re.emptyMarker (Str.trim k)) with (SpecNames.invalidKey k).
  rewrite Hvalid, Htrim. cbn [uniquify].
  rewrite (includesString_false _ _ Hfresh). reflexivity.
Qed.

Lemma identity_map_keys l : Assoc.keys (map (fun k : string => (k, k)) l) = l.
Proof. unfold Assoc.keys. rewrite map_map. apply map_id. Qed.

Lemma identity_map_values l : NameMapOps.values (map (fun k : string => (k, k)) l) = l.
Proof. unfold NameMapOps.values, Assoc.values. rewrite map_map. apply map_id. Qed.

Lemma clean_headers_loop raw pre colCounter :
  NoDup (pre ++ raw) ->
  (forall k, In k raw -> SpecNames.invalidKey k = false /\ Str.trim k = k) ->
  fold_left sanitizeStep raw (map (fun k => (k, k)) pre, colCounter)
  = (map (fun k => (k, k)) (pre ++ raw), colCounter).
Proof.
  revert pre. induction raw as [| k raw IH]; intros pre Hnd Hvalid; cbn [fold_left].
  - rewrite app_nil_r. reflexivity.
  - assert (Hfresh : ~ In k pre).
    { apply NoDup_remove_2 in Hnd. intros Hin. apply Hnd, in_or_app. left. exact Hin. }
    destruct (Hvalid k (or_introl eq_refl)) as [Hv Ht].
    rewrite sanitizeStep_eq.
    rewrite sanitize_clean_header; [| exact Hv | exact Ht |
                                     rewrite identity_map_values; exact Hfresh].
    cbn [fst snd]. unfold NameMapOps.set. rewrite assoc_set_fresh
      by (rewrite identity_map_keys; exact Hfresh).
    replace (map (fun k0 : string => (k0, k0)) pre ++ [(k, k)])
      with (map (fun k0 : string => (k0, k0)) (pre ++ [k]))
      by (rewrite map_app; reflexivity).
    rewrite IH.
    + rewrite <- app_assoc. reflexivity.
    + rewrite <- app_assoc. exact Hnd.
    + intros k' Hk'. apply Hvalid. right. exact Hk'.
Qed.

(** X7: headers that are already clean are kept: when the raw keys are
    pairwise distinct, have no white space at either end and are none of
    the replaced kinds, every key is its own sanitized name. *)
Theorem clean_headers_are_kept :
  forall raw : list string,
    NoDup raw ->
    (forall k, In k raw -> SpecNames.invalidKey k = false /\ Str.trim k = k) ->
    buildNameMap raw = map (fun k => (k, k)) raw.
Proof.
  intros raw Hnd Hvalid. unfold buildNameMap.
  change (@nil (string * string)) with (map (fun k : string => (k, k)) []).
  rewrite (clean_headers_loop raw [] 1 Hnd Hvalid). reflexivity.
Qed.

Lemma clean_headers_are_kept_witness :
  buildNameMap x7_headers
  = [("id", "id"); ("City", "City"); ("unit price", "unit price")].
Proof.
  apply (clean_headers_are_kept x7_headers).
  - repeat constructor; simpl; intuition discriminate.
  - intros k [<- | [<- | [<- | []]]]; split; reflexivity.
Defined.

Lemma append_nonempty (a b : string) : a <> EmptyString -> (a ++ b)%string <> EmptyString.
Proof. destruct a; [contradiction | discriminate]. Qed.

Lemma uniquify_nonempty fuel existing candidate suffix :
  candidate <> EmptyString -> uniquify fuel existing candidate suffix <> EmptyString.
Proof.
  revert candidate suffix. induction fuel as [| fuel IH]; intros candidate suffix H; simpl.
  - exact H.
  - destruct (Js.includesString existing candidate); [| exact H].
    apply IH, append_nonempty, H.
Qed.

Lemma sanitize_nonempty nameMap colCounter raw :
  fst (sanitize nameMap colCounter raw) <> EmptyString.
Proof.
  rewrite sanitize_fst. apply uniquify_nonempty.
  unfold SpecNames.baseName, SpecNames.invalidKey. cbv zeta.
  destruct (Str.trim raw) as [| c t] eqn:E.
  - discriminate.
  - destruct (_ || _); discriminate.
Qed.

Lemma sanitize_loop_nonempty raw nameMap colCounter :
  (forall n, In n (NameMapOps.values nameMap) -> n <> EmptyString) ->
  forall n, In n (NameMapOps.values (fst (fold_left sanitizeStep raw (nameMap, colCounter)))) ->
            n <> EmptyString.
Proof.
  revert nameMap colCounter.
  induction raw as [| k raw IH]; intros nameMap colCounter H; cbn [fold_left].
  - exact H.
  - rewrite sanitizeStep_eq. apply IH. intros n Hn.
    apply assoc_values_set in Hn. destruct Hn as [Hn | ->].
    + apply H, Hn.
    + apply sanitize_nonempty.
Qed.

(** X8: no sanitized column name is the empty string. *)
Theorem sanitized_names_are_nonempty :
  forall (raw : list string) (n : string),
    In n (NameMapOps.values (buildNameMap raw)) -> n <> EmptyString.
Proof.
  intros raw n. unfold buildNameMap. apply sanitize_loop_nonempty. intros n' [].
Qed.

Lemma sanitized_names_are_nonempty_witness :
  In "Column_1" (NameMapOps.values (buildNameMap [" "; "a"]))
  /\ "Column_1" <> EmptyString.
Proof.
  assert (H : In "Column_1" (NameMapOps.values (buildNameMap [" "; "a"])))
    by (vm_compute; tauto).
  split; [exact H |]. exact (sanitized_names_are_nonempty _ _ H).
Defined.

(** ** Type inference, continued *)

Lemma count_permutation D f values values' :
  Permutation values values' ->
  SpecTypes.count D f values = SpecTypes.count D f values'.
Proof.
  unfold SpecTypes.count.
  induction 1 as [| x l l' _ IH | x y l | l l' l'' _ IH1 _ IH2]; simpl.
  - reflexivity.
  - destruct (f (SpecTypes.bucket D x)); simpl; rewrite IH; reflexivity.
  - destruct (f (SpecTypes.bucket D x)), (f (SpecTypes.bucket D y)); reflexivity.
  - congruence.
Qed.

(** X9: the inferred type of a column does not depend on the order of its
    values. *)
Theorem detectColumnType_order_irrelevant :
  forall (D : DateImpl) (values values' : list JsVal),
    Permutation values values' ->
    detectColumnType D values = detectColumnType D values'.
Proof.
  intros D values values' H.
  destruct values as [| v values].
  - apply Permutation_nil in H. subst. reflexivity.
  - assert (Hne : values' <> []).
    { intros ->. apply Permutation_sym, Permutation_nil in H. discriminate. }
    rewrite (detectColumnType_inferType D (v :: values)) by discriminate.
    rewrite (detectColumnType_inferType D values' Hne).
    unfold SpecTypes.inferType.
    rewrite (Permutation_length H).
    rewrite !(count_permutation D _ _ _ H). reflexivity.
Qed.

Lemma detectColumnType_order_irrelevant_witness :
  detectColumnType IsoDate.impl x9_values = detectColumnType IsoDate.impl x9_values'.
Proof.
  apply (detectColumnType_order_irrelevant IsoDate.impl).
  exact (Permutation_rev x9_values).
Defined.

(** A share of nothing is below the threshold, whatever the total. *)
Lemma zero_share_is_below (total : nat) :
  (0.8 <=? SpecTypes.fraction 0 total)%float = false.
Proof.
  unfold SpecTypes.fraction.
  replace (Num.ofNat 0) with zero by reflexivity.
  rewrite leb_spec, div_spec.
  replace (Prim2SF zero) with (S754_zero false) by reflexivity.
  replace (Prim2SF 0.8) with (S754_finite false 7205759403792794 (-53))
    by reflexivity.
  destruct (Prim2SF (Num.ofNat total)) as [s | s | | s m e]; reflexivity.
Qed.

Lemma count_none D f values :
  (forall v, In v values -> f (SpecTypes.bucket D v) = false) ->
  SpecTypes.count D f values = 0.
Proof.
  unfold SpecTypes.count. induction values as [| v values IH]; intros H; simpl.
  - reflexivity.
  - rewrite (H v (or_introl eq_refl)). apply IH. intros w Hw. apply H. right. exact Hw.
Qed.

(** X10: a column none of whose values is a boolean word, a number or a
    date has the type string. *)
Theorem unclassified_column_is_string :
  forall (D : DateImpl) (values : list JsVal),
    (forall v, In v values -> SpecTypes.bucket D v = SpecTypes.Unclassified) ->
    detectColumnType D values = TString.
Proof.
  intros D values H. destruct values as [| v values]; [reflexivity |].
  rewrite detectColumnType_inferType by discriminate.
  unfold SpecTypes.inferType.
  rewrite !count_none by (intros w Hw; rewrite (H w Hw); reflexivity).
  rewrite !zero_share_is_below. reflexivity.
Qed.

Lemma unclassified_column_is_string_witness :
  detectColumnType IsoDate.impl x10_values = TString.
Proof.
  apply (unclassified_column_is_string IsoDate.impl x10_values).
  intros v [<- | [<- | [<- | [<- | []]]]]; vm_compute; reflexivity.
Defined.

(** ** Numbers: equality of doubles *)

Lemma SFcompare_Eq_sym (X Y : spec_float) :
  SFcompare X Y = Some Eq -> SFcompare Y X = Some Eq.
Proof.
  destruct X as [s | s | | s m e], Y as [s' | s' | | s' m' e']; simpl;
    try discriminate; try reflexivity;
    try (destruct s, s'; simpl; congruence);
    try (destruct s; discriminate); try (destruct s'; discriminate).
  assert (Hc : forall c : comparison,
             match (e ?= e')%Z with Lt => Lt | Gt => Gt | Eq => c end = Eq ->
             (e ?= e')%Z = Eq /\ c = Eq).
  { intros c. destruct (e ?= e')%Z; auto; discriminate. }
  destruct s, s'; try discriminate; intros [= H].
  - assert (H' : match (e ?= e')%Z with
                 | Lt => Lt | Gt => Gt | Eq => Pos.compare_cont Eq m m' end = Eq).
    { destruct (e ?= e')%Z; try discriminate.
      destruct (Pos.compare_cont Eq m m'); try discriminate. reflexivity. }
    apply Hc in H'. destruct H' as [He Hm].
    apply Z.compare_eq in He. apply Pos.compare_eq in Hm. subst.
    rewrite Z.compare_refl. change (Pos.compare_cont Eq m' m') with (m' ?= m')%positive.
    rewrite Pos.compare_refl. reflexivity.
  - apply Hc in H. destruct H as [He Hm].
    apply Z.compare_eq in He. apply Pos.compare_eq in Hm. subst.
    rewrite Z.compare_refl. change (Pos.compare_cont Eq m' m') with (m' ?= m')%positive.
    rewrite Pos.compare_refl. reflexivity.
Qed.

Lemma float_eqb_sym (x y : float) : (x =? y)%float = (y =? x)%float.
Proof.
  rewrite !eqb_spec. unfold SFeqb.
  destruct (SFcompare (Prim2SF x) (Prim2SF y)) as [[| |] |] eqn:E1;
    destruct (SFcompare (Prim2SF y) (Prim2SF x)) as [[| |] |] eqn:E2;
    try reflexivity;
    try (apply SFcompare_Eq_sym in E1; congruence);
    try (apply SFcompare_Eq_sym in E2; congruence).
Qed.

Lemma float_eqb_refl_or_nan (x : float) : is_nan x = true \/ (x =? x)%float = true.
Proof. unfold is_nan. destruct (x =? x)%float; auto. Qed.

(** A zero is no NaN and compares like the positive zero. *)
Lemma is_zero_spec (y : float) :
  is_zero y = true ->
  is_nan y = false /\ forall x, (x =? y)%float = (x =? zero)%float.
Proof.
  unfold is_zero, is_nan. rewrite !eqb_spec.
  replace (Prim2SF zero) with (S754_zero false) by reflexivity.
  intros H. split.
  - destruct (Prim2SF y) as [s | s | | s m e]; try discriminate; try reflexivity.
    + destruct s; discriminate.
    + destruct s; discriminate.
  - intros x. rewrite !eqb_spec.
    replace (Prim2SF zero) with (S754_zero false) by reflexivity.
    destruct (Prim2SF y) as [s | s | | s m e]; try discriminate.
    + destruct (Prim2SF x) as [s' | s' | | s' m' e']; reflexivity.
    + destruct s; discriminate.
    + destruct s; discriminate.
Qed.

(** ** [SameValueZero] and the distinct values *)

Lemma sameValueZero_refl v : Js.sameValueZero v v = true.
Proof.
  destruct v as [| | b | x | s]; simpl; try reflexivity.
  - destruct b; reflexivity.
  - destruct (float_eqb_refl_or_nan x) as [H | H]; rewrite H.
    + reflexivity.
    + apply orb_true_r.
  - apply String.eqb_refl.
Qed.

Lemma sameValueZero_sym a b : Js.sameValueZero a b = Js.sameValueZero b a.
Proof.
  destruct a as [| | x | x | x], b as [| | y | y | y]; simpl; try reflexivity.
  - destruct x, y; reflexivity.
  - rewrite float_eqb_sym, (andb_comm (is_nan x)). reflexivity.
  - apply String.eqb_sym.
Qed.

Lemma sameValueZero_setElement a v :
  Js.sameValueZero a (Js.setElement v) = Js.sameValueZero a v.
Proof.
  destruct v as [| | b | x | s]; try reflexivity. simpl.
  destruct (is_zero x) eqn:E; [| reflexivity].
  destruct (is_zero_spec x E) as [Hnan Heq].
  destruct a as [| | b | y | s]; try reflexivity. simpl.
  rewrite Hnan, (Heq y). replace (is_nan zero) with false by reflexivity.
  reflexivity.
Qed.

Lemma nonEmpty_setElement v : Js.nonEmpty (Js.setElement v) = Js.nonEmpty v.
Proof.
  destruct v as [| | b | x | s]; try reflexivity. simpl.
  destruct (is_zero x); reflexivity.
Qed.

Lemma includes_false acc v :
  Js.includes acc v = false -> forall a, In a acc -> Js.sameValueZero a v = false.
Proof.
  unfold Js.includes. intros H a Ha.
  destruct (Js.sameValueZero a v) eqn:E; [| reflexivity].
  assert (existsb (fun x => Js.sameValueZero x v) acc = true)
    by (apply existsb_exists; eauto).
  congruence.
Qed.

Lemma distinct_fold_facts values acc :
  NoDup acc ->
  (forall a b, In a acc -> In b acc -> Js.sameValueZero a b = true -> a = b) ->
  let result := fold_left (fun acc v => if Js.includes acc v then acc
                                        else acc ++ [Js.setElement v]) values acc in
  NoDup result
  /\ (forall a b, In a result -> In b result -> Js.sameValueZero a b = true -> a = b)
  /\ (forall v, In v result -> In v acc \/ exists w, In w values /\ v = Js.setElement w)
  /\ (forall a, In a acc -> In a result)
  /\ (forall w, In w values -> exists v, In v result /\ Js.sameValueZero v w = true).
Proof.
  revert acc. induction values as [| w values IH]; intros acc Hnd Hinj; cbv zeta.
  - simpl. split; [exact Hnd |]. split; [exact Hinj |]. split; [auto |].
    split; [auto |]. intros w [].
  - cbn [fold_left]. destruct (Js.includes acc w) eqn:E.
    + destruct (IH acc Hnd Hinj) as (H1 & H2 & H3 & H4 & H5).
      split; [exact H1 |]. split; [exact H2 |]. split; [| split; [exact H4 |]].
      * intros v Hv. destruct (H3 v Hv) as [? | (w' & Hw' & ->)]; [auto |].
        right. exists w'. split; [right; exact Hw' | reflexivity].
      * intros w' [<- | Hw']; [| apply H5, Hw'].
        apply includes_spec in E. destruct E as (x & Hx & Hs).
        exists x. split; [apply H4, Hx | exact Hs].
    + pose proof (includes_false acc w E) as Hfresh.
      assert (Hnew : forall a, In a acc -> Js.sameValueZero a (Js.setElement w) = false).
      { intros a Ha. rewrite sameValueZero_setElement. apply Hfresh, Ha. }
      destruct (IH (acc ++ [Js.setElement w])) as (H1 & H2 & H3 & H4 & H5).
      * apply NoDup_app; [exact Hnd | repeat constructor; intros [] |].
        intros a Ha [Heq | []]. subst a.
        pose proof (Hnew _ Ha) as Hn. rewrite sameValueZero_refl in Hn. discriminate.
      * intros a b Ha Hb Hs. apply in_app_or in Ha, Hb.
        destruct Ha as [Ha | [<- | []]], Hb as [Hb | [<- | []]].
        -- apply Hinj; assumption.
        -- rewrite (Hnew a Ha) in Hs. discriminate.
        -- rewrite sameValueZero_sym, (Hnew b Hb) in Hs. discriminate.
        -- reflexivity.
      * split; [exact H1 |]. split; [exact H2 |]. split; [| split].
        -- intros v Hv. destruct (H3 v Hv) as [Hin | (w' & Hw' & ->)].
           ++ apply in_app_or in Hin. destruct Hin as [Hin | [<- | []]]; [auto |].
              right. exists w. split; [left; reflexivity | reflexivity].
           ++ right. exists w'. split; [right; exact Hw' | reflexivity].
        -- intros a Ha. apply H4, in_or_app. left. exact Ha.
        -- intros w' [<- | Hw']; [| apply H5, Hw'].
           exists (Js.setElement w). split.
           ++ apply H4, in_or_app. right. left. reflexivity.
           ++ rewrite sameValueZero_sym, sameValueZero_setElement.
              apply sameValueZero_refl.
Qed.

Lemma distinct_facts values :
  NoDup (Js.distinct values)
  /\ (forall a b, In a (Js.distinct values) -> In b (Js.distinct values) ->
                  Js.sameValueZero a b = true -> a = b)
  /\ (forall v, In v (Js.distinct values) -> exists w, In w values /\ v = Js.setElement w)
  /\ (forall w, In w values ->
                exists v, In v (Js.distinct values) /\ Js.sameValueZero v w = true).
Proof.
  destruct (distinct_fold_facts values [] (NoDup_nil _)) as (H1 & H2 & H3 & _ & H5).
  - intros a b [].
  - split; [exact H1 |]. split; [exact H2 |]. split; [| exact H5].
    intros v Hv. destruct (H3 v Hv) as [[] | H]. exact H.
Qed.

(** ** [getUniqueValues] *)

Lemma getUniqueValues_permutation data column :
  Permutation (getUniqueValues data column)
              (Js.distinct (filter Js.nonEmpty (map (fun row => Js.get row column) data))).
Proof. unfold getUniqueValues. apply sortBy_permutation. Qed.

Lemma getUniqueValues_nonEmpty data column v :
  In v (getUniqueValues data column) -> Js.nonEmpty v = true.
Proof.
  intros Hv. apply (Permutation_in _ (getUniqueValues_permutation data column)) in Hv.
  destruct (distinct_facts (filter Js.nonEmpty (map (fun row => Js.get row column) data)))
    as (_ & _ & H3 & _).
  destruct (H3 v Hv) as (w & Hw & ->). apply filter_In in Hw.
  rewrite nonEmpty_setElement. exact (proj2 Hw).
Qed.

(** X11: the values offered for a column are its non-empty cells, each
    once: every value listed is a non-empty cell of some row, every
    non-empty cell is listed (a negative zero as the positive one), and no
    two listed values are the same under [SameValueZero]. *)
Theorem getUniqueValues_lists_each_value_once :
  forall (data : list Row) (column : string),
    (forall v, In v (getUniqueValues data column) ->
       Js.nonEmpty v = true
       /\ exists row, In row data /\ v = Js.setElement (Js.get row column))
    /\ (forall row, In row data -> Js.nonEmpty (Js.get row column) = true ->
          exists v, In v (getUniqueValues data column)
                    /\ Js.sameValueZero v (Js.get row column) = true)
    /\ NoDup (getUniqueValues data column)
    /\ (forall a b, In a (getUniqueValues data column) ->
                    In b (getUniqueValues data column) ->
                    Js.sameValueZero a b = true -> a = b).
Proof.
  intros data column.
  pose proof (getUniqueValues_permutation data column) as Hp.
  destruct (distinct_facts (filter Js.nonEmpty (map (fun row => Js.get row column) data)))
    as (H1 & H2 & H3 & H4).
  split; [| split; [| split]].
  - intros v Hv. apply (Permutation_in _ Hp) in Hv.
    destruct (H3 v Hv) as (w & Hw & ->). apply filter_In in Hw.
    destruct Hw as [Hw Hne]. apply in_map_iff in Hw. destruct Hw as (row & <- & Hrow).
    split; [rewrite nonEmpty_setElement; exact Hne | eauto].
  - intros row Hrow Hne.
    destruct (H4 (Js.get row column)) as (v & Hv & Hs).
    + apply filter_In. split; [| exact Hne].
      apply in_map_iff. eauto.
    + exists v. split; [| exact Hs].
      apply (Permutation_in _ (Permutation_sym Hp)), Hv.
  - apply (Permutation_NoDup (Permutation_sym Hp)), H1.
  - intros a b Ha Hb. apply H2; apply (Permutation_in _ Hp); assumption.
Qed.

Lemma string_order_asymmetric (s t : string) :
  ((if String.ltb s t then -1 else if String.ltb t s then 1 else 0) <? 0)%float = true ->
  ((if String.ltb t s then -1 else if String.ltb s t then 1 else 0) <? 0)%float = false.
Proof.
  assert (Hs : String.ltb s t = true -> String.ltb t s = false).
  { unfold String.ltb. rewrite (String.compare_antisym t s).
    destruct (String.compare s t); simpl; congruence. }
  destruct (String.ltb s t) eqn:E1.
  - rewrite (Hs eq_refl). intros _. reflexivity.
  - destruct (String.ltb t s); intros H; vm_compute in H; discriminate.
Qed.

Lemma string_order_notBelow (s t : string) :
  ((if String.ltb t s then -1 else if String.ltb s t then 1 else 0) <? 0)%float = false ->
  String.leb s t = true.
Proof.
  assert (Hs : String.ltb t s = false -> String.leb s t = true).
  { unfold String.ltb, String.leb. rewrite (String.compare_antisym t s).
    destruct (String.compare s t); simpl; congruence. }
  destruct (String.ltb t s) eqn:E1.
  - intros H. vm_compute in H. discriminate.
  - intros _. apply Hs. reflexivity.
Qed.

Lemma defaultCompare_asymmetric a b :
  (defaultCompare a b <? 0)%float = true -> (defaultCompare b a <? 0)%float = false.
Proof.
  destruct a as [| | x | x | x], b as [| | y | y | y]; cbn [defaultCompare];
    lazymatch goal with
    | |- context [String.ltb] => apply string_order_asymmetric
    | _ => first [ intros _; reflexivity | intros H; vm_compute in H; discriminate ]
    end.
Qed.

Lemma notBelow_defaultCompare a b :
  a <> VUndefined -> b <> VUndefined ->
  notBelow defaultCompare a b ->
  String.leb (Js.toString a) (Js.toString b) = true.
Proof.
  unfold notBelow. intros Ha Hb.
  destruct a as [| | x | x | x], b as [| | y | y | y]; try contradiction;
    cbn [defaultCompare]; apply string_order_notBelow.
Qed.

Lemma Sorted_weaken {A : Type} (R1 R2 : A -> A -> Prop) (l : list A) :
  (forall a b, In a l -> In b l -> R1 a b -> R2 a b) ->
  Sorted R1 l -> Sorted R2 l.
Proof.
  induction l as [| x l IH]; intros H Hs; [constructor |].
  inversion Hs as [| ? ? Hs' Hhd]; subst. constructor.
  - apply IH; [| exact Hs']. intros a b Ha Hb. apply H; right; assumption.
  - destruct Hhd as [| y l Hxy]; constructor.
    apply H; [left; reflexivity | right; left; reflexivity | exact Hxy].
Qed.

(** X12: the values offered for a column are in the order of their string
    forms, each at most its successor, code unit by code unit. *)
Theorem getUniqueValues_is_sorted :
  forall (data : list Row) (column : string),
    Sorted (fun a b => String.leb (Js.toString a) (Js.toString b) = true)
           (getUniqueValues data column).
Proof.
  intros data column.
  apply (Sorted_weaken (notBelow defaultCompare)).
  - intros a b Ha Hb. apply notBelow_defaultCompare.
    + intros ->. apply getUniqueValues_nonEmpty in Ha. discriminate.
    + intros ->. apply getUniqueValues_nonEmpty in Hb. discriminate.
  - unfold getUniqueValues. apply sortBy_sorted. apply defaultCompare_asymmetric.
Qed.

Example getUniqueValues_sample :
  getUniqueValues x11_rows "city" = [VNum 10; VNum 9; VStr "Oslo"; VStr "Rome"].
Proof. vm_compute. reflexivity. Qed.

(** ** Statistics, continued *)

Lemma ltb_infinity_l (a : float) : (infinity <? a)%float = false.
Proof.
  rewrite ltb_spec. replace (Prim2SF infinity) with (S754_infinity false) by reflexivity.
  destruct (Prim2SF a) as [s | s | | s m e]; try reflexivity. destruct s; reflexivity.
Qed.

Lemma ltb_neg_infinity_r (a : float) : (a <? neg_infinity)%float = false.
Proof.
  rewrite ltb_spec. replace (Prim2SF neg_infinity) with (S754_infinity true) by reflexivity.
  destruct (Prim2SF a) as [s | s | | s m e]; try reflexivity. destruct s; reflexivity.
Qed.

Lemma min2_cases a b : Num.min2 a b = a \/ Num.min2 a b = b.
Proof.
  unfold Num.min2.
  destruct (is_nan a); [auto |]. destruct (is_nan b); [auto |].
  destruct (a <? b)%float; [auto |]. destruct (b <? a)%float; [auto |].
  destruct (get_sign a); auto.
Qed.

Lemma max2_cases a b : Num.max2 a b = a \/ Num.max2 a b = b.
Proof.
  unfold Num.max2.
  destruct (is_nan a); [auto |]. destruct (is_nan b); [auto |].
  destruct (a <? b)%float; [auto |]. destruct (b <? a)%float; [auto |].
  destruct (get_sign a); auto.
Qed.

Lemma min2_infinity a : Num.min2 infinity a = a.
Proof.
  unfold Num.min2. replace (is_nan infinity) with false by reflexivity.
  destruct (is_nan a); [reflexivity |]. rewrite ltb_infinity_l.
  destruct (a <? infinity)%float; reflexivity.
Qed.

Lemma max2_neg_infinity a : Num.max2 neg_infinity a = a.
Proof.
  unfold Num.max2. replace (is_nan neg_infinity) with false by reflexivity.
  destruct (is_nan a); [reflexivity |]. rewrite ltb_neg_infinity_r.
  destruct (neg_infinity <? a)%float; reflexivity.
Qed.

Lemma fold_choice (f : float -> float -> float) (l : list float) (a : float) :
  (forall x y, f x y = x \/ f x y = y) -> In (fold_left f l a) (a :: l).
Proof.
  intros Hf. revert a. induction l as [| b l IH]; intros a; simpl; [auto |].
  destruct (IH (f a b)) as [H | H].
  - destruct (Hf a b) as [E | E]; [left | right; left]; congruence.
  - auto.
Qed.

(** The least and the greatest of a non-empty list are elements of it. *)
Lemma min_max_in (l : list float) :
  l <> [] -> In (Num.min l) l /\ In (Num.max l) l.
Proof.
  destruct l as [| a l]; [contradiction |]. intros _.
  unfold Num.min, Num.max. cbn [fold_left].
  rewrite min2_infinity, max2_neg_infinity.
  split; apply fold_choice; [apply min2_cases | apply max2_cases].
Qed.

(** X13: the statistics of a column are made of its parsed cells: they
    are returned exactly when the cells that parse as a float are no more
    than a call takes arguments; then [count] is the number of those cells,
    at most the number of rows, and when there is one, [min] and [max] are
    parsed cells, unrounded, and [median] is a parsed cell rounded to 2
    decimals. *)
Theorem generateColumnStats_summarizes_parsed_cells :
  forall (E : Engine) (data : list Row) (column : string),
    let cells := parsedColumn data column in
    (List.length cells <= maxArguments E
     <-> exists s, generateColumnStats E data column = Ok s)
    /\ forall s, generateColumnStats E data column = Ok s ->
         Stats.count s = List.length cells
         /\ Stats.count s <= List.length data
         /\ (cells <> [] ->
             In (Stats.min s) cells /\ In (Stats.max s) cells
             /\ exists v, In v cells /\ Stats.median s = round2 v).
Proof.
  intros E data column. cbv zeta.
  pose proof (parsedColumn_length data column) as Hlen.
  pose proof (sortBy_permutation sub (parsedColumn data column)) as Hp.
  destruct (parsedColumn data column) as [| c cells] eqn:Ec.
  - rewrite generateColumnStats_unfold, Ec. split.
    + split; [intros _; eexists; reflexivity | intros _; cbn [List.length]; lia].
    + intros s [= <-]. cbn [Stats.count List.length].
      split; [reflexivity |]. split; [lia |]. intros H. contradiction.
  - assert (Hne : parsedColumn data column <> []) by (rewrite Ec; discriminate).
    rewrite (generateColumnStats_values E data column Hne), Ec. split.
    + split.
      * intros H. apply Nat.leb_le in H. rewrite H. eexists. reflexivity.
      * intros [s Hs].
        destruct (List.length (c :: cells) <=? maxArguments E)%nat eqn:El;
          [apply Nat.leb_le, El | discriminate Hs].
    + intros s Hs.
      destruct (List.length (c :: cells) <=? maxArguments E)%nat; [| discriminate Hs].
      injection Hs as <-. cbn [summary Stats.count Stats.min Stats.max Stats.median].
      pose proof (Permutation_length Hp) as Hl.
      split; [exact Hl |]. split; [rewrite Hl; exact Hlen |]. intros _.
      assert (Hs : Num.sortBy sub (c :: cells) <> []).
      { intros H0. rewrite H0 in Hl. discriminate. }
      destruct (min_max_in _ Hs) as [Hmin Hmax].
      split; [exact (Permutation_in _ Hp Hmin) |].
      split; [exact (Permutation_in _ Hp Hmax) |].
      eexists. split; [| reflexivity].
      apply (Permutation_in _ Hp). apply nth_In.
      rewrite Hl. cbn [List.length]. apply Nat.div_lt; lia.
Qed.

(** ** [pearson] *)

Lemma SFmul_comm (X Y : spec_float) : SF64mul X Y = SF64mul Y X.
Proof.
  unfold SF64mul, SFmul.
  destruct X as [s | s | | s m e], Y as [s' | s' | | s' m' e'];
    try reflexivity; try (rewrite xorb_comm; reflexivity).
  rewrite xorb_comm, Pos.mul_comm, Z.add_comm. reflexivity.
Qed.

Lemma float_mul_comm (x y : float) : (x * y)%float = (y * x)%float.
Proof. apply Prim2SF_inj. rewrite !mul_spec. apply SFmul_comm. Qed.

Lemma pearson_loop_swap (mx my : float) (x y : list float) (num denx deny : float) :
  fold_left (fun '(num, denx, deny) '(yi, xi) =>
               let dx := (yi - my)%float in
               let dy := (xi - mx)%float in
               ((num + dx * dy)%float, (denx + dx * dx)%float, (deny + dy * dy)%float))
            (combine y x) (num, deny, denx)
  = let '(n, dx, dy) :=
      fold_left (fun '(num, denx, deny) '(xi, yi) =>
                   let dx := (xi - mx)%float in
                   let dy := (yi - my)%float in
                   ((num + dx * dy)%float, (denx + dx * dx)%float, (deny + dy * dy)%float))
                (combine x y) (num, denx, deny) in
    (n, dy, dx).
Proof.
  revert y num denx deny.
  induction x as [| xi x IH]; intros y num denx deny.
  - destruct y; reflexivity.
  - destruct y as [| yi y]; [reflexivity |].
    cbn [combine fold_left]. cbv zeta.
    rewrite (float_mul_comm (yi - my) (xi - mx)). apply IH.
Qed.

(** X14: the correlation coefficient is symmetric in its two arguments,
    exactly, as doubles. *)
Theorem pearson_is_symmetric :
  forall x y : list float, pearson x y = pearson y x.
Proof.
  intros x y. unfold pearson. rewrite (Nat.min_comm (List.length y)).
  destruct (Nat.min (List.length x) (List.length y)) as [| n]; [reflexivity |].
  cbv zeta. rewrite (pearson_loop_swap _ _ y x). cbv zeta.
  match goal with
  | |- context [fold_left ?f (combine y x) ?a] =>
      destruct (fold_left f (combine y x) a) as [[num denx] deny]
  end.
  rewrite (float_mul_comm (sqrt deny) (sqrt denx)). reflexivity.
Qed.

Example pearson_sample :
  pearson [1; 2; 3; 4; 5]%float [2; 4; 6; 8; 11]%float
  = pearson [2; 4; 6; 8; 11]%float [1; 2; 3; 4; 5]%float
  /\ pearson [1; 2; 3]%float [] = 0%float
  /\ pearson [1; 1; 1]%float [1; 2; 3]%float = 0%float.
Proof. repeat split; vm_compute; reflexivity. Qed.

(** ** [computeLocalAnalytics], continued *)

Section AnalyticsFacts.

Variable D : DateImpl.

Lemma yoyLines_short dKey nKey rows : List.length (yoyLines D dKey nKey rows) <= 1.
Proof.
  unfold yoyLines. cbv zeta.
  destruct (rev _) as [| latest [| prev years]]; simpl; try lia.
  destruct (negb _); simpl; lia.
Qed.

Lemma topLines_short cKey nKey rows : List.length (topLines cKey nKey rows) <= 1.
Proof.
  unfold topLines.
  destruct (fold_left _ rows _) as [totals grand].
  destruct (firstn 3 _); simpl; [lia |].
  destruct (0 <? grand)%float; simpl; lia.
Qed.

Lemma outlierLines_short nKey rows : List.length (outlierLines nKey rows) <= 1.
Proof.
  unfold outlierLines. cbv zeta.
  destruct (5 <? _)%nat; simpl; [| lia].
  destruct (0 <? _)%float; simpl; [| lia].
  destruct (0 <? _)%nat; simpl; lia.
Qed.

Lemma correlationLines_short cols rows : List.length (correlationLines cols rows) <= 1.
Proof.
  unfold correlationLines.
  destruct (2 <=? _)%nat; simpl; [| lia].
  destruct (pairLines rows cols); simpl; lia.
Qed.

Lemma filter_map_length {A B : Type} (f : A -> B) (p : B -> bool) (l : list A) :
  List.length (filter p (map f l)) <= List.length l.
Proof.
  rewrite <- (length_map f l). apply filter_length_le.
Qed.

Lemma outlierLines_few_rows nKey rows :
  List.length rows <= 5 -> outlierLines nKey rows = [].
Proof.
  intros H. unfold outlierLines. cbv zeta.
  match goal with
  | |- (if (5 <? ?n)%nat then _ else _) = _ =>
      assert (Hn : n <= List.length rows) by apply filter_map_length;
      destruct (Nat.ltb_spec 5 n); [lia | reflexivity]
  end.
Qed.

Lemma pairLine_few_rows rows aKey bKey :
  List.length rows <= 4 -> pairLine rows aKey bKey = [].
Proof.
  intros H. unfold pairLine. cbv zeta.
  match goal with
  | |- (if (5 <=? ?n)%nat then _ else _) = _ =>
      assert (Hn : n <= List.length rows)
        by (rewrite length_map; apply filter_map_length);
      destruct (Nat.leb_spec 5 n); [lia | reflexivity]
  end.
Qed.

Lemma pairLines_few_rows rows cols :
  List.length rows <= 4 -> pairLines rows cols = [].
Proof.
  intros H. induction cols as [| aKey rest IH]; simpl; [reflexivity |].
  rewrite IH, app_nil_r.
  induction rest as [| bKey rest' IH']; simpl; [reflexivity |].
  rewrite pairLine_few_rows by exact H. apply IH'.
  clear IH'. simpl in IH. exact (proj2 (app_eq_nil _ _ IH)).
Qed.

End AnalyticsFacts.

Lemma computeLocalAnalytics_parts D profile row rows :
  exists yoy top outliers correlations,
    computeLocalAnalytics D profile (row :: rows) = yoy ++ top ++ outliers ++ correlations
    /\ List.length yoy <= 1 /\ List.length top <= 1
    /\ List.length outliers <= 1 /\ List.length correlations <= 1
    /\ (filter isNumericColumn (columns profile) = [] ->
        yoy = [] /\ top = [] /\ outliers = [] /\ correlations = [])
    /\ (List.length (row :: rows) <= 4 -> outliers = [] /\ correlations = []).
Proof.
  unfold computeLocalAnalytics. cbv zeta.
  set (numericCols := map name (filter isNumericColumn (columns profile))).
  set (catCols := map name (filter isStringColumn (columns profile))).
  set (dateCols := map name (filter isDateColumn (columns profile))).
  do 4 eexists. split; [reflexivity |].
  split; [| split; [| split; [| split; [| split]]]].
  - destruct dateCols, numericCols; simpl; try lia. apply yoyLines_short.
  - destruct catCols, numericCols; simpl; try lia. apply topLines_short.
  - destruct numericCols; simpl; try lia. apply outlierLines_short.
  - apply correlationLines_short.
  - intros H. subst numericCols. rewrite H. simpl.
    destruct dateCols, catCols; auto.
  - intros H. split.
    + destruct numericCols; [reflexivity |]. apply outlierLines_few_rows. lia.
    + unfold correlationLines. rewrite pairLines_few_rows by exact H.
      destruct (2 <=? _)%nat; reflexivity.
Qed.

(** X15: the local analytics give at most four lines, one for each kind of
    insight, and none at all when there are no rows or when the profile has
    no integer or float column. *)
Theorem computeLocalAnalytics_at_most_four_lines :
  forall (D : DateImpl) (profile : DatasetProfile) (rows : list Row),
    List.length (computeLocalAnalytics D profile rows) <= 4
    /\ (filter isNumericColumn (columns profile) = [] ->
        computeLocalAnalytics D profile rows = [])
    /\ computeLocalAnalytics D profile [] = [].
Proof.
  intros D profile rows. split; [| split; [| reflexivity]].
  - destruct rows as [| row rows]; [simpl; lia |].
    destruct (computeLocalAnalytics_parts D profile row rows)
      as (a & b & c & d & -> & Ha & Hb & Hc & Hd & _).
    rewrite !length_app. lia.
  - intros H. destruct rows as [| row rows]; [reflexivity |].
    destruct (computeLocalAnalytics_parts D profile row rows)
      as (a & b & c & d & -> & _ & _ & _ & _ & Hnone & _).
    destruct (Hnone H) as (-> & -> & -> & ->). reflexivity.
Qed.



(** ** [parseYear] *)

Lemma isDigit_digitVal c : Str.isDigit c = true -> (0 <= Num.digitVal c <= 9)%Z.
Proof.
  unfold Str.isDigit, Num.digitVal. cbv zeta. intros H.
  apply andb_true_iff in H. destruct H as [H1 H2].
  apply Nat.leb_le in H1, H2. lia.
Qed.

Lemma yearMatch_range s m :
  Re.yearMatch s = Some m -> (1900 <= Num.digitsToZ 0 m <= 2099)%Z.
Proof.
  induction s as [| a t IH]; [discriminate |].
  cbn [Re.yearMatch]. destruct t as [| b [| c [| d r]]]; try discriminate.
  destruct (_ && _) eqn:E; [| exact IH].
  intros [= <-].
  apply andb_true_iff in E. destruct E as [E Hd].
  apply andb_true_iff in E. destruct E as [E Hc].
  apply isDigit_digitVal in Hc, Hd. cbn [Num.digitsToZ].
  apply orb_true_iff in E. destruct E as [E | E];
    apply andb_true_iff in E; destruct E as [Ea Eb];
    apply Ascii.eqb_eq in Ea, Eb; subst a b;
    change (Num.digitVal "1") with 1%Z; change (Num.digitVal "9") with 9%Z;
    change (Num.digitVal "2") with 2%Z; change (Num.digitVal "0") with 0%Z; lia.
Qed.

(** X17: when the text of a cell has a run of four digits starting with 19
    or 20, the year read from the cell is the first such run, a whole
    number from 1900 to 2099, whatever the [Date] implementation. *)
Theorem parseYear_reads_year_from_text :
  forall (D : DateImpl) (val : JsVal) (m : string),
    val <> VNull -> val <> VUndefined ->
    Re.yearMatch (Js.toString val) = Some m ->
    parseYear D val = Some (Num.ofZ (Num.digitsToZ 0 m))
    /\ (1900 <= Num.digitsToZ 0 m <= 2099)%Z.
Proof.
  intros D val m Hn Hu Hm. split; [| exact (yearMatch_range _ _ Hm)].
  unfold parseYear. destruct val; try contradiction; cbv zeta; rewrite Hm; reflexivity.
Qed.

Lemma parseYear_reads_year_from_text_witness :
  parseYear IsoDate.impl (VStr "FY 2021/22") = Some 2021%float.
Proof.
  apply (parseYear_reads_year_from_text IsoDate.impl (VStr "FY 2021/22") "2021");
    [discriminate | discriminate | reflexivity].
Defined.

(** ** Range filters on ISO dates *)

Lemma digit_not_space c : Str.isDigit c = true -> Str.isWhiteSpace c = false.
Proof.
  unfold Str.isDigit, Str.isWhiteSpace. cbv zeta. intros H.
  apply andb_true_iff in H. destruct H as [H1 H2]. apply Nat.leb_le in H1, H2.
  destruct (Nat.leb_spec 9 (Str.code c)), (Nat.leb_spec (Str.code c) 13),
    (Nat.eqb_spec (Str.code c) 32), (Nat.eqb_spec (Str.code c) 160);
    simpl; try reflexivity; lia.
Qed.

Lemma digit_not_char c (x : ascii) :
  Str.isDigit x = false -> Str.isDigit c = true -> Ascii.eqb c x = false.
Proof.
  intros Hx Hc. destruct (Ascii.eqb c x) eqn:E; [| reflexivity].
  apply Ascii.eqb_eq in E. subst. congruence.
Qed.

Lemma span_digits ds rest :
  Str.forallb Str.isDigit ds = true ->
  Str.span Str.isDigit (ds ++ String "-"%char rest)%string = (ds, String "-"%char rest).
Proof.
  induction ds as [| c ds IH]; simpl; intros H; [reflexivity |].
  apply andb_true_iff in H. destruct H as [Hc Hds].
  rewrite Hc, (IH Hds). reflexivity.
Qed.

Lemma digitsToZ_nonneg s acc :
  (0 <= acc)%Z -> Str.forallb Str.isDigit s = true -> (0 <= Num.digitsToZ acc s)%Z.
Proof.
  revert acc. induction s as [| c s IH]; intros acc Ha H; [exact Ha |].
  cbn [Str.forallb] in H. cbn [Num.digitsToZ].
  apply andb_true_iff in H. destruct H as [Hc Hs].
  apply IH; [| exact Hs]. pose proof (isDigit_digitVal c Hc). lia.
Qed.

Lemma ofDecimal_whole m : (0 <= m)%Z -> Num.ofDecimal false m 0 = Num.ofZ m.
Proof.
  intros H. unfold Num.ofDecimal. destruct (Z.leb_spec m 0).
  - replace m with 0%Z by lia. reflexivity.
  - cbn [Z.leb Z.ltb Z.compare]. rewrite Z.pow_0_r, Z.mul_1_r. reflexivity.
Qed.

(** [parseFloat] reads an ISO date as its year. *)
Lemma parseFloat_iso_text year rest :
  year <> EmptyString -> Str.forallb Str.isDigit year = true ->
  Num.parseFloatString (isoText year rest) = yearNumber year.
Proof.
  intros Hne Hd. unfold isoText, yearNumber.
  destruct year as [| c ds]; [contradiction |]. clear Hne.
  pose proof Hd as Hd'. simpl in Hd'. apply andb_true_iff in Hd'. destruct Hd' as [Hc Hds].
  unfold Num.parseFloatString.
  assert (Ht : Str.trimStart (String c ds ++ String "-"%char rest)
               = (String c ds ++ String "-"%char rest)%string).
  { cbn [String.append Str.trimStart]. rewrite (digit_not_space c Hc). reflexivity. }
  rewrite Ht. unfold Num.scanDecimal.
  assert (Hs : Str.dropSign (String c ds ++ String "-"%char rest)
               = (String c ds ++ String "-"%char rest)%string).
  { cbn [String.append Str.dropSign]. unfold Str.isSign.
    rewrite (digit_not_char c "+"%char eq_refl Hc), (digit_not_char c "-"%char eq_refl Hc).
    reflexivity. }
  rewrite Hs.
  assert (Hi : Str.stripPrefix "Infinity" (String c ds ++ String "-"%char rest) = None).
  { cbn [String.append Str.stripPrefix].
    rewrite Ascii.eqb_sym, (digit_not_char c "I"%char eq_refl Hc). reflexivity. }
  rewrite Hi, (span_digits (String c ds) rest Hd).
  assert (Hn : match (String c ds ++ String "-"%char rest)%string with
               | String "-"%char _ => true | _ => false end = false).
  { cbn [String.append]. pose proof (digit_not_char c "-"%char eq_refl Hc) as E.
    destruct c as [[] [] [] [] [] [] [] []]; try reflexivity. discriminate E. }
  rewrite Hn.
  cbn [Str.isEmpty andb Num.scanExponent Ascii.eqb Bool.eqb orb String.length Num.digitsToZ].
  cbn [Num.litValue Z.of_nat Z.sub]. 
  replace (0 - 0)%Z with 0%Z by reflexivity.
  apply ofDecimal_whole.
  apply (digitsToZ_nonneg (String c ds) 0); [lia | exact Hd].
Qed.

Lemma year_below_10000 s :
  isYear s -> (0 <= Num.digitsToZ 0 s < 10000)%Z.
Proof.
  intros [Hl Hd].
  destruct s as [| a [| b [| c [| d [| e s]]]]]; try discriminate.
  simpl in Hd. repeat (apply andb_true_iff in Hd; destruct Hd as [? Hd]).
  repeat match goal with H : Str.isDigit _ = true |- _ => apply isDigit_digitVal in H end.
  cbn [Num.digitsToZ]. lia.
Qed.

Lemma small_whole_not_nan z : (0 <= z < 10000)%Z -> is_nan (Num.ofZ z) = false.
Proof.
  intros H.
  assert (Hall : forallb (fun n => negb (is_nan (Num.ofZ (Z.of_nat n)))) (seq 0 (Z.to_nat 10000)) = true)
    by (vm_compute; reflexivity).
  rewrite forallb_forall in Hall. specialize (Hall (Z.to_nat z)).
  rewrite Z2Nat.id in Hall by lia.
  apply negb_true_iff, Hall, in_seq. lia.
Qed.

(** X18: a range filter whose bounds and whose cell are ISO dates compares
    the years alone: the numeric comparison comes first and [parseFloat]
    reads each date as its year, so the row is kept iff its year lies
    between the years of the bounds, whatever the months and days, and the
    [Date] implementation is not consulted. *)
Theorem iso_date_range_compares_years :
  forall (D : DateImpl) (row : Row) (f : Filter.Spec)
         (year low high rest restLow restHigh : string),
    SpecWords.noValues f ->
    Js.get row (Filter.column f) = VStr (isoText year rest) ->
    Filter.min f = VStr (isoText low restLow) ->
    Filter.max f = VStr (isoText high restHigh) ->
    isYear year -> isYear low -> isYear high ->
    matchesFilter D row f
    = (yearNumber low <=? yearNumber year)%float
      && (yearNumber year <=? yearNumber high)%float.
Proof.
  intros D row f year low high rest restLow restHigh Hv Hcell Hmin Hmax Hy Hl Hh.
  rewrite (matchesFilter_noValues D row f Hv). rewrite Hcell, Hmin, Hmax.
  cbn [isUndefined negb andb boundNumber]. cbv zeta.
  assert (Hp : forall y r, isYear y ->
                 Js.parseFloat (VStr (isoText y r)) = yearNumber y
                 /\ Num.isNaN (yearNumber y) = false).
  { intros y r Hyr. split.
    - unfold Js.parseFloat. cbn [Js.toString]. apply parseFloat_iso_text.
      + destruct Hyr as [Hlen _]. intros ->. discriminate.
      + exact (proj2 Hyr).
    - apply small_whole_not_nan, year_below_10000, Hyr. }
  destruct (Hp year rest Hy) as [-> ->].
  destruct (Hp low restLow Hl) as [-> ->].
  destruct (Hp high restHigh Hh) as [-> ->].
  reflexivity.
Qed.

Lemma iso_date_range_compares_years_witness :
  matchesFilter IsoDate.impl x18_row x18_filter = true.
Proof.
  rewrite (iso_date_range_compares_years IsoDate.impl x18_row x18_filter
             "2020" "2020" "2020" "01-15" "06-01" "12-31");
    try reflexivity; try (split; reflexivity).
  left. reflexivity.
Defined.

(** ** The dashboard's filters *)

Lemma simpleFilter_idle D row f : idle f -> matchesFilter D row (simpleFilter f) = true.
Proof.
  unfold idle, simpleFilter. destruct (Config.type f).
  - intros H. apply matchesFilter_missing_bound; [left; reflexivity | exact H].
  - intros _. reflexivity.
  - intros H. destruct (Config.selected f) as [[| a l] | |]; try contradiction; reflexivity.
  - intros H. apply matchesFilter_missing_bound; [left; reflexivity | exact H].
Qed.

(** X19: in the dashboard, filters in which nothing is chosen (a multiselect
    without a chosen item, a range or date range lacking one of its ends)
    remove no row, even when one of them counts as in use and the rows do
    go through [applyFilters]. *)
Theorem idle_filters_keep_all_rows :
  forall (D : DateImpl) (rawData : list Row) (filters : list Config.t),
    Forall idle filters ->
    filteredData D rawData filters = rawData.
Proof.
  intros D rawData filters H. unfold filteredData.
  destruct (negb (existsb isActive filters)); [reflexivity |].
  apply applyFilters_all_match. intros row f _ Hf.
  apply in_map_iff in Hf. destruct Hf as [c [<- Hc]].
  apply simpleFilter_idle. rewrite Forall_forall in H. apply H, Hc.
Qed.

Lemma idle_filters_keep_all_rows_witness :
  existsb isActive x19_filters = true
  /\ filteredData IsoDate.impl x19_rows x19_filters = x19_rows.
Proof.
  split; [reflexivity |].
  apply (idle_filters_keep_all_rows IsoDate.impl x19_rows x19_filters).
  constructor; [right; reflexivity |].
  constructor; [exact I | constructor].
Defined.

(** ** JSON documents *)

Lemma Json_induction (P : Json -> Prop) :
  P JNull -> (forall b, P (JBool b)) -> (forall x, P (JNum x)) ->
  (forall s, P (JStr s)) ->
  (forall items, Forall P items -> P (JArr items)) ->
  (forall fields, Forall (fun kv => P (snd kv)) fields -> P (JObj fields)) ->
  forall v, P v.
Proof.
  intros HNull HBool HNum HStr HArr HObj.
  fix IH 1. intros [| b | x | s | items | fields].
  - exact HNull.
  - apply HBool.
  - apply HNum.
  - apply HStr.
  - apply HArr. induction items as [| v items IHitems]; constructor.
    + apply IH.
    + exact IHitems.
  - apply HObj. induction fields as [| [k v] fields IHfields]; constructor.
    + apply IH.
    + exact IHfields.
Qed.

Lemma flattenObject_JObj fields prefix out depth :
  flattenObject (JObj fields) prefix out depth
  = if (3 <? depth)%nat then assign out (orValue prefix) (JObj fields)
    else fold_left (fun o kv => flattenValue prefix depth o (fst kv) (snd kv)) fields out.
Proof.
  cbn [flattenObject]. destruct (3 <? depth)%nat; [reflexivity |].
  revert out. induction fields as [| [k v] fields IH]; intros out; [reflexivity |].
  cbn [fold_left fst snd]. rewrite <- IH. reflexivity.
Qed.

Lemma nesting_field k v fields :
  In (k, v) fields -> (S (nesting v) <= nesting (JObj fields))%nat.
Proof.
  cbn [nesting]. induction fields as [| [k' v'] fields IH]; intros H; [contradiction |].
  destruct H as [H | H].
  - injection H as -> ->. lia.
  - specialize (IH H). lia.
Qed.

Lemma assign_keeps_leaves (out : JsonObject) k v :
  (forall k' v', Assoc.get (own out) k' = Some v' -> isPlainObject v' = false) ->
  isPlainObject v = false ->
  forall k' v', Assoc.get (own (assign out k v)) k' = Some v' -> isPlainObject v' = false.
Proof.
  intros Hout Hv k' v'. unfold assign.
  destruct (String.eqb k "__proto__" && reachesSetter out).
  - destruct (isObjectType v); cbn [own]; apply Hout.
  - cbn [own]. intros H. destruct (string_dec k k') as [-> | Hne].
    + rewrite assoc_get_set_eq in H. injection H as <-. exact Hv.
    + rewrite (assoc_get_set_ne _ _ _ _ Hne) in H. apply (Hout k' v' H).
Qed.

Lemma flattenObject_leaves n :
  forall fields prefix (out : JsonObject) depth,
    (nesting (JObj fields) <= n)%nat -> (n + depth <= 4)%nat ->
    (forall k v, Assoc.get (own out) k = Some v -> isPlainObject v = false) ->
    forall k v, Assoc.get (own (flattenObject (JObj fields) prefix out depth)) k = Some v ->
                isPlainObject v = false.
Proof.
  induction n as [| n IHn]; intros fields prefix out depth Hn Hd Hout.
  - cbn [nesting] in Hn. lia.
  - rewrite flattenObject_JObj.
    assert (E : (3 <? depth)%nat = false) by (apply Nat.ltb_ge; lia).
    rewrite E.
    assert (Hf : forall k v, In (k, v) fields -> (nesting v <= n)%nat).
    { intros k v Hin. pose proof (nesting_field k v fields Hin). lia. }
    clear Hn E. revert out Hout.
    induction fields as [| [k v] fields IHf]; intros out Hout; [exact Hout |].
    cbn [fold_left fst snd]. apply IHf.
    + intros k' v' Hin. apply (Hf k' v'). right. exact Hin.
    + assert (Hv : (nesting v <= n)%nat) by (apply (Hf k v); left; reflexivity).
      destruct v as [| b | x | s | items | fs]; cbn [flattenValue];
        try (apply assign_keeps_leaves; [exact Hout | reflexivity]).
      apply IHn; [exact Hv | lia | exact Hout].
Qed.

Lemma assoc_get_fresh {V : Type} (m : list (string * V)) k :
  ~ In k (Assoc.keys m) -> Assoc.get m k = None.
Proof.
  unfold Assoc.keys. induction m as [| [k' v] m IH]; cbn [map fst Assoc.get In];
    intros H; [reflexivity |].
  destruct (String.eqb_spec k' k) as [-> | _]; [exfalso; apply H; left; reflexivity |].
  apply IH. intros Hin. apply H. right. exact Hin.
Qed.

(** The loop of [flattenObject] at the top of a record without objects:
    each field is added to the own properties, but for [__proto__], which
    is met while the prototype is still [Object.prototype]. *)
Lemma flatten_flat_fields (fields : JsonRecord) :
  (forall k v, In (k, v) fields -> isPlainObject v = false) ->
  forall out : JsonObject,
    NoDup (Assoc.keys (own out) ++ Assoc.keys fields) ->
    ~ In "__proto__" (Assoc.keys (own out)) ->
    (In "__proto__" (Assoc.keys fields) -> prototype out = ObjectPrototype) ->
    let result := fold_left (fun o kv => flattenValue "" 0 o (fst kv) (snd kv)) fields out in
    own result = own out ++ withoutProto fields
    /\ (~ In "__proto__" (Assoc.keys fields) -> prototype result = prototype out).
Proof.
  induction fields as [| [k v] fields IH]; intros Hflat out Hnd Hown Hproto; cbv zeta.
  - cbn [fold_left withoutProto filter]. rewrite app_nil_r. split; [reflexivity | auto].
  - cbn [fold_left fst snd].
    assert (Hv : isPlainObject v = false) by (apply (Hflat k v); left; reflexivity).
    assert (Hstep : flattenValue "" 0 out k v = assign out k v).
    { unfold flattenValue, childKey. cbn [Str.isEmpty].
      destruct v; try reflexivity. discriminate Hv. }
    rewrite Hstep.
    assert (Hfresh : ~ In k (Assoc.keys (own out))).
    { intros Hin. cbn [Assoc.keys map fst] in Hnd.
      apply NoDup_remove_2 in Hnd. apply Hnd, in_or_app. left. exact Hin. }
    assert (Hrest : ~ In k (Assoc.keys fields)).
    { intros Hin. cbn [Assoc.keys map fst] in Hnd.
      apply NoDup_remove_2 in Hnd. apply Hnd, in_or_app. right. exact Hin. }
    assert (Hflat' : forall k' v', In (k', v') fields -> isPlainObject v' = false).
    { intros k' v' Hin. apply (Hflat k' v'). right. exact Hin. }
    assert (Hnd' : forall own' : JsonRecord,
               Assoc.keys own' = Assoc.keys (own out) ++ [k] ->
               NoDup (Assoc.keys own' ++ Assoc.keys fields)).
    { intros own' ->. rewrite <- app_assoc. exact Hnd. }
    unfold assign. destruct (String.eqb_spec k "__proto__") as [-> | Hk].
    + (* the key [__proto__]: the setter is reached *)
      assert (Hs : reachesSetter out = true).
      { unfold reachesSetter. rewrite (assoc_get_fresh _ _ Hown).
        rewrite Hproto; [reflexivity |]. left. reflexivity. }
      rewrite Hs. cbn [andb withoutProto filter fst String.eqb Ascii.eqb Bool.eqb negb].
      assert (Hnd0 : NoDup (Assoc.keys (own out) ++ Assoc.keys fields)).
      { cbn [Assoc.keys map fst] in Hnd. apply NoDup_remove_1 in Hnd. exact Hnd. }
      split.
      * destruct (isObjectType v);
          [destruct (IH Hflat' {| own := own out; prototype := ProtoValue v |}) as [He _]
          | destruct (IH Hflat' out) as [He _]];
          try assumption; try (intros Hin; contradiction); exact He.
      * intros Hno. exfalso. apply Hno. left. reflexivity.
    + (* another key: a new own property *)
      cbn [andb].
      assert (Hset : Assoc.set (own out) k v = own out ++ [(k, v)])
        by (apply assoc_set_fresh, Hfresh).
      destruct (IH Hflat' {| own := Assoc.set (own out) k v; prototype := prototype out |})
        as [He Hp].
      * cbn [own]. apply Hnd'. rewrite Hset. unfold Assoc.keys. rewrite map_app. reflexivity.
      * cbn [own]. rewrite Hset. unfold Assoc.keys. rewrite map_app. cbn [map fst].
        intros Hin. apply in_app_or in Hin. destruct Hin as [Hin | [Hin | []]];
          [apply Hown, Hin | apply Hk; exact Hin].
      * cbn [prototype]. intros Hin. apply Hproto. right. exact Hin.
      * cbn [own prototype] in He, Hp. split.
        -- rewrite He, Hset, <- app_assoc. unfold withoutProto. cbn [filter fst].
           apply String.eqb_neq in Hk. rewrite Hk. reflexivity.
        -- intros Hno. apply Hp. intros Hin. apply Hno. right. exact Hin.
Qed.

(** X20: flattening a record that holds no object gives the record back,
    but for a field named [__proto__]: the own properties of the result
    are the other fields, in the same order; so a record without such a
    field, whose values are primitives, [null] or arrays, is returned as it
    is. *)
Theorem flat_record_is_unchanged :
  forall fields : JsonRecord,
    NoDup (Assoc.keys fields) ->
    (forall k v, In (k, v) fields -> isPlainObject v = false) ->
    own (flatRow (JObj fields)) = withoutProto fields
    /\ (~ In "__proto__" (Assoc.keys fields) ->
        flatRow (JObj fields) = {| own := fields; prototype := ObjectPrototype |}).
Proof.
  intros fields Hnd Hflat. unfold flatRow. cbn [isObjectType].
  rewrite flattenObject_JObj. cbn [Nat.ltb Nat.leb].
  destruct (flatten_flat_fields fields Hflat emptyObject) as [Hown Hproto].
  - exact Hnd.
  - intros [].
  - intros _. reflexivity.
  - cbn [own emptyObject app] in Hown. split; [exact Hown |].
    intros Hno. specialize (Hproto Hno). cbn [prototype emptyObject] in Hproto.
    destruct (fold_left _ fields emptyObject) as [o p]. cbn [own prototype] in *.
    subst o p. f_equal. unfold withoutProto.
    clear - Hno. induction fields as [| [k v] fields IH]; [reflexivity |].
    cbn [filter fst]. destruct (String.eqb_spec k "__proto__") as [-> | _].
    + exfalso. apply Hno. left. reflexivity.
    + cbn [negb]. f_equal. apply IH. intros Hin. apply Hno. right. exact Hin.
Qed.

Lemma flat_record_is_unchanged_witness :
  flatRow (JObj x20_record) = {| own := x20_record; prototype := ObjectPrototype |}
  /\ own (flatRow (JObj x20_record_proto)) = [("id", JNum 7); ("note", JNull)].
Proof.
  assert (Hflat : forall fields : JsonRecord,
             forallb (fun kv => negb (isPlainObject (snd kv))) fields = true ->
             forall k v, In (k, v) fields -> isPlainObject v = false).
  { intros fields H k v Hin. rewrite forallb_forall in H.
    apply negb_true_iff, (H (k, v) Hin). }
  split.
  - apply (flat_record_is_unchanged x20_record).
    + repeat constructor; cbn [In]; intuition discriminate.
    + apply Hflat. reflexivity.
    + cbn [In x20_record Assoc.keys map fst]. intuition discriminate.
  - apply (flat_record_is_unchanged x20_record_proto).
    + repeat constructor; cbn [In]; intuition discriminate.
    + apply Hflat. reflexivity.
Defined.

(** X21: [flattenObject] leaves no object among the cells of a record in
    which at most four objects lie one inside the other (the record
    included): every cell of the flattened row is a primitive, [null] or an
    array. *)
Theorem flattened_row_has_no_object :
  forall (fields : JsonRecord) (k : string) (v : Json),
    (nesting (JObj fields) <= 4)%nat ->
    Assoc.get (flatRow (JObj fields)) k = Some v ->
    isPlainObject v = false.
Proof.
  intros fields k v Hn. unfold flatRow. cbn [isObjectType].
  apply (flattenObject_leaves 4 fields "" emptyObject 0 Hn); [lia |].
  intros k' v' H. discriminate H.
Qed.

Lemma flattened_row_has_no_object_witness :
  Assoc.get (flatRow (JObj x21_record)) "owner.address.city" = Some (JStr "Oslo")
  /\ isPlainObject (JStr "Oslo") = false.
Proof.
  split; [vm_compute; reflexivity |].
  apply (flattened_row_has_no_object x21_record "owner.address.city" (JStr "Oslo")).
  - vm_compute. lia.
  - vm_compute. reflexivity.
Defined.

(** ** The rows of a JSON document *)

Lemma scan_JObj fields :
  scan (JObj fields) = fold_right (fun kv rest => scanValue (snd kv) rest) None fields.
Proof.
  cbn [scan]. induction fields as [| [k v] fields IH]; [reflexivity |].
  cbn [fold_right snd]. rewrite <- IH. reflexivity.
Qed.

Lemma scan_JArr items : scan (JArr items) = fold_right scanValue None items.
Proof.
  cbn [scan]. induction items as [| v items IH]; [reflexivity |].
  cbn [fold_right]. rewrite <- IH. reflexivity.
Qed.

Lemma scanValue_Some v rest rows :
  scanValue v rest = Some rows ->
  (v = JArr rows /\ isTable v = true) \/ scan v = Some rows \/ rest = Some rows.
Proof.
  unfold scanValue.
  assert (Hd : (if isObjectType v
                then match scan v with Some r => Some r | None => rest end
                else rest) = Some rows ->
               scan v = Some rows \/ rest = Some rows).
  { destruct (isObjectType v); [| intros H; right; exact H].
    destruct (scan v) as [r |]; intros H; [left | right]; exact H. }
  destruct v as [| b | x | s | [| first items] | fields];
    try (intros H; right; apply Hd, H).
  cbn [isTable]. destruct (isObjectType first) eqn:E.
  - intros H. injection H as <-. left. split; reflexivity.
  - intros H. right. apply Hd, H.
Qed.

Lemma scanValue_None v rest :
  scanValue v rest = None -> isTable v = false /\ scan v = None /\ rest = None.
Proof.
  unfold scanValue.
  assert (Hd : (if isObjectType v
                then match scan v with Some r => Some r | None => rest end
                else rest) = None ->
               scan v = None /\ rest = None).
  { destruct v as [| b | x | s | items | fields]; cbn [isObjectType];
      try (intros H; split; [reflexivity | exact H]).
    - destruct (scan (JArr items)); [discriminate | intros H; split; [reflexivity | exact H]].
    - destruct (scan (JObj fields)); [discriminate | intros H; split; [reflexivity | exact H]]. }
  destruct v as [| b | x | s | [| first items] | fields];
    try (intros H; split; [reflexivity | apply Hd, H]).
  cbn [isTable]. destruct (isObjectType first) eqn:E; [discriminate |].
  intros H. split; [reflexivity | apply Hd, H].
Qed.

Lemma scan_sound v :
  forall rows, scan v = Some rows -> isTable (JArr rows) = true /\ Inside (JArr rows) v.
Proof.
  induction v as [| b | x | s | items IH | fields IH] using Json_induction;
    intros rows H; try discriminate H.
  - rewrite scan_JArr in H.
    induction items as [| v items IHitems]; [discriminate H |].
    cbn [fold_right] in H. inversion IH as [| ? ? Hv Hitems]; subst.
    destruct (scanValue_Some _ _ _ H) as [[-> Ht] | [Hs | Hr]].
    + split; [exact Ht |]. apply inside_child, child_item. left. reflexivity.
    + destruct (Hv rows Hs) as [Ht Hin]. split; [exact Ht |].
      apply (inside_deeper _ v); [exact Hin |]. apply child_item. left. reflexivity.
    + destruct (IHitems Hitems Hr) as [Ht Hin]. split; [exact Ht |].
      inversion Hin as [w Hc | u w Hi Hc]; subst.
      * inversion Hc; subst. apply inside_child, child_item. right. assumption.
      * inversion Hc; subst. apply (inside_deeper _ u); [exact Hi |].
        apply child_item. right. assumption.
  - rewrite scan_JObj in H.
    induction fields as [| [k v] fields IHfields]; [discriminate H |].
    cbn [fold_right snd] in H. inversion IH as [| ? ? Hv Hfields]; subst.
    cbn [snd] in Hv.
    destruct (scanValue_Some _ _ _ H) as [[-> Ht] | [Hs | Hr]].
    + split; [exact Ht |]. apply inside_child, (child_field k). left. reflexivity.
    + destruct (Hv rows Hs) as [Ht Hin]. split; [exact Ht |].
      apply (inside_deeper _ v); [exact Hin |]. apply (child_field k). left. reflexivity.
    + destruct (IHfields Hfields Hr) as [Ht Hin]. split; [exact Ht |].
      inversion Hin as [w Hc | u w Hi Hc]; subst.
      * inversion Hc; subst. apply inside_child, (child_field k0). right. assumption.
      * inversion Hc; subst. apply (inside_deeper _ u); [exact Hi |].
        apply (child_field k0). right. assumption.
Qed.

Lemma scan_complete v :
  scan v = None -> forall w, Inside w v -> isTable w = false.
Proof.
  induction v as [| b | x | s | items IH | fields IH] using Json_induction;
    intros H w Hw;
    try (inversion Hw as [? Hc | ? ? ? Hc]; subst; inversion Hc; fail).
  - rewrite scan_JArr in H.
    assert (Hall : forall u, In u items -> isTable u = false /\ scan u = None).
    { clear Hw IH. induction items as [| v items IHitems]; intros u Hu; [contradiction |].
      cbn [fold_right] in H. apply scanValue_None in H. destruct H as [Ht [Hs Hr]].
      destruct Hu as [<- | Hu]; [split; assumption | apply IHitems; assumption]. }
    rewrite Forall_forall in IH.
    inversion Hw as [? Hc | u ? Hi Hc]; subst; inversion Hc; subst.
    + apply Hall. assumption.
    + apply (IH u); [assumption | apply Hall; assumption | exact Hi].
  - rewrite scan_JObj in H.
    assert (Hall : forall k u, In (k, u) fields -> isTable u = false /\ scan u = None).
    { clear Hw IH. induction fields as [| [k v] fields IHfields]; intros k' u Hu;
        [contradiction |].
      cbn [fold_right snd] in H. apply scanValue_None in H. destruct H as [Ht [Hs Hr]].
      destruct Hu as [Hu | Hu].
      - injection Hu as <- <-. split; assumption.
      - apply (IHfields Hr k' u Hu). }
    rewrite Forall_forall in IH.
    inversion Hw as [? Hc | u ? Hi Hc]; subst; inversion Hc as [k ? ? Hin |]; subst.
    + apply (Hall k). assumption.
    + apply (IH (k, u) Hin); [apply (Hall k); assumption | exact Hi].
Qed.

(** X22: the only failure of [parseJSONText] after parsing is
    [No tabular array found in JSON], and it is raised exactly for a
    document that is not an array and in which no array at any depth is
    non-empty with an object, an array or [null] as first element. *)
Theorem jsonRows_fails_without_table :
  forall json : Json,
    (jsonRows json = Throw "No tabular array found in JSON"
     <-> isArray json = false /\ forall v, Inside v json -> isTable v = false)
    /\ (forall message, jsonRows json = Throw message ->
                        message = "No tabular array found in JSON").
Proof.
  intros json. unfold jsonRows. split; [split |].
  - intros H. destruct json as [| b | x | s | items | fields]; try discriminate H;
      (split; [reflexivity |]);
      try (intros v Hv; inversion Hv as [? Hc | ? ? ? Hc]; subst; inversion Hc; fail).
    destruct (scan (JObj fields)) eqn:E; [discriminate H |].
    apply scan_complete. exact E.
  - intros [Ha Hnone]. destruct json as [| b | x | s | items | fields];
      try reflexivity; try discriminate Ha.
    destruct (scan (JObj fields)) as [rows |] eqn:E; [| reflexivity].
    destruct (scan_sound _ _ E) as [Ht Hin].
    rewrite (Hnone _ Hin) in Ht. discriminate Ht.
  - intros message H.
    destruct (match json with JArr items => Some items | _ => scan json end);
      [discriminate H | injection H as <-; reflexivity].
Qed.

(** X23: the rows [scan] returns are an array of the document: they occur
    in it, are not empty, and their first element is an object, an array
    or [null]. *)
Theorem scan_returns_a_table_of_the_document :
  forall (json : Json) (rows : list Json),
    scan json = Some rows ->
    Inside (JArr rows) json /\ isTable (JArr rows) = true.
Proof.
  intros json rows H. destruct (scan_sound json rows H) as [Ht Hin].
  split; [exact Hin | exact Ht].
Qed.

Lemma scan_returns_a_table_of_the_document_witness :
  Inside (JArr [JObj [("x", JNum 1)]; JObj [("x", JNum 2)]]) x23_document.
Proof.
  apply (scan_returns_a_table_of_the_document x23_document
           [JObj [("x", JNum 1)]; JObj [("x", JNum 2)]]).
  vm_compute. reflexivity.
Defined.
